(** * proma backend: access-control predicates, membership resolver and
      partial-update query builder

    Shallow embedding of
      - helpers/sql.js            (sqlForPartialUpdate)
      - models/board.js, models/project.js, models/session.js, models/user.js
      - middleware/auth.js        (the ensure... predicates)
      - routes/*.js               (the middleware chain of every route)
    over a relational store whose tables are lists of rows
    (proma-schema.sql). *)

From Stdlib Require Import ZArith List String Ascii Bool Lia.
From Stdlib Require Import DecimalFacts DecimalNat DecimalString.
Import ListNotations.
Local Open Scope string_scope.
Local Open Scope Z_scope.

(** ** JavaScript values and faults *)

(** The values an id takes on the JavaScript side: a number (ids read
    from the store or from a verified token) or a string (Express route
    parameters are always strings). *)
Inductive jsval : Type :=
| JNum (n : Z)
| JStr (s : string).

(** [===]: no coercion, operands of different types are never equal. *)
Definition strict_eq (a b : jsval) : bool :=
  match a, b with
  | JNum x, JNum y => x =? y
  | JStr x, JStr y => String.eqb x y
  | _, _ => false
  end.

(** What a middleware hands to [next(err)].  [TypeError] is the
    JavaScript exception of reading a property of [undefined];
    [DbError] is a query rejected by the store. *)
Inductive fault : Type :=
| Unauthorized
| NotFound
| BadRequest
| TypeError
| DbError.

Inductive result (A : Type) : Type :=
| Ok (a : A)
| Err (e : fault).
Arguments Ok {A} a.
Arguments Err {A} e.

Definition bind {A B : Type} (m : result A) (k : A -> result B) : result B :=
  match m with
  | Ok a => k a
  | Err e => Err e
  end.

Notation "x <- m ;; k" := (bind m (fun x => k))
  (at level 61, m at next level, right associativity).

(** ** The store (proma-schema.sql) *)

Record UserRow : Type := {
  u_id : Z;
  u_email : string;
  u_firstName : string;
  u_lastName : string;
  u_isPm : bool
}.

Record BoardRow : Type := {
  b_id : Z;
  b_title : string
}.

Record BoardUserRow : Type := {
  bu_board_id : Z;
  bu_user_id : Z
}.

Record ProjectRow : Type := {
  p_id : Z;
  p_name : string;
  p_priority : Z;
  p_stage : string;
  p_boardId : Z
}.

Record ProjectUserRow : Type := {
  pu_project_id : Z;
  pu_user_id : Z
}.

Record SessionRow : Type := {
  s_id : Z;
  s_projectId : Z;
  s_userId : Z;
  s_startDatetime : Z;
  s_endDatetime : option Z;
  s_categoryId : Z;
  s_comment : option string
}.

Record Store : Type := {
  users : list UserRow;
  boards : list BoardRow;
  boards_users : list BoardUserRow;
  projects : list ProjectRow;
  projects_users : list ProjectUserRow;
  sessions : list SessionRow
}.

Definition UserRow_eq_dec (x y : UserRow) : {x = y} + {x <> y}.
Proof.
  decide equality; auto using Z.eq_dec, string_dec, bool_dec.
Defined.

(** *** Binding a query parameter to an INTEGER column

    node-postgres sends every parameter as text and the store reads it
    back as a 32-bit integer; text that is not an integer, or an integer
    out of range, makes the query fail.  The store's integer input takes
    white space, an optional sign, decimal digits, and white space. *)

Definition int4 (z : Z) : bool :=
  (-2147483648 <=? z) && (z <=? 2147483647).

Definition digit_of (c : ascii) : option Z :=
  let n := Z.of_nat (nat_of_ascii c) in
  if (48 <=? n) && (n <=? 57) then Some (n - 48) else None.

(** C's [isspace]: space, tab, line feed, vertical tab, form feed,
    carriage return. *)
Definition is_space (c : ascii) : bool :=
  let n := Z.of_nat (nat_of_ascii c) in
  (n =? 32) || ((9 <=? n) && (n <=? 13)).

Fixpoint skip_spaces (s : string) : string :=
  match s with
  | EmptyString => EmptyString
  | String c r => if is_space c then skip_spaces r else s
  end.

Fixpoint all_spaces (s : string) : bool :=
  match s with
  | EmptyString => true
  | String c r => is_space c && all_spaces r
  end.

(** One digit at least, then nothing but white space; [seen] tells
    whether a digit was read. *)
Fixpoint digits_then_spaces (acc : Z) (seen : bool) (s : string) : option Z :=
  match s with
  | EmptyString => if seen then Some acc else None
  | String c r =>
      match digit_of c with
      | Some d => digits_then_spaces (10 * acc + d) true r
      | None => if seen && all_spaces s then Some acc else None
      end
  end.

Definition int_of_text (s : string) : option Z :=
  match skip_spaces s with
  | EmptyString => None
  | String c r =>
      if Ascii.eqb c "-"%char
      then option_map Z.opp (digits_then_spaces 0 false r)
      else if Ascii.eqb c "+"%char
      then digits_then_spaces 0 false r
      else digits_then_spaces 0 false (String c r)
  end.

Definition pg_int (v : jsval) : option Z :=
  match v with
  | JNum n => if int4 n then Some n else None
  | JStr s =>
      match int_of_text s with
      | Some n => if int4 n then Some n else None
      | None => None
      end
  end.

(** A parameter that does not bind fails the query. *)
Definition param (v : jsval) : result Z :=
  match pg_int v with
  | Some n => Ok n
  | None => Err DbError
  end.

(** [result.rows[0]] *)
Definition rows0 {A : Type} (rows : list A) : option A := hd_error rows.

(** [result.rows.length > 0] *)
Definition nonempty {A : Type} (rows : list A) : bool :=
  (0 <? List.length rows)%nat.

(** *** Schema constraints: column types, primary keys, foreign keys *)

Fixpoint distinct (l : list Z) : bool :=
  match l with
  | [] => true
  | x :: r => negb (existsb (Z.eqb x) r) && distinct r
  end.

Fixpoint distinct2 (l : list (Z * Z)) : bool :=
  match l with
  | [] => true
  | (x, y) :: r =>
      negb (existsb (fun q => (fst q =? x) && (snd q =? y)) r) && distinct2 r
  end.

Definition has_id (ids : list Z) (n : Z) : bool := existsb (Z.eqb n) ids.

Definition store_ok (s : Store) : bool :=
  let uids := map u_id (users s) in
  let bids := map b_id (boards s) in
  let pids := map p_id (projects s) in
  (* column types *)
  forallb int4 uids && forallb int4 bids && forallb int4 pids &&
  forallb int4 (map s_id (sessions s)) &&
  (* primary keys *)
  distinct uids && distinct bids && distinct pids &&
  distinct (map s_id (sessions s)) &&
  distinct2 (map (fun r => (bu_board_id r, bu_user_id r)) (boards_users s)) &&
  distinct2 (map (fun r => (pu_project_id r, pu_user_id r)) (projects_users s)) &&
  (* foreign keys *)
  forallb (fun r => has_id bids (bu_board_id r) && has_id uids (bu_user_id r))
          (boards_users s) &&
  forallb (fun r => has_id bids (p_boardId r)) (projects s) &&
  forallb (fun r => has_id pids (pu_project_id r) && has_id uids (pu_user_id r))
          (projects_users s) &&
  forallb (fun r => has_id pids (s_projectId r) && has_id uids (s_userId r))
          (sessions s).

(** *** A statement that rewrites one table *)

Definition set_users (s : Store) (rows : list UserRow) : Store :=
  {| users := rows; boards := boards s; boards_users := boards_users s;
     projects := projects s; projects_users := projects_users s;
     sessions := sessions s |}.

Definition set_boards_users (s : Store) (rows : list BoardUserRow) : Store :=
  {| users := users s; boards := boards s; boards_users := rows;
     projects := projects s; projects_users := projects_users s;
     sessions := sessions s |}.

Definition set_projects_users (s : Store) (rows : list ProjectUserRow) : Store :=
  {| users := users s; boards := boards s; boards_users := boards_users s;
     projects := projects s; projects_users := rows;
     sessions := sessions s |}.

Definition set_sessions (s : Store) (rows : list SessionRow) : Store :=
  {| users := users s; boards := boards s; boards_users := boards_users s;
     projects := projects s; projects_users := projects_users s;
     sessions := rows |}.

(** ** models/board.js *)

Module Board.

(** Checks if the user is a member of the board. *)
Definition isUserOnBoard (s : Store) (userId boardId : jsval) : result bool :=
  b <- param boardId ;;
  let boardCheck := filter (fun r => b_id r =? b) (boards s) in
  match rows0 boardCheck with
  | None => Err NotFound
  | Some _ =>
      u <- param userId ;;
      let rows :=
        filter (fun r => (bu_user_id r =? u) && (bu_board_id r =? b))
               (boards_users s) in
      Ok (nonempty rows)
  end.

(** Remove user from board: the statement deletes the matching rows and
    returns them; the store after the statement comes with the outcome. *)
Definition removeUserFromBoard (s : Store) (userId boardId : jsval)
  : Store * result unit :=
  match pg_int userId, pg_int boardId with
  | Some u, Some b =>
      let hit := fun r => (bu_user_id r =? u) && (bu_board_id r =? b) in
      let deleted := filter hit (boards_users s) in
      let s' := {| users := users s;
                   boards := boards s;
                   boards_users := filter (fun r => negb (hit r)) (boards_users s);
                   projects := projects s;
                   projects_users := projects_users s;
                   sessions := sessions s |} in
      match rows0 deleted with
      | None => (s', Err NotFound)
      | Some _ => (s', Ok tt)
      end
  | _, _ => (s, Err DbError)
  end.

(** Gets an array of users and their data that are assigned to a board. *)
Definition getBoardUsers (s : Store) (boardId : jsval) : result (list UserRow) :=
  b <- param boardId ;;
  match rows0 (filter (fun r => b_id r =? b) (boards s)) with
  | None => Err NotFound
  | Some _ =>
      Ok (flat_map (fun u =>
            flat_map (fun bu =>
              if (u_id u =? bu_user_id bu) && (bu_board_id bu =? b)
              then [u] else [])
              (boards_users s))
            (users s))
  end.

(** Add a user to board via userID and boardID.  The INSERT of a pair
    that is already in boards_users violates the primary key and fails
    the query. *)
Definition addUserToBoard (s : Store) (userId boardId : jsval)
  : Store * result BoardUserRow :=
  match param boardId with
  | Err e => (s, Err e)
  | Ok b =>
      match rows0 (filter (fun r => b_id r =? b) (boards s)) with
      | None => (s, Err NotFound)
      | Some _ =>
          match param userId with
          | Err e => (s, Err e)
          | Ok u =>
              match rows0 (filter (fun r => u_id r =? u) (users s)) with
              | None => (s, Err NotFound)
              | Some _ =>
                  if existsb (fun r => (bu_user_id r =? u) && (bu_board_id r =? b))
                             (boards_users s)
                  then (s, Err DbError)
                  else
                    let row := {| bu_board_id := b; bu_user_id := u |} in
                    (set_boards_users s (boards_users s ++ [row]), Ok row)
              end
          end
      end
  end.

(** Get board details. *)
Definition get (s : Store) (boardId : jsval) : result BoardRow :=
  b <- param boardId ;;
  match rows0 (filter (fun r => b_id r =? b) (boards s)) with
  | None => Err NotFound
  | Some board => Ok board
  end.

End Board.

(** ** models/project.js *)

Module Project.

(** Get project by ID. *)
Definition getById (s : Store) (projectId : jsval) : result ProjectRow :=
  p <- param projectId ;;
  match rows0 (filter (fun r => p_id r =? p) (projects s)) with
  | None => Err NotFound
  | Some project => Ok project
  end.

(** Check if user is assigned a specific project by IDs. *)
Definition isUserOnProject (s : Store) (userId projectId : jsval) : result bool :=
  match pg_int userId, pg_int projectId with
  | Some u, Some p =>
      let rows :=
        filter (fun r => (pu_user_id r =? u) && (pu_project_id r =? p))
               (projects_users s) in
      Ok (nonempty rows)
  | _, _ => Err DbError
  end.

(** Get list of users on project. *)
Definition getProjectUsers (s : Store) (projectId : jsval)
  : result (list UserRow) :=
  p <- param projectId ;;
  match rows0 (filter (fun r => p_id r =? p) (projects s)) with
  | None => Err NotFound
  | Some _ =>
      Ok (flat_map (fun u =>
            flat_map (fun pu =>
              if (u_id u =? pu_user_id pu) && (pu_project_id pu =? p)
              then [u] else [])
              (projects_users s))
            (users s))
  end.

(** Get all projects for a given user. *)
Definition getUserProjects (s : Store) (userId : jsval)
  : result (list ProjectRow) :=
  u <- param userId ;;
  match rows0 (filter (fun r => u_id r =? u) (users s)) with
  | None => Err NotFound
  | Some _ =>
      Ok (flat_map (fun p =>
            flat_map (fun pu =>
              if (p_id p =? pu_project_id pu) && (pu_user_id pu =? u)
              then [p] else [])
              (projects_users s))
            (projects s))
  end.

(** Add user to project.  The value returned is the row of the user
    check, which selects the id alone.  The INSERT of a pair that is
    already in projects_users violates the primary key and fails the
    query. *)
Definition addUserToProject (s : Store) (userId projectId : jsval)
  : Store * result Z :=
  match param projectId with
  | Err e => (s, Err e)
  | Ok p =>
      match rows0 (filter (fun r => p_id r =? p) (projects s)) with
      | None => (s, Err NotFound)
      | Some _ =>
          match param userId with
          | Err e => (s, Err e)
          | Ok u =>
              match rows0 (filter (fun r => u_id r =? u) (users s)) with
              | None => (s, Err NotFound)
              | Some user =>
                  if existsb (fun r => (pu_project_id r =? p) && (pu_user_id r =? u))
                             (projects_users s)
                  then (s, Err DbError)
                  else
                    let row := {| pu_project_id := p; pu_user_id := u |} in
                    (set_projects_users s (projects_users s ++ [row]),
                     Ok (u_id user))
              end
          end
      end
  end.

(** Remove user from project: the DELETE returns nothing and its row
    count is not looked at. *)
Definition removeUserFromProject (s : Store) (userId projectId : jsval)
  : Store * result unit :=
  match param projectId with
  | Err e => (s, Err e)
  | Ok p =>
      match rows0 (filter (fun r => p_id r =? p) (projects s)) with
      | None => (s, Err NotFound)
      | Some _ =>
          match param userId with
          | Err e => (s, Err e)
          | Ok u =>
              match rows0 (filter (fun r => u_id r =? u) (users s)) with
              | None => (s, Err NotFound)
              | Some _ =>
                  (set_projects_users s
                     (filter (fun r => negb ((pu_user_id r =? u)
                                             && (pu_project_id r =? p)))
                             (projects_users s)),
                   Ok tt)
              end
          end
      end
  end.

End Project.

(** ** models/session.js *)

Module Session.

(** Get details about a session from ID: the first row, [undefined]
    ([None]) when there is none. *)
Definition getById (s : Store) (sessionId : jsval) : result (option SessionRow) :=
  n <- param sessionId ;;
  Ok (rows0 (filter (fun r => s_id r =? n) (sessions s))).

(** Get boardId that hosts the project hosting the session. *)
Definition getBoardId (s : Store) (sessionId : jsval) : result Z :=
  n <- param sessionId ;;
  match rows0 (filter (fun r => s_id r =? n) (sessions s)) with
  | None => Err NotFound
  | Some _ =>
      let rows :=
        flat_map (fun se =>
          flat_map (fun p =>
            if (s_projectId se =? p_id p) && (s_id se =? n)
            then [p_boardId p] else [])
            (projects s))
          (sessions s) in
      match rows0 rows with
      | None => Err TypeError
      | Some boardId => Ok boardId
      end
  end.

(** Get list of all sessions on a project. *)
Definition getProjectSessions (s : Store) (projectId : jsval)
  : result (list SessionRow) :=
  p <- param projectId ;;
  match rows0 (filter (fun r => p_id r =? p) (projects s)) with
  | None => Err NotFound
  | Some _ => Ok (filter (fun r => s_projectId r =? p) (sessions s))
  end.

(** Get all sessions completed by user. *)
Definition getSessionsByUserId (s : Store) (userId : jsval)
  : result (list SessionRow) :=
  u <- param userId ;;
  match rows0 (filter (fun r => u_id r =? u) (users s)) with
  | None => Err NotFound
  | Some _ => Ok (filter (fun r => s_userId r =? u) (sessions s))
  end.

(** Get all sessions on all of user's boards: sessions joined with
    projects, boards and boards_users. *)
Definition getAllSessionsFromUsersBoards (s : Store) (userId : jsval)
  : result (list SessionRow) :=
  u <- param userId ;;
  match rows0 (filter (fun r => u_id r =? u) (users s)) with
  | None => Err NotFound
  | Some _ =>
      Ok (flat_map (fun se =>
            flat_map (fun p =>
              flat_map (fun b =>
                flat_map (fun bu =>
                  if (s_projectId se =? p_id p)
                     && (p_boardId p =? b_id b)
                     && (bu_board_id bu =? b_id b)
                     && (bu_user_id bu =? u)
                  then [se] else [])
                  (boards_users s))
                (boards s))
              (projects s))
            (sessions s))
  end.

(** Delete session by ID. *)
Definition delete (s : Store) (sessionId : jsval) : Store * result unit :=
  match param sessionId with
  | Err e => (s, Err e)
  | Ok n =>
      let deleted := filter (fun r => s_id r =? n) (sessions s) in
      let s' := set_sessions s
                  (filter (fun r => negb (s_id r =? n)) (sessions s)) in
      match rows0 deleted with
      | None => (s', Err NotFound)
      | Some _ => (s', Ok tt)
      end
  end.

End Session.

(** ** models/user.js *)

Module User.

(** Fetch all users associated with a user through shared boards:
    users joined with boards_users twice, DISTINCT rows. *)
Definition getAllFromSharedBoards (s : Store) (userId : jsval)
  : result (list UserRow) :=
  n <- param userId ;;
  match rows0 (filter (fun r => u_id r =? n) (users s)) with
  | None => Err NotFound
  | Some _ =>
      let joined :=
        flat_map (fun u =>
          flat_map (fun bu1 =>
            flat_map (fun bu2 =>
              if (u_id u =? bu_user_id bu1)
                 && (bu_board_id bu1 =? bu_board_id bu2)
                 && (bu_user_id bu2 =? n)
              then [u] else [])
              (boards_users s))
            (boards_users s))
          (users s) in
      Ok (nodup UserRow_eq_dec joined)
  end.

(** Fetch user by ID. *)
Definition getById (s : Store) (userId : jsval) : result UserRow :=
  n <- param userId ;;
  match rows0 (filter (fun r => u_id r =? n) (users s)) with
  | None => Err NotFound
  | Some user => Ok user
  end.

(** Update user PM status: promotes the user, BadRequest if already PM.
    The value returned is the first row of the UPDATE, [undefined]
    ([None]) if it returned none. *)
Definition promoteToPm (s : Store) (userId : jsval)
  : Store * result (option UserRow) :=
  match param userId with
  | Err e => (s, Err e)
  | Ok n =>
      match rows0 (filter (fun r => u_id r =? n) (users s)) with
      | None => (s, Err NotFound)
      | Some preUpdateUser =>
          if u_isPm preUpdateUser then (s, Err BadRequest)
          else
            let promote := fun r =>
              {| u_id := u_id r; u_email := u_email r;
                 u_firstName := u_firstName r; u_lastName := u_lastName r;
                 u_isPm := true |} in
            let updated := map promote (filter (fun r => u_id r =? n) (users s)) in
            (set_users s (map (fun r => if u_id r =? n then promote r else r)
                              (users s)),
             Ok (rows0 updated))
      end
  end.

End User.

(** ** middleware/auth.js *)

(** [res.locals.user]: the payload of a verified token (helpers/tokens.js
    signs the id the users table issued, a number, and the isPm flag). *)
Record Actor : Type := {
  user_id : Z;
  user_email : string;
  user_isPm : bool
}.

(** [req.params]; a route reads only the parameter its path declares. *)
Record Params : Type := {
  boardId : string;
  projectId : string;
  sessionId : string;
  userId : string
}.

Module Auth.

(** [next()] is [Ok tt], [next(err)] is [Err err]. *)
Definition next : result unit := Ok tt.

(** Reading [user.id] when no user is attached throws. *)
Definition id_of (user : option Actor) : result Z :=
  match user with
  | Some u => Ok (user_id u)
  | None => Err TypeError
  end.

Definition ensureLoggedIn (user : option Actor) : result unit :=
  match user with
  | None => Err Unauthorized
  | Some _ => next
  end.

Definition ensurePm (user : option Actor) : result unit :=
  match user with
  | None => Err Unauthorized
  | Some u => if negb (user_isPm u) then Err Unauthorized else next
  end.

Section CorrectUserOrPm.
(** JavaScript's [parseInt(text, 10)]; [None] is NaN. *)
Variable parseInt10 : string -> option Z.

Definition ensureCorrectUserOrPm (user : option Actor) (params : Params)
  : result unit :=
  match user with
  | None => Err Unauthorized
  | Some u =>
      let same :=
        match parseInt10 (userId params) with
        | Some n => user_id u =? n
        | None => false
        end in
      if negb (user_isPm u || same) then Err Unauthorized else next
  end.
End CorrectUserOrPm.

Definition ensureUserOnBoard (s : Store) (user : option Actor) (params : Params)
  : result unit :=
  uid <- id_of user ;;
  isUserOnBoard <- Board.isUserOnBoard s (JNum uid) (JStr (boardId params)) ;;
  if negb isUserOnBoard then Err Unauthorized else next.

Definition ensureUserOnBoardOfProject (s : Store) (user : option Actor)
  (params : Params) : result unit :=
  project <- Project.getById s (JStr (projectId params)) ;;
  uid <- id_of user ;;
  isUserOnBoard <- Board.isUserOnBoard s (JNum uid) (JNum (p_boardId project)) ;;
  if negb isUserOnBoard then Err Unauthorized else next.

Definition ensureUserOnSessionBoard (s : Store) (user : option Actor)
  (params : Params) : result unit :=
  board <- Session.getBoardId s (JStr (sessionId params)) ;;
  uid <- id_of user ;;
  isUserOnBoard <- Board.isUserOnBoard s (JNum uid) (JNum board) ;;
  if negb isUserOnBoard then Err Unauthorized else next.

Definition ensureUserOnSessionOrPm (s : Store) (user : option Actor)
  (params : Params) : result unit :=
  found <- Session.getById s (JStr (sessionId params)) ;;
  match found with
  | None => Err TypeError
  | Some session =>
      project <- Project.getById s (JNum (s_projectId session)) ;;
      match user with
      | None => Err TypeError
      | Some u =>
          isPmOnBoard <-
            Board.isUserOnBoard s (JNum (user_id u)) (JNum (p_boardId project)) ;;
          if negb (strict_eq (JNum (s_userId session)) (JNum (user_id u))
                   || (user_isPm u && isPmOnBoard))
          then Err Unauthorized else next
      end
  end.

Definition ensureUserOnProjectOrPm (s : Store) (user : option Actor)
  (params : Params) : result unit :=
  project <- Project.getById s (JStr (projectId params)) ;;
  uid <- id_of user ;;
  isUserOnProject <-
    Project.isUserOnProject s (JNum uid) (JStr (projectId params)) ;;
  isPmOnBoard <- Board.isUserOnBoard s (JNum uid) (JNum (p_boardId project)) ;;
  if negb (isUserOnProject || isPmOnBoard) then Err Unauthorized else next.

(** [sharedUsers.some(sharedUser => sharedUser.id === user.id)] *)
Definition some_is (sharedUsers : list UserRow) (u : Actor) : bool :=
  existsb (fun sharedUser => strict_eq (JNum (u_id sharedUser)) (JNum (user_id u)))
          sharedUsers.

Definition ensureCorrectUserOrSharedBoardPm (s : Store) (user : option Actor)
  (params : Params) : result unit :=
  sharedUsers <- User.getAllFromSharedBoards s (JStr (userId params)) ;;
  match user with
  | None => Err TypeError
  | Some u =>
      let isSharedUser := some_is sharedUsers u in
      if negb (strict_eq (JNum (user_id u)) (JStr (userId params))
               || (user_isPm u && isSharedUser))
      then Err Unauthorized else next
  end.

(** With no user attached the callback of [some] throws on the first
    row; over no rows it never runs and the check fails as a denial. *)
Definition ensureUserOnSharedBoard (s : Store) (user : option Actor)
  (params : Params) : result unit :=
  sharedUsers <- User.getAllFromSharedBoards s (JStr (userId params)) ;;
  match user with
  | None =>
      match sharedUsers with
      | [] => Err Unauthorized
      | _ :: _ => Err TypeError
      end
  | Some u =>
      if negb (some_is sharedUsers u) then Err Unauthorized else next
  end.

End Auth.

(** ** routes/*.js: the middleware chain in front of every handler *)

Inductive middleware : Type :=
| EnsureLoggedIn
| EnsurePm
| EnsureUserOnBoard
| EnsureUserOnBoardOfProject
| EnsureUserOnSessionBoard
| EnsureUserOnSessionOrPm
| EnsureUserOnProjectOrPm
| EnsureCorrectUserOrSharedBoardPm
| EnsureUserOnSharedBoard.

Definition run (m : middleware) (s : Store) (user : option Actor) (params : Params)
  : result unit :=
  match m with
  | EnsureLoggedIn => Auth.ensureLoggedIn user
  | EnsurePm => Auth.ensurePm user
  | EnsureUserOnBoard => Auth.ensureUserOnBoard s user params
  | EnsureUserOnBoardOfProject => Auth.ensureUserOnBoardOfProject s user params
  | EnsureUserOnSessionBoard => Auth.ensureUserOnSessionBoard s user params
  | EnsureUserOnSessionOrPm => Auth.ensureUserOnSessionOrPm s user params
  | EnsureUserOnProjectOrPm => Auth.ensureUserOnProjectOrPm s user params
  | EnsureCorrectUserOrSharedBoardPm =>
      Auth.ensureCorrectUserOrSharedBoardPm s user params
  | EnsureUserOnSharedBoard => Auth.ensureUserOnSharedBoard s user params
  end.

Inductive route : Type :=
(* routes/auth.js *)
| AuthToken | AuthRegister
(* routes/boards.js *)
| BoardsList | BoardsCreate | BoardGet | BoardPatch
| BoardUsersGet | BoardUsersAdd | BoardUsersRemove
| BoardProjectsGet | BoardProjectsCreate
(* routes/projects.js *)
| ProjectsList | ProjectGet | ProjectPatch
| ProjectUsersGet | ProjectUsersAdd | ProjectUsersRemove
| ProjectSessionsGet | ProjectSessionsCreate
(* routes/sessions.js *)
| SessionsList | SessionGet | SessionPatch | SessionDelete
(* routes/users.js *)
| UsersList | UsersSearch | UserGet | UserPatch
(* routes/categories.js *)
| CategoriesList.

Definition chain (r : route) : list middleware :=
  match r with
  | AuthToken | AuthRegister => []
  | BoardsList => [EnsureLoggedIn]
  | BoardsCreate => [EnsurePm]
  | BoardGet => [EnsureLoggedIn; EnsureUserOnBoard]
  | BoardPatch => [EnsurePm; EnsureUserOnBoard]
  | BoardUsersGet => [EnsureLoggedIn; EnsureUserOnBoard]
  | BoardUsersAdd => [EnsurePm; EnsureUserOnBoard]
  | BoardUsersRemove => [EnsurePm; EnsureUserOnBoard]
  | BoardProjectsGet => [EnsureLoggedIn; EnsureUserOnBoard]
  | BoardProjectsCreate => [EnsurePm; EnsureUserOnBoard]
  | ProjectsList => [EnsureLoggedIn]
  | ProjectGet => [EnsureLoggedIn; EnsureUserOnBoardOfProject]
  | ProjectPatch => [EnsurePm; EnsureUserOnBoardOfProject]
  | ProjectUsersGet => [EnsureLoggedIn; EnsureUserOnBoardOfProject]
  | ProjectUsersAdd => [EnsurePm; EnsureUserOnBoardOfProject]
  | ProjectUsersRemove => [EnsurePm; EnsureUserOnBoardOfProject]
  | ProjectSessionsGet => [EnsureLoggedIn; EnsureUserOnBoardOfProject]
  | ProjectSessionsCreate => [EnsureLoggedIn; EnsureUserOnProjectOrPm]
  | SessionsList => [EnsureLoggedIn]
  | SessionGet => [EnsureLoggedIn; EnsureUserOnSessionBoard]
  | SessionPatch => [EnsureLoggedIn; EnsureUserOnSessionOrPm]
  | SessionDelete => [EnsureLoggedIn; EnsureUserOnSessionOrPm]
  | UsersList => [EnsureLoggedIn]
  | UsersSearch => [EnsureLoggedIn]
  | UserGet => [EnsureLoggedIn; EnsureUserOnSharedBoard]
  | UserPatch => [EnsureLoggedIn; EnsureCorrectUserOrSharedBoardPm]
  | CategoriesList => [EnsureLoggedIn]
  end.

(** The middlewares run in order; the first [next(err)] skips the rest
    and the handler. *)
Fixpoint run_chain (ms : list middleware) (s : Store) (user : option Actor)
  (params : Params) : result unit :=
  match ms with
  | [] => Ok tt
  | m :: rest =>
      match run m s user params with
      | Ok _ => run_chain rest s user params
      | Err e => Err e
      end
  end.

Definition gate (r : route) := run_chain (chain r).

(** ** routes/sessions.js and routes/boards.js: handlers behind a chain *)

Module Routes.

(** GET / of the sessions router, behind [ensureLoggedIn]: a PM gets the
    sessions of the boards they are on, anyone else their own. *)
Definition sessions_list (s : Store) (user : Actor) : result (list SessionRow) :=
  if user_isPm user
  then Session.getAllSessionsFromUsersBoards s (JNum (user_id user))
  else Session.getSessionsByUserId s (JNum (user_id user)).

(** DELETE /:sessionId of the sessions router: the chain, then the
    handler.  The response is [{ deleted: +req.params.sessionId }]; the
    value here is the parameter it reads. *)
Definition session_delete (s : Store) (user : option Actor) (params : Params)
  : Store * result string :=
  match gate SessionDelete s user params with
  | Err e => (s, Err e)
  | Ok _ =>
      match Session.delete s (JStr (sessionId params)) with
      | (s', Ok _) => (s', Ok (sessionId params))
      | (s', Err e) => (s', Err e)
      end
  end.

(** DELETE /:boardId/users of the boards router, with [userId] read from
    the request body: the chain, then the handler.  The response is
    [{ removed: +userId }]; the value here is the body's userId. *)
Definition board_user_remove (s : Store) (user : option Actor) (params : Params)
  (body_userId : jsval) : Store * result jsval :=
  match gate BoardUsersRemove s user params with
  | Err e => (s, Err e)
  | Ok _ =>
      match Board.removeUserFromBoard s body_userId (JStr (boardId params)) with
      | (s', Ok _) => (s', Ok body_userId)
      | (s', Err e) => (s', Err e)
      end
  end.

(** GET /:boardId of the boards router: the chain, then the handler. *)
Definition board_get (s : Store) (user : option Actor) (params : Params)
  : result BoardRow :=
  _ <- gate BoardGet s user params ;;
  Board.get s (JStr (boardId params)).

(** GET /:userId of the users router: the chain, then the handler. *)
Definition user_get (s : Store) (user : option Actor) (params : Params)
  : result UserRow :=
  _ <- gate UserGet s user params ;;
  User.getById s (JStr (userId params)).

End Routes.

(** ** helpers/sql.js *)

Module Sql.

Record PartialUpdate (V : Type) : Type := {
  sqlSetCols : string;
  values : list V
}.
Arguments sqlSetCols {V} _.
Arguments values {V} _.

(** The properties an object literal inherits from [Object.prototype],
    each with the text a template literal gives for its value: Node
    prints a built-in function as [function name() { [native code] }],
    and [__proto__] is [Object.prototype] itself. *)
Definition object_prototype : list (string * string) :=
  [("constructor", "function Object() { [native code] }");
   ("__defineGetter__", "function __defineGetter__() { [native code] }");
   ("__defineSetter__", "function __defineSetter__() { [native code] }");
   ("hasOwnProperty", "function hasOwnProperty() { [native code] }");
   ("__lookupGetter__", "function __lookupGetter__() { [native code] }");
   ("__lookupSetter__", "function __lookupSetter__() { [native code] }");
   ("isPrototypeOf", "function isPrototypeOf() { [native code] }");
   ("propertyIsEnumerable", "function propertyIsEnumerable() { [native code] }");
   ("toString", "function toString() { [native code] }");
   ("valueOf", "function valueOf() { [native code] }");
   ("__proto__", "[object Object]");
   ("toLocaleString", "function toLocaleString() { [native code] }")].

(** The object's own entry for a name. *)
Definition own (jsToSql : list (string * string)) (columnName : string)
  : option string :=
  option_map snd (find (fun e => String.eqb (fst e) columnName) jsToSql).

(** What the name reads on [Object.prototype]. *)
Definition inherited (columnName : string) : option string :=
  own object_prototype columnName.

(** [jsToSql[columnName]] for an object literal [jsToSql], given by its
    own entries: the own entry when there is one, otherwise the
    inherited property, otherwise [undefined] ([None]).  Every inherited
    value is truthy. *)
Definition lookup (jsToSql : list (string * string)) (columnName : string)
  : option string :=
  match own jsToSql columnName with
  | Some c => Some c
  | None => inherited columnName
  end.

(** [a || b] where [a] is a string or [undefined]: the empty string and
    [undefined] are falsy. *)
Definition or_else (a : option string) (b : string) : string :=
  match a with
  | Some EmptyString => b
  | Some c => c
  | None => b
  end.

Definition dquote : string := String (ascii_of_nat 34) EmptyString.

(** A non-negative integer in a template literal. *)
Definition decimal (n : nat) : string := NilZero.string_of_uint (Nat.to_uint n).

Definition fragment (jsToSql : list (string * string)) (columnName : string)
  (idx : nat) : string :=
  dquote ++ or_else (lookup jsToSql columnName) columnName ++ dquote
    ++ "=$" ++ decimal (idx + 1).

(** [keys.map((columnName, idx) => ...)] *)
Fixpoint map_idx {A B : Type} (f : A -> nat -> B) (idx : nat) (l : list A)
  : list B :=
  match l with
  | [] => []
  | x :: r => f x idx :: map_idx f (S idx) r
  end.

(** [dataToUpdate] is the list of the object's entries in the order
    [Object.keys] and [Object.values] enumerate them. *)
Definition sqlForPartialUpdate {V : Type} (dataToUpdate : list (string * V))
  (jsToSql : list (string * string)) : result (PartialUpdate V) :=
  let keys := map fst dataToUpdate in
  if (List.length keys =? 0)%nat then Err BadRequest
  else
    let columns := map_idx (fragment jsToSql) 0%nat keys in
    Ok {| sqlSetCols := String.concat ", " columns;
          values := map snd dataToUpdate |}.

End Sql.

(** ** The statement of a partial update (models/project.js and
    models/session.js, [update]): what the function hands to [db.query] *)

Module Update.

(** The text that fills the SET clause, the placeholder of the WHERE
    clause, and the values bound to the placeholders. *)
Record Statement : Type := {
  setCols : string;
  idSqlIndex : string;
  bound : list jsval
}.

Definition statement (jsToSql : list (string * string))
  (id : jsval) (data : list (string * jsval)) : result Statement :=
  r <- Sql.sqlForPartialUpdate data jsToSql ;;
  Ok {| setCols := Sql.sqlSetCols r;
        idSqlIndex := "$" ++ Sql.decimal (List.length (Sql.values r) + 1);
        bound := Sql.values r ++ [id] |}.

(** [Project.update]: no name is mapped. *)
Definition project := statement [].

(** [Session.update] *)
Definition session :=
  statement [("startDatetime", "start_datetime");
             ("endDatetime", "end_datetime");
             ("categoryId", "category_id")].

End Update.

(** ** The allow conditions as the specification words them *)

(** A resolver fact holds when the resolver answers [true]. *)
Definition holds (r : result bool) : bool :=
  match r with
  | Ok b => b
  | Err _ => false
  end.

(** OnProjectOrPmOnBoard: actor present and (isUserOnProject(actor.id,
    paramProjectId) OR (actor.isPm AND isUserOnBoard(actor.id,
    boardIdOfProject(paramProjectId)))). *)
Definition spec_OnProjectOrPmOnBoard (s : Store) (user : option Actor)
  (params : Params) : bool :=
  match user with
  | None => false
  | Some a =>
      holds (Project.isUserOnProject s (JNum (user_id a)) (JStr (projectId params)))
      || (user_isPm a
          && holds (project <- Project.getById s (JStr (projectId params)) ;;
                    Board.isUserOnBoard s (JNum (user_id a))
                                        (JNum (p_boardId project))))
  end.

(** CorrectUserOrSharedBoardPm: actor present and (actor.id == paramUserId
    OR (actor.isPm AND paramUserId in sharedUsers(actor.id))). *)
Definition spec_CorrectUserOrSharedBoardPm (s : Store) (user : option Actor)
  (params : Params) : bool :=
  match user with
  | None => false
  | Some a =>
      match pg_int (JStr (userId params)) with
      | None => false
      | Some n =>
          (user_id a =? n)
          || (user_isPm a
              && match User.getAllFromSharedBoards s (JNum (user_id a)) with
                 | Ok sharedUsers => existsb (fun v => u_id v =? n) sharedUsers
                 | Err _ => false
                 end)
      end
  end.

(** The boards of the resource a route addresses: the board in the path,
    the board of the project, the board of the session's project, the
    boards of the user. *)
Definition boards_of_user (s : Store) (n : Z) : list Z :=
  map bu_board_id (filter (fun r => bu_user_id r =? n) (boards_users s)).

Definition target_boards (r : route) (s : Store) (params : Params) : list Z :=
  match r with
  | BoardGet | BoardPatch | BoardUsersGet | BoardUsersAdd | BoardUsersRemove
  | BoardProjectsGet | BoardProjectsCreate =>
      match pg_int (JStr (boardId params)) with
      | Some b => [b]
      | None => []
      end
  | ProjectGet | ProjectPatch | ProjectUsersGet | ProjectUsersAdd
  | ProjectUsersRemove | ProjectSessionsGet | ProjectSessionsCreate =>
      match Project.getById s (JStr (projectId params)) with
      | Ok project => [p_boardId project]
      | Err _ => []
      end
  | SessionGet | SessionPatch | SessionDelete =>
      match Session.getById s (JStr (sessionId params)) with
      | Ok (Some session) =>
          match Project.getById s (JNum (s_projectId session)) with
          | Ok project => [p_boardId project]
          | Err _ => []
          end
      | _ => []
      end
  | UserGet | UserPatch =>
      match pg_int (JStr (userId params)) with
      | Some n => boards_of_user s n
      | None => []
      end
  | _ => []
  end.

Definition on_board (s : Store) (u b : Z) : Prop :=
  In {| bu_board_id := b; bu_user_id := u |} (boards_users s).

(** The test of the membership query on one row of boards_users. *)
Definition member_row (u b : Z) (r : BoardUserRow) : bool :=
  (bu_user_id r =? u) && (bu_board_id r =? b).

Definition on_project (s : Store) (u p : Z) : Prop :=
  In {| pu_project_id := p; pu_user_id := u |} (projects_users s).

(** The test of the membership query on one row of projects_users. *)
Definition assigned_row (u p : Z) (r : ProjectUserRow) : bool :=
  (pu_user_id r =? u) && (pu_project_id r =? p).

(** A users row with is_pm set. *)
Definition promoted (r : UserRow) : UserRow :=
  {| u_id := u_id r; u_email := u_email r; u_firstName := u_firstName r;
     u_lastName := u_lastName r; u_isPm := true |}.

Definition without_pm (a : Actor) : Actor :=
  {| user_id := user_id a; user_email := user_email a; user_isPm := false |}.

(** ** A small store used to run the definitions

    Users 1 (PM) and 2 are on board 1; users 3 and 4 (PM) are on no
    board.  Project 1 is on board 1, project 2 on board 2; nobody is
    assigned to a project.  Session 1 is user 2's, on project 1. *)

Definition demo_user (n : Z) (pm : bool) : UserRow :=
  {| u_id := n; u_email := Sql.decimal (Z.to_nat n) ++ "@proma";
     u_firstName := "U"; u_lastName := "L"; u_isPm := pm |}.

Definition demo : Store :=
  {| users := [demo_user 1 true; demo_user 2 false; demo_user 3 false;
               demo_user 4 true];
     boards := [ {| b_id := 1; b_title := "alpha" |};
                 {| b_id := 2; b_title := "beta" |} ];
     boards_users := [ {| bu_board_id := 1; bu_user_id := 1 |};
                       {| bu_board_id := 1; bu_user_id := 2 |} ];
     projects := [ {| p_id := 1; p_name := "one"; p_priority := 1;
                      p_stage := "pending"; p_boardId := 1 |};
                   {| p_id := 2; p_name := "two"; p_priority := 2;
                      p_stage := "pending"; p_boardId := 2 |} ];
     projects_users := [];
     sessions := [ {| s_id := 1; s_projectId := 1; s_userId := 2;
                      s_startDatetime := 0; s_endDatetime := None;
                      s_categoryId := 1; s_comment := None |} ] |}.

Definition actor (n : Z) (pm : bool) : Actor :=
  {| user_id := n; user_email := Sql.decimal (Z.to_nat n) ++ "@proma";
     user_isPm := pm |}.

(** Every route parameter set to the same text. *)
Definition at_id (t : string) : Params :=
  {| boardId := t; projectId := t; sessionId := t; userId := t |}.

(** * Properties *)

(** ** Lists of rows *)

Lemma rows0_filter_None {A : Type} (f : A -> bool) (l : list A) :
  rows0 (filter f l) = None <-> (forall x, In x l -> f x = false).
Proof.
  induction l as [| a l IH]; simpl.
  - split; [intros _ x [] | reflexivity].
  - destruct (f a) eqn:Fa; simpl.
    + split; [discriminate |].
      intros H. rewrite (H a (or_introl eq_refl)) in Fa. discriminate.
    + rewrite IH. split.
      * intros H x [<- | Hx]; auto.
      * intros H x Hx. apply H. now right.
Qed.

Lemma rows0_filter_Some {A : Type} (f : A -> bool) (l : list A) (x : A) :
  rows0 (filter f l) = Some x -> In x l /\ f x = true.
Proof.
  intros H. apply filter_In.
  destruct (filter f l) as [| y r]; [discriminate |].
  injection H as ->. now left.
Qed.

Lemma nonempty_filter {A : Type} (f : A -> bool) (l : list A) :
  nonempty (filter f l) = existsb f l.
Proof.
  induction l as [| a l IH]; simpl; [reflexivity |].
  destruct (f a); simpl; [reflexivity | exact IH].
Qed.

Lemma has_id_In (ids : list Z) (n : Z) : has_id ids n = true <-> In n ids.
Proof.
  unfold has_id. rewrite existsb_exists. split.
  - intros [x [Hx E]]. apply Z.eqb_eq in E. now subst.
  - intros H. exists n. split; [exact H | apply Z.eqb_refl].
Qed.

(** Under a primary key, the lookup by id finds the row that carries it. *)
Lemma distinct_lookup {A : Type} (key : A -> Z) (l : list A) (x : A) :
  distinct (map key l) = true -> In x l ->
  rows0 (filter (fun r => key r =? key x) l) = Some x.
Proof.
  induction l as [| a l IH]; simpl; [intros _ [] |].
  intros D [-> | Hx].
  - now rewrite Z.eqb_refl.
  - apply andb_prop in D. destruct D as [Da Dl].
    destruct (key a =? key x) eqn:E.
    + apply Z.eqb_eq in E. apply negb_true_iff in Da.
      assert (existsb (Z.eqb (key a)) (map key l) = true) as C.
      { apply existsb_exists. exists (key x). split.
        - now apply in_map.
        - now apply Z.eqb_eq. }
      rewrite C in Da. discriminate.
    + now apply IH.
Qed.

Lemma distinct_NoDup (l : list Z) : distinct l = true -> NoDup l.
Proof.
  induction l as [| a l IH]; simpl; intros D; constructor.
  - apply andb_prop in D. destruct D as [Da _].
    apply negb_true_iff in Da. intros Hin.
    assert (existsb (Z.eqb a) l = true) as C.
    { apply existsb_exists. exists a. split; [exact Hin | apply Z.eqb_refl]. }
    rewrite C in Da. discriminate.
  - apply IH. apply andb_prop in D. tauto.
Qed.

(** ** Parameter binding *)

Lemma param_Some (v : jsval) (n : Z) : pg_int v = Some n -> param v = Ok n.
Proof. unfold param. now intros ->. Qed.

Lemma param_Ok (v : jsval) (n : Z) : param v = Ok n -> pg_int v = Some n.
Proof. unfold param. destruct (pg_int v); congruence. Qed.

Lemma pg_int_JNum (n : Z) : int4 n = true -> pg_int (JNum n) = Some n.
Proof. simpl. now intros ->. Qed.

Lemma pg_int_JNum_inv (n m : Z) : pg_int (JNum n) = Some m -> m = n.
Proof. simpl. destruct (int4 n); congruence. Qed.

(** ** What the schema constraints give *)

Ltac split_store_ok H :=
  unfold store_ok in H;
  repeat (let H' := fresh "K" in apply andb_prop in H; destruct H as [H H']).

Lemma store_ok_users_pk (s : Store) :
  store_ok s = true -> distinct (map u_id (users s)) = true.
Proof. intros H. split_store_ok H. assumption. Qed.

Lemma store_ok_projects_pk (s : Store) :
  store_ok s = true -> distinct (map p_id (projects s)) = true.
Proof. intros H. split_store_ok H. assumption. Qed.

Lemma store_ok_board_int4 (s : Store) (n : Z) :
  store_ok s = true -> In n (map b_id (boards s)) -> int4 n = true.
Proof.
  intros H Hn. split_store_ok H.
  match goal with K : forallb int4 (map b_id _) = true |- _ =>
    rewrite forallb_forall in K; now apply K end.
Qed.

Lemma store_ok_user_int4 (s : Store) (n : Z) :
  store_ok s = true -> In n (map u_id (users s)) -> int4 n = true.
Proof.
  intros H Hn. split_store_ok H.
  match goal with K : forallb int4 (map u_id _) = true |- _ =>
    rewrite forallb_forall in K; now apply K end.
Qed.

Lemma store_ok_project_board (s : Store) (p : ProjectRow) :
  store_ok s = true -> In p (projects s) ->
  In (p_boardId p) (map b_id (boards s)).
Proof.
  intros H Hp. split_store_ok H.
  match goal with K : forallb _ (projects _) = true |- _ =>
    rewrite forallb_forall in K; apply K in Hp end.
  now apply has_id_In.
Qed.

Lemma store_ok_membership (s : Store) (r : BoardUserRow) :
  store_ok s = true -> In r (boards_users s) ->
  In (bu_board_id r) (map b_id (boards s)) /\
  In (bu_user_id r) (map u_id (users s)).
Proof.
  intros H Hr. split_store_ok H.
  match goal with K : forallb _ (boards_users _) = true |- _ =>
    rewrite forallb_forall in K; apply K in Hr end.
  apply andb_prop in Hr. now rewrite <- !has_id_In.
Qed.

Lemma store_ok_memberships_pk (s : Store) :
  store_ok s = true ->
  distinct2 (map (fun r => (bu_board_id r, bu_user_id r)) (boards_users s)) = true.
Proof. intros H. split_store_ok H. assumption. Qed.

(** ** The membership resolver *)

Lemma member_row_on_board (s : Store) (u b : Z) :
  existsb (member_row u b) (boards_users s) = true <-> on_board s u b.
Proof.
  unfold on_board, member_row. rewrite existsb_exists. split.
  - intros [[rb ru] [Hr E]]. simpl in E. apply andb_prop in E.
    destruct E as [E1 E2]. apply Z.eqb_eq in E1, E2. now subst.
  - intros H. eexists. split; [exact H |]. simpl. now rewrite !Z.eqb_refl.
Qed.

Lemma board_check_found (s : Store) (b : Z) :
  In b (map b_id (boards s)) ->
  exists row, rows0 (filter (fun r => b_id r =? b) (boards s)) = Some row.
Proof.
  intros H. destruct (rows0 _) as [row |] eqn:E; [now exists row |].
  rewrite rows0_filter_None in E. apply in_map_iff in H.
  destruct H as [r [<- Hr]]. apply E in Hr. now rewrite Z.eqb_refl in Hr.
Qed.

Lemma board_check_absent (s : Store) (b : Z) :
  (forall r, In r (boards s) -> b_id r <> b) ->
  rows0 (filter (fun r => b_id r =? b) (boards s)) = None.
Proof.
  intros H. apply rows0_filter_None. intros r Hr. now apply Z.eqb_neq, H.
Qed.

Lemma isUserOnBoard_found (s : Store) (u b : jsval) (un bn : Z) :
  pg_int u = Some un -> pg_int b = Some bn -> In bn (map b_id (boards s)) ->
  Board.isUserOnBoard s u b = Ok (existsb (member_row un bn) (boards_users s)).
Proof.
  intros Hu Hb Hin. unfold Board.isUserOnBoard.
  rewrite (param_Some _ _ Hb). simpl.
  destruct (board_check_found s bn Hin) as [row ->].
  rewrite (param_Some _ _ Hu). simpl. now rewrite nonempty_filter.
Qed.

Lemma isUserOnBoard_absent (s : Store) (u b : jsval) (bn : Z) :
  pg_int b = Some bn -> (forall r, In r (boards s) -> b_id r <> bn) ->
  Board.isUserOnBoard s u b = Err NotFound.
Proof.
  intros Hb H. unfold Board.isUserOnBoard. rewrite (param_Some _ _ Hb). simpl.
  now rewrite board_check_absent.
Qed.

Lemma isUserOnBoard_true (s : Store) (u b : jsval) :
  Board.isUserOnBoard s u b = Ok true ->
  exists un bn, pg_int u = Some un /\ pg_int b = Some bn /\ on_board s un bn.
Proof.
  unfold Board.isUserOnBoard, param.
  destruct (pg_int b) as [bn |]; simpl; [| discriminate].
  destruct (rows0 _); [| discriminate].
  destruct (pg_int u) as [un |]; simpl; [| discriminate].
  rewrite nonempty_filter. intros [= E].
  exists un, bn. repeat split. now apply member_row_on_board.
Qed.

Lemma getById_found (s : Store) (x : jsval) (p : ProjectRow) :
  store_ok s = true -> In p (projects s) -> pg_int x = Some (p_id p) ->
  Project.getById s x = Ok p.
Proof.
  intros Hs Hp Hx. unfold Project.getById. rewrite (param_Some _ _ Hx). simpl.
  now rewrite (distinct_lookup p_id _ p (store_ok_projects_pk s Hs) Hp).
Qed.

Lemma getById_absent (s : Store) (x : jsval) (n : Z) :
  pg_int x = Some n -> (forall r, In r (projects s) -> p_id r <> n) ->
  Project.getById s x = Err NotFound.
Proof.
  intros Hx H. unfold Project.getById. rewrite (param_Some _ _ Hx). simpl.
  assert (rows0 (filter (fun r => p_id r =? n) (projects s)) = None) as ->;
    [| reflexivity].
  apply rows0_filter_None. intros r Hr. now apply Z.eqb_neq, H.
Qed.

Lemma on_board_int4 (s : Store) (u b : Z) :
  store_ok s = true -> on_board s u b -> int4 u = true /\ int4 b = true.
Proof.
  intros Hs H. destruct (store_ok_membership s _ Hs H) as [Hb Hu]. simpl in *.
  split; [eapply store_ok_user_int4 | eapply store_ok_board_int4]; eassumption.
Qed.

(** ** The authorization predicates *)




(** C1: OnProjectOrPmOnBoard as the code evaluates it never reads the
    isPm flag: every member of the project's board passes, whether a PM
    or not and whether assigned to the project or not. *)
Theorem ensureUserOnProjectOrPm_allows_board_member
  (s : Store) (a : Actor) (proj : ProjectRow) (req : Params) :
  store_ok s = true -> In proj (projects s) ->
  pg_int (JStr (projectId req)) = Some (p_id proj) ->
  on_board s (user_id a) (p_boardId proj) ->
  Auth.ensureUserOnProjectOrPm s (Some a) req = Ok tt.
Proof.
  intros Hs Hp Hx On. unfold Auth.ensureUserOnProjectOrPm.
  destruct (on_board_int4 s _ _ Hs On) as [Ha Hb].
  rewrite (getById_found s _ proj Hs Hp Hx). simpl.
  unfold Project.isUserOnProject.
  rewrite (pg_int_JNum _ Ha), Hx. simpl.
  rewrite (isUserOnBoard_found s _ _ (user_id a) (p_boardId proj));
    auto using pg_int_JNum.
  - apply member_row_on_board in On. rewrite On. simpl.
    now rewrite orb_true_r.
  - eapply store_ok_project_board; eassumption.
Qed.

Lemma ensureUserOnProjectOrPm_allows_board_member_witness :
  user_isPm (actor 2 false) = false /\
  Project.isUserOnProject demo (JNum 2) (JStr "1") = Ok false /\
  spec_OnProjectOrPmOnBoard demo (Some (actor 2 false)) (at_id "1") = false /\
  Auth.ensureUserOnProjectOrPm demo (Some (actor 2 false)) (at_id "1") = Ok tt.
Proof.
  split; [reflexivity |]. split; [reflexivity |]. split; [reflexivity |].
  apply (ensureUserOnProjectOrPm_allows_board_member demo (actor 2 false)
    {| p_id := 1; p_name := "one"; p_priority := 1; p_stage := "pending";
       p_boardId := 1 |} (at_id "1")).
  - reflexivity.
  - simpl. tauto.
  - reflexivity.
  - unfold on_board. simpl. tauto.
Defined.

(** ** Shared boards *)

Lemma shared_join_In (us : list UserRow) (bus : list BoardUserRow) (n : Z)
  (v : UserRow) :
  In v (flat_map (fun u =>
          flat_map (fun bu1 =>
            flat_map (fun bu2 =>
              if (u_id u =? bu_user_id bu1)
                 && (bu_board_id bu1 =? bu_board_id bu2)
                 && (bu_user_id bu2 =? n)
              then [u] else [])
              bus)
            bus)
          us)
  <-> In v us /\
      exists b, In {| bu_board_id := b; bu_user_id := u_id v |} bus /\
                In {| bu_board_id := b; bu_user_id := n |} bus.
Proof.
  rewrite in_flat_map. split.
  - intros [u [Hu H]]. apply in_flat_map in H. destruct H as [bu1 [H1 H]].
    apply in_flat_map in H. destruct H as [bu2 [H2 H]].
    destruct (_ && _) eqn:E; [| destruct H].
    destruct H as [-> | []].
    apply andb_prop in E. destruct E as [E E3].
    apply andb_prop in E. destruct E as [E1 E2].
    apply Z.eqb_eq in E1, E2, E3.
    destruct bu1 as [b1 u1], bu2 as [b2 u2]. simpl in *. subst.
    split; [assumption |]. exists b2. now split.
  - intros [Hv [b [H1 H2]]]. exists v. split; [assumption |].
    apply in_flat_map. eexists. split; [exact H1 |].
    apply in_flat_map. eexists. split; [exact H2 |].
    simpl. rewrite !Z.eqb_refl. simpl. now left.
Qed.

Lemma getAllFromSharedBoards_found (s : Store) (x : jsval) (n : Z) :
  pg_int x = Some n -> In n (map u_id (users s)) ->
  exists rows,
    User.getAllFromSharedBoards s x = Ok rows /\
    NoDup rows /\
    (forall v, In v rows <->
       In v (users s) /\ exists b, on_board s (u_id v) b /\ on_board s n b).
Proof.
  intros Hx Hn. unfold User.getAllFromSharedBoards.
  rewrite (param_Some _ _ Hx). simpl.
  destruct (rows0 _) eqn:E.
  - eexists. split; [reflexivity |]. split; [apply NoDup_nodup |].
    intros v. rewrite nodup_In. apply shared_join_In.
  - rewrite rows0_filter_None in E. apply in_map_iff in Hn.
    destruct Hn as [r [<- Hr]]. apply E in Hr. now rewrite Z.eqb_refl in Hr.
Qed.

Lemma getAllFromSharedBoards_Ok (s : Store) (x : jsval) (rows : list UserRow) :
  User.getAllFromSharedBoards s x = Ok rows ->
  exists n, pg_int x = Some n /\
    (forall v, In v rows <->
       In v (users s) /\ exists b, on_board s (u_id v) b /\ on_board s n b).
Proof.
  unfold User.getAllFromSharedBoards, param.
  destruct (pg_int x) as [n |]; simpl; [| discriminate].
  destruct (rows0 _); [| discriminate].
  intros [= <-]. exists n. split; [reflexivity |].
  intros v. rewrite nodup_In. apply shared_join_In.
Qed.

Lemma getAllFromSharedBoards_absent (s : Store) (x : jsval) (n : Z) :
  pg_int x = Some n -> (forall r, In r (users s) -> u_id r <> n) ->
  User.getAllFromSharedBoards s x = Err NotFound.
Proof.
  intros Hx H. unfold User.getAllFromSharedBoards.
  rewrite (param_Some _ _ Hx). simpl.
  assert (rows0 (filter (fun r => u_id r =? n) (users s)) = None) as ->;
    [| reflexivity].
  apply rows0_filter_None. intros r Hr. now apply Z.eqb_neq, H.
Qed.

(** C3: CorrectUserOrSharedBoardPm as the code evaluates it compares the
    actor's id, a number, with the route parameter, a string, by [===]:
    the comparison is never true, and an actor who is not a PM is denied
    on the user they are themselves. *)
Theorem ensureCorrectUserOrSharedBoardPm_denies_self_without_pm
  (s : Store) (a : Actor) (req : Params) :
  user_isPm a = false ->
  pg_int (JStr (userId req)) = Some (user_id a) ->
  In (user_id a) (map u_id (users s)) ->
  Auth.ensureCorrectUserOrSharedBoardPm s (Some a) req = Err Unauthorized.
Proof.
  intros Hpm Hx Hu. unfold Auth.ensureCorrectUserOrSharedBoardPm.
  destruct (getAllFromSharedBoards_found s _ _ Hx Hu) as [rows [-> _]].
  simpl. now rewrite Hpm.
Qed.

Lemma ensureCorrectUserOrSharedBoardPm_denies_self_without_pm_witness :
  spec_CorrectUserOrSharedBoardPm demo (Some (actor 2 false)) (at_id "2") = true /\
  Auth.ensureCorrectUserOrSharedBoardPm demo (Some (actor 2 false)) (at_id "2")
    = Err Unauthorized.
Proof.
  split; [reflexivity |].
  apply (ensureCorrectUserOrSharedBoardPm_denies_self_without_pm
           demo (actor 2 false) (at_id "2")).
  - reflexivity.
  - reflexivity.
  - simpl. tauto.
Defined.

(** The other predicates that depend on a board, a project, a session or
    a user fail with NotFound when it is absent. *)
Lemma sibling_predicates_NotFound (s : Store) (a : Actor) (req : Params) (n : Z) :
  (pg_int (JStr (boardId req)) = Some n ->
   (forall r, In r (boards s) -> b_id r <> n) ->
   Auth.ensureUserOnBoard s (Some a) req = Err NotFound) /\
  (pg_int (JStr (projectId req)) = Some n ->
   (forall r, In r (projects s) -> p_id r <> n) ->
   Auth.ensureUserOnBoardOfProject s (Some a) req = Err NotFound /\
   Auth.ensureUserOnProjectOrPm s (Some a) req = Err NotFound) /\
  (pg_int (JStr (sessionId req)) = Some n ->
   (forall r, In r (sessions s) -> s_id r <> n) ->
   Auth.ensureUserOnSessionBoard s (Some a) req = Err NotFound) /\
  (pg_int (JStr (userId req)) = Some n ->
   (forall r, In r (users s) -> u_id r <> n) ->
   Auth.ensureCorrectUserOrSharedBoardPm s (Some a) req = Err NotFound /\
   Auth.ensureUserOnSharedBoard s (Some a) req = Err NotFound).
Proof.
  repeat apply conj.
  - intros Hx H. unfold Auth.ensureUserOnBoard. simpl.
    now rewrite (isUserOnBoard_absent s _ _ n Hx H).
  - intros Hx H. split.
    + unfold Auth.ensureUserOnBoardOfProject.
      now rewrite (getById_absent s _ n Hx H).
    + unfold Auth.ensureUserOnProjectOrPm.
      now rewrite (getById_absent s _ n Hx H).
  - intros Hx H. unfold Auth.ensureUserOnSessionBoard, Session.getBoardId.
    rewrite (param_Some _ _ Hx). simpl.
    assert (rows0 (filter (fun r => s_id r =? n) (sessions s)) = None) as ->;
      [| reflexivity].
    apply rows0_filter_None. intros r Hr. now apply Z.eqb_neq, H.
  - intros Hx H. split.
    + unfold Auth.ensureCorrectUserOrSharedBoardPm.
      now rewrite (getAllFromSharedBoards_absent s _ n Hx H).
    + unfold Auth.ensureUserOnSharedBoard.
      now rewrite (getAllFromSharedBoards_absent s _ n Hx H).
Qed.

(** C4: SessionOwnerOrPmOnBoard evaluated on a session id that no session
    carries: the lookup by id returns [undefined] without a NotFound
    check, and reading its project fails with a TypeError, for every
    actor. *)
Theorem ensureUserOnSessionOrPm_absent_session
  (s : Store) (user : option Actor) (req : Params) (n : Z) :
  pg_int (JStr (sessionId req)) = Some n ->
  (forall r, In r (sessions s) -> s_id r <> n) ->
  Auth.ensureUserOnSessionOrPm s user req = Err TypeError.
Proof.
  intros Hx H. unfold Auth.ensureUserOnSessionOrPm, Session.getById.
  rewrite (param_Some _ _ Hx). simpl.
  assert (rows0 (filter (fun r => s_id r =? n) (sessions s)) = None) as ->;
    [| reflexivity].
  apply rows0_filter_None. intros r Hr. now apply Z.eqb_neq, H.
Qed.

Lemma ensureUserOnSessionOrPm_absent_session_witness :
  Auth.ensureUserOnSessionOrPm demo (Some (actor 1 true)) (at_id "99")
    = Err TypeError /\
  Auth.ensureUserOnSessionBoard demo (Some (actor 1 true)) (at_id "99")
    = Err NotFound.
Proof.
  split; [| reflexivity].
  apply (ensureUserOnSessionOrPm_absent_session demo (Some (actor 1 true))
           (at_id "99") 99).
  - reflexivity.
  - simpl. intros r [<- | []]. discriminate.
Defined.

Lemma distinct_injective {A : Type} (key : A -> Z) (l : list A) (x y : A) :
  distinct (map key l) = true -> In x l -> In y l -> key x = key y -> x = y.
Proof.
  intros D Hx Hy E.
  pose proof (distinct_lookup key l x D Hx) as Lx.
  pose proof (distinct_lookup key l y D Hy) as Ly.
  rewrite E in Lx. congruence.
Qed.

Lemma NoDup_map_on {A : Type} (key : A -> Z) (l : list A) :
  (forall x y, In x l -> In y l -> key x = key y -> x = y) ->
  NoDup l -> NoDup (map key l).
Proof.
  induction l as [| a l IH]; simpl; intros Inj N; [constructor |].
  inversion N as [| ? ? Ha Nl]; subst. constructor.
  - intros Hin. apply in_map_iff in Hin. destruct Hin as [y [E Hy]].
    assert (y = a) as -> by (apply Inj; auto). contradiction.
  - apply IH; [| assumption]. intros x y Hx Hy. apply Inj; now right.
Qed.

(** C5 (amended): for a user that exists, sharedUsers returns, without
    repetition, exactly the users that are on some board the user is on;
    the user itself is among them exactly when it is on at least one
    board. *)
Theorem getAllFromSharedBoards_shared_users (s : Store) (x : jsval) (n : Z) :
  pg_int x = Some n -> In n (map u_id (users s)) ->
  exists rows,
    User.getAllFromSharedBoards s x = Ok rows /\
    NoDup rows /\
    (store_ok s = true -> NoDup (map u_id rows)) /\
    (forall v, In v rows <->
       In v (users s) /\ exists b, on_board s n b /\ on_board s (u_id v) b) /\
    ((exists v, In v rows /\ u_id v = n) <-> exists b, on_board s n b).
Proof.
  intros Hx Hn.
  destruct (getAllFromSharedBoards_found s x n Hx Hn) as [rows [E [N M]]].
  exists rows. split; [exact E |]. split; [exact N |]. split; [| split].
  - intros Hs. apply NoDup_map_on; [| exact N].
    intros a b Ha Hb. apply M in Ha, Hb.
    apply (distinct_injective u_id (users s)); try tauto.
    now apply store_ok_users_pk.
  - intros v. rewrite M. split; intros [Hv [b [H1 H2]]]; split; eauto.
  - split.
    + intros [v [Hv Ev]]. apply M in Hv. destruct Hv as [_ [b [_ H]]].
      now exists b.
    + intros [b Hb]. apply in_map_iff in Hn. destruct Hn as [v [Ev Hv]].
      exists v. split; [| exact Ev]. apply M. split; [exact Hv |].
      exists b. rewrite Ev. now split.
Qed.

Lemma getAllFromSharedBoards_shared_users_witness :
  exists rows,
    User.getAllFromSharedBoards demo (JNum 2) = Ok rows /\
    NoDup rows /\
    (store_ok demo = true -> NoDup (map u_id rows)) /\
    (forall v, In v rows <->
       In v (users demo) /\
       exists b, on_board demo 2 b /\ on_board demo (u_id v) b) /\
    ((exists v, In v rows /\ u_id v = 2) <-> exists b, on_board demo 2 b).
Proof.
  apply (getAllFromSharedBoards_shared_users demo (JNum 2) 2).
  - reflexivity.
  - simpl. tauto.
Defined.

(** C5, as stated: user 3 exists and is on no board, and sharedUsers of
    user 3 is empty: it does not contain user 3. *)
Lemma getAllFromSharedBoards_boardless_user :
  In 3 (map u_id (users demo)) /\
  (forall b, ~ on_board demo 3 b) /\
  User.getAllFromSharedBoards demo (JNum 3) = Ok [].
Proof.
  split; [simpl; tauto |]. split; [| reflexivity].
  intros b. unfold on_board. simpl. intros [H | [H | []]]; discriminate H.
Qed.

(** C6 (amended): isUserOnBoard, boardIdOfProject and boardIdOfSession
    fail with NotFound when the board, project or session they are given
    is absent.  isUserOnBoard does not look the user up, and
    isUserOnProject looks up neither the project nor the user: they
    answer with the boolean of the membership row, which is false for an
    absent user or project. *)
Theorem resolver_existence_checks (s : Store) (u x : jsval) (un n : Z) :
  pg_int u = Some un -> pg_int x = Some n ->
  ((forall r, In r (boards s) -> b_id r <> n) ->
     Board.isUserOnBoard s u x = Err NotFound) /\
  ((forall r, In r (projects s) -> p_id r <> n) ->
     Project.getById s x = Err NotFound) /\
  ((forall r, In r (sessions s) -> s_id r <> n) ->
     Session.getBoardId s x = Err NotFound) /\
  (In n (map b_id (boards s)) ->
     Board.isUserOnBoard s u x = Ok (existsb (member_row un n) (boards_users s))) /\
  (In n (map b_id (boards s)) -> store_ok s = true ->
     (forall r, In r (users s) -> u_id r <> un) ->
     Board.isUserOnBoard s u x = Ok false) /\
  Project.isUserOnProject s u x =
    Ok (existsb (fun r => (pu_user_id r =? un) && (pu_project_id r =? n))
                (projects_users s)) /\
  (store_ok s = true -> (forall r, In r (projects s) -> p_id r <> n) ->
     Project.isUserOnProject s u x = Ok false).
Proof.
  intros Hu Hx.
  assert (Project.isUserOnProject s u x =
          Ok (existsb (fun r => (pu_user_id r =? un) && (pu_project_id r =? n))
                      (projects_users s))) as P.
  { unfold Project.isUserOnProject. rewrite Hu, Hx.
    now rewrite nonempty_filter. }
  repeat apply conj.
  - now apply isUserOnBoard_absent.
  - now apply getById_absent.
  - intros H. unfold Session.getBoardId. rewrite (param_Some _ _ Hx). simpl.
    assert (rows0 (filter (fun r => s_id r =? n) (sessions s)) = None) as ->;
      [| reflexivity].
    apply rows0_filter_None. intros r Hr. now apply Z.eqb_neq, H.
  - now apply isUserOnBoard_found.
  - intros Hb Hs H. rewrite (isUserOnBoard_found s u x un n Hu Hx Hb).
    f_equal. apply not_true_is_false. intros C.
    apply member_row_on_board in C.
    destruct (store_ok_membership s _ Hs C) as [_ Hin]. simpl in Hin.
    apply in_map_iff in Hin. destruct Hin as [r [E Hr]]. exact (H r Hr E).
  - exact P.
  - intros Hs H. rewrite P. f_equal. apply not_true_is_false. intros C.
    apply existsb_exists in C. destruct C as [r [Hr C]].
    apply andb_prop in C. destruct C as [_ C]. apply Z.eqb_eq in C.
    split_store_ok Hs.
    match goal with K : forallb _ (projects_users _) = true |- _ =>
      rewrite forallb_forall in K; apply K in Hr end.
    apply andb_prop in Hr. destruct Hr as [Hr _]. apply has_id_In in Hr.
    apply in_map_iff in Hr. destruct Hr as [p [E Hp]].
    apply (H p Hp). congruence.
Qed.

Lemma resolver_existence_checks_witness :
  Board.isUserOnBoard demo (JNum 2) (JStr "99") = Err NotFound /\
  Project.getById demo (JStr "99") = Err NotFound /\
  Session.getBoardId demo (JStr "99") = Err NotFound /\
  Project.isUserOnProject demo (JNum 2) (JStr "99") = Ok false.
Proof.
  destruct (resolver_existence_checks demo (JNum 2) (JStr "99") 2 99
              eq_refl eq_refl) as [B [P [S [_ [_ [_ U]]]]]].
  split; [apply B | split; [apply P | split; [apply S | apply U]]];
    try reflexivity; simpl; intros r H;
    repeat (destruct H as [<- | H]; [discriminate |]); destruct H.
Defined.

(** C6, as stated: no project has id 99, user 2 exists, and
    isUserOnProject answers false, not NotFound. *)
Lemma isUserOnProject_absent_project :
  (forall r, In r (projects demo) -> p_id r <> 99) /\
  Project.isUserOnProject demo (JNum 2) (JStr "99") = Ok false.
Proof.
  split; [| reflexivity].
  simpl. intros r H.
  repeat (destruct H as [<- | H]; [discriminate |]). destruct H.
Qed.

(** ** The isPm flag in the route chains *)

Lemma passes (c : bool) :
  (if negb c then Err Unauthorized else Auth.next) = Ok tt -> c = true.
Proof. destruct c; [reflexivity | discriminate]. Qed.

Lemma bind_Ok {A B : Type} (m : result A) (k : A -> result B) (b : B) :
  bind m k = Ok b -> exists a, m = Ok a /\ k a = Ok b.
Proof. destruct m as [a | e]; simpl; [eauto | discriminate]. Qed.

(** IsPm and CorrectUserOrPm pass a PM on the flag alone. *)
Lemma ensurePm_pm (a : Actor) :
  user_isPm a = true -> Auth.ensurePm (Some a) = Ok tt.
Proof. simpl. now intros ->. Qed.

Lemma ensureCorrectUserOrPm_pm (parseInt10 : string -> option Z) (a : Actor)
  (req : Params) :
  user_isPm a = true -> Auth.ensureCorrectUserOrPm parseInt10 (Some a) req = Ok tt.
Proof. unfold Auth.ensureCorrectUserOrPm. now intros ->. Qed.

Lemma ensureUserOnBoard_Ok (s : Store) (a : Actor) (req : Params) :
  Auth.ensureUserOnBoard s (Some a) req = Ok tt ->
  exists b, pg_int (JStr (boardId req)) = Some b /\ on_board s (user_id a) b.
Proof.
  unfold Auth.ensureUserOnBoard. simpl. intros H.
  apply bind_Ok in H. destruct H as [q [E H]]. apply passes in H. subst q.
  apply isUserOnBoard_true in E. destruct E as [un [bn [Hu [Hb On]]]].
  apply pg_int_JNum_inv in Hu. subst un. eauto.
Qed.

Lemma ensureUserOnBoardOfProject_Ok (s : Store) (a : Actor) (req : Params) :
  Auth.ensureUserOnBoardOfProject s (Some a) req = Ok tt ->
  exists project,
    Project.getById s (JStr (projectId req)) = Ok project /\
    on_board s (user_id a) (p_boardId project).
Proof.
  unfold Auth.ensureUserOnBoardOfProject. intros H.
  apply bind_Ok in H. destruct H as [project [P H]]. simpl in H.
  apply bind_Ok in H. destruct H as [q [E H]]. apply passes in H. subst q.
  apply isUserOnBoard_true in E. destruct E as [un [bn [Hu [Hb On]]]].
  apply pg_int_JNum_inv in Hu, Hb. subst un bn. eauto.
Qed.

Lemma some_is_true (rows : list UserRow) (a : Actor) :
  Auth.some_is rows a = true -> exists v, In v rows /\ u_id v = user_id a.
Proof.
  unfold Auth.some_is. rewrite existsb_exists. intros [v [Hv E]].
  simpl in E. apply Z.eqb_eq in E. eauto.
Qed.

Lemma boards_of_user_In (s : Store) (n b : Z) :
  on_board s n b -> In b (boards_of_user s n).
Proof.
  unfold on_board, boards_of_user. intros H. apply in_map_iff.
  eexists. split; [| apply filter_In; split; [exact H |]]; simpl;
    [reflexivity | apply Z.eqb_refl].
Qed.

(** C2 (amended): on every route but the creation of a board, a PM who
    passes the route's chain either passes it with the isPm flag cleared
    as well, or is a member of a board of the resource the route
    addresses. *)
Theorem isPm_authorizes_only_with_board_membership
  (r : route) (s : Store) (a : Actor) (req : Params) :
  r <> BoardsCreate ->
  gate r s (Some a) req = Ok tt ->
  gate r s (Some (without_pm a)) req = Ok tt \/
  exists b, In b (target_boards r s req) /\ on_board s (user_id a) b.
Proof.
  intros Hr H.
  assert (forall m,
    chain r = [EnsurePm; m] ->
    (m = EnsureUserOnBoard \/ m = EnsureUserOnBoardOfProject) ->
    run m s (Some a) req = Ok tt) as Second.
  { intros m C _. unfold gate in H. rewrite C in H. simpl in H.
    destruct (user_isPm a); simpl in H; [| discriminate].
    destruct (run m s (Some a) req) as [[] |]; [reflexivity | discriminate]. }
  destruct r; try contradiction;
    try (left; exact H);
    try (right;
         specialize (Second _ eq_refl (or_introl eq_refl));
         apply ensureUserOnBoard_Ok in Second;
         destruct Second as [b [Hb On]]; exists b;
         unfold target_boards; rewrite Hb;
         split; [now left | exact On]);
    try (right;
         specialize (Second _ eq_refl (or_intror eq_refl));
         apply ensureUserOnBoardOfProject_Ok in Second;
         destruct Second as [project [P On]]; exists (p_boardId project);
         unfold target_boards; rewrite P; split; [now left | exact On]);
    clear Second Hr; unfold gate, target_boards in *;
    cbn [run_chain chain run Auth.ensureLoggedIn Auth.next] in *.
  - (* PATCH /sessions/:sessionId *)
    unfold Auth.ensureUserOnSessionOrPm in *.
    destruct (Session.getById s (JStr (sessionId req))) as [[session |] | e];
      cbn [bind] in *; try discriminate.
    destruct (Project.getById s (JNum (s_projectId session))) as [project | e];
      cbn [bind] in *; try discriminate.
    cbn [user_id user_isPm without_pm] in *.
    destruct (Board.isUserOnBoard s _ _) as [q | e] eqn:E;
      cbn [bind] in *; try discriminate.
    destruct (strict_eq _ _); [now left |].
    destruct (user_isPm a), q; try discriminate H.
    right. apply isUserOnBoard_true in E.
    destruct E as [un [bn [Hu [Hb On]]]].
    apply pg_int_JNum_inv in Hu, Hb. subst un bn.
    exists (p_boardId project). split; [now left | exact On].
  - (* DELETE /sessions/:sessionId *)
    unfold Auth.ensureUserOnSessionOrPm in *.
    destruct (Session.getById s (JStr (sessionId req))) as [[session |] | e];
      cbn [bind] in *; try discriminate.
    destruct (Project.getById s (JNum (s_projectId session))) as [project | e];
      cbn [bind] in *; try discriminate.
    cbn [user_id user_isPm without_pm] in *.
    destruct (Board.isUserOnBoard s _ _) as [q | e] eqn:E;
      cbn [bind] in *; try discriminate.
    destruct (strict_eq _ _); [now left |].
    destruct (user_isPm a), q; try discriminate H.
    right. apply isUserOnBoard_true in E.
    destruct E as [un [bn [Hu [Hb On]]]].
    apply pg_int_JNum_inv in Hu, Hb. subst un bn.
    exists (p_boardId project). split; [now left | exact On].
  - (* PATCH /users/:userId *)
    unfold Auth.ensureCorrectUserOrSharedBoardPm in *.
    destruct (User.getAllFromSharedBoards s (JStr (userId req)))
      as [rows | e] eqn:E; cbn [bind] in *; try discriminate.
    cbn [strict_eq orb] in H.
    destruct (user_isPm a); try discriminate H.
    destruct (Auth.some_is rows a) eqn:Sh; try discriminate H.
    right. apply some_is_true in Sh. destruct Sh as [v [Hv Ev]].
    apply getAllFromSharedBoards_Ok in E. destruct E as [n [Hn M]].
    apply M in Hv. destruct Hv as [_ [b [Ha Hb]]].
    exists b. rewrite Hn, <- Ev. split; [now apply boards_of_user_In | exact Ha].
Qed.

Lemma isPm_authorizes_only_with_board_membership_witness :
  gate BoardPatch demo (Some (actor 1 true)) (at_id "1") = Ok tt /\
  gate BoardPatch demo (Some (without_pm (actor 1 true))) (at_id "1")
    = Err Unauthorized /\
  (gate BoardPatch demo (Some (without_pm (actor 1 true))) (at_id "1") = Ok tt \/
   exists b, In b (target_boards BoardPatch demo (at_id "1")) /\
             on_board demo (user_id (actor 1 true)) b).
Proof.
  split; [reflexivity |]. split; [reflexivity |].
  apply (isPm_authorizes_only_with_board_membership
           BoardPatch demo (actor 1 true) (at_id "1")).
  - discriminate.
  - reflexivity.
Defined.

(** C2, as stated: the creation of a board is guarded by IsPm alone.
    User 4 is a PM on no board and passes; without the flag the same
    actor is denied. *)
Lemma isPm_alone_authorizes_board_creation :
  user_isPm (actor 4 true) = true /\
  (forall b, ~ on_board demo 4 b) /\
  chain BoardsCreate = [EnsurePm] /\
  gate BoardsCreate demo (Some (actor 4 true)) (at_id EmptyString) = Ok tt /\
  gate BoardsCreate demo (Some (actor 4 false)) (at_id EmptyString) = Err Unauthorized.
Proof.
  split; [reflexivity |]. split; [| repeat split].
  intros b. unfold on_board. simpl. intros [H | [H | []]]; discriminate H.
Qed.

(** ** The partial-update query builder *)


Lemma map_idx_nth {A B : Type} (f : A -> nat -> B) (l : list A) (idx i : nat)
  (x : A) :
  nth_error l i = Some x ->
  nth_error (Sql.map_idx f idx l) i = Some (f x (idx + i)%nat).
Proof.
  revert idx i. induction l as [| a l IH]; intros idx i; simpl.
  - destruct i; discriminate.
  - destruct i as [| i]; simpl.
    + intros [= ->]. now rewrite Nat.add_0_r.
    + intros H. rewrite (IH (S idx) i H). f_equal. f_equal. lia.
Qed.

Lemma decimal_injective (i j : nat) : Sql.decimal i = Sql.decimal j -> i = j.
Proof.
  unfold Sql.decimal. intros H.
  assert (forall n, Nat.to_uint n <> Decimal.Nil) as NN.
  { intros n E. pose proof (DecimalNat.Unsigned.to_of (Nat.to_uint n)) as T.
    rewrite DecimalNat.Unsigned.of_to in T.
    apply (DecimalFacts.unorm_nonnil (Nat.to_uint n)). congruence. }
  apply DecimalNat.Unsigned.to_uint_inj.
  pose proof (NilZero.usu _ (NN i)) as Ui.
  pose proof (NilZero.usu _ (NN j)) as Uj.
  rewrite H in Ui. congruence.
Qed.

(** C9: the builder fails, with BadRequest, exactly on the empty input;
    on every other input it returns. *)
Theorem sqlForPartialUpdate_BadRequest_iff_empty
  (V : Type) (dataToUpdate : list (string * V)) (jsToSql : list (string * string)) :
  (Sql.sqlForPartialUpdate dataToUpdate jsToSql = Err BadRequest
   <-> dataToUpdate = []) /\
  ((exists e, Sql.sqlForPartialUpdate dataToUpdate jsToSql = Err e)
   <-> dataToUpdate = []) /\
  ((exists r, Sql.sqlForPartialUpdate dataToUpdate jsToSql = Ok r)
   <-> dataToUpdate <> []).
Proof.
  unfold Sql.sqlForPartialUpdate.
  destruct dataToUpdate as [| kv d]; simpl.
  - repeat split; try reflexivity; try congruence.
    + now exists BadRequest.
    + intros [r H]. discriminate.
  - repeat split; try discriminate.
    + intros [e H]. discriminate.
    + eauto.
Qed.





(** ** Removing a membership *)

Lemma filter_negb_all {A : Type} (f : A -> bool) (l : list A) :
  (forall x, In x l -> f x = false) -> filter (fun r => negb (f r)) l = l.
Proof.
  induction l as [| a l IH]; simpl; intros H; [reflexivity |].
  rewrite (H a (or_introl eq_refl)). simpl. f_equal.
  apply IH. intros x Hx. apply H. now right.
Qed.

Lemma member_row_true (u b : Z) (r : BoardUserRow) :
  member_row u b r = true <-> r = {| bu_board_id := b; bu_user_id := u |}.
Proof.
  unfold member_row. destruct r as [rb ru]. simpl. split.
  - intros E. apply andb_prop in E. destruct E as [E1 E2].
    apply Z.eqb_eq in E1, E2. now subst.
  - intros [= -> ->]. now rewrite !Z.eqb_refl.
Qed.

(** Under the composite primary key, one row at most matches. *)
Lemma delete_one (l : list BoardUserRow) (u b : Z) :
  distinct2 (map (fun r => (bu_board_id r, bu_user_id r)) l) = true ->
  In {| bu_board_id := b; bu_user_id := u |} l ->
  S (List.length (filter (fun r => negb (member_row u b r)) l)) = List.length l.
Proof.
  induction l as [| a l IH]; simpl; [intros _ [] |].
  intros D Hin. apply andb_prop in D. destruct D as [Da Dl].
  destruct (member_row u b a) eqn:E; simpl.
  - rewrite filter_negb_all; [reflexivity |].
    intros x Hx. apply not_true_is_false. intros Ex.
    apply member_row_true in E, Ex. subst a x. simpl in Da.
    apply negb_true_iff in Da.
    assert (existsb (fun q => (fst q =? b) && (snd q =? u))
              (map (fun r => (bu_board_id r, bu_user_id r)) l) = true) as C.
    { apply existsb_exists. exists (b, u). split.
      - apply in_map_iff. eexists. split; [| exact Hx]. reflexivity.
      - simpl. now rewrite !Z.eqb_refl. }
    rewrite C in Da. discriminate.
  - f_equal. apply IH; [assumption |].
    destruct Hin as [-> | Hin]; [| assumption].
    assert (member_row u b {| bu_board_id := b; bu_user_id := u |} = true)
      as C by now apply member_row_true.
    rewrite C in E. discriminate.
Qed.

(** C10: removeUserFromBoard raises NotFound exactly when the store has no
    membership row for the user and the board, whether or not the user
    and the board exist.  It removes that row and nothing else, and
    afterwards isUserOnBoard answers false. *)
Theorem removeUserFromBoard_spec (s : Store) (u b : jsval) (un bn : Z) :
  pg_int u = Some un -> pg_int b = Some bn ->
  let s' := fst (Board.removeUserFromBoard s u b) in
  let outcome := snd (Board.removeUserFromBoard s u b) in
  (outcome = Err NotFound <-> ~ on_board s un bn) /\
  (outcome = Ok tt <-> on_board s un bn) /\
  (forall r, In r (boards_users s') <->
     In r (boards_users s) /\ r <> {| bu_board_id := bn; bu_user_id := un |}) /\
  (users s' = users s /\ boards s' = boards s /\ projects s' = projects s /\
   projects_users s' = projects_users s /\ sessions s' = sessions s) /\
  (In bn (map b_id (boards s)) -> Board.isUserOnBoard s' u b = Ok false) /\
  (store_ok s = true -> on_board s un bn ->
     S (List.length (boards_users s')) = List.length (boards_users s) /\
     Board.isUserOnBoard s' u b = Ok false).
Proof.
  intros Hu Hb s' outcome.
  assert (s' = {| users := users s; boards := boards s;
                  boards_users := filter (fun r => negb (member_row un bn r))
                                         (boards_users s);
                  projects := projects s; projects_users := projects_users s;
                  sessions := sessions s |}) as Es.
  { unfold s', Board.removeUserFromBoard. rewrite Hu, Hb.
    now destruct (rows0 _). }
  assert (outcome = match rows0 (filter (member_row un bn) (boards_users s)) with
                    | None => Err NotFound
                    | Some _ => Ok tt
                    end) as Eo.
  { unfold outcome, Board.removeUserFromBoard. rewrite Hu, Hb.
    now destruct (rows0 _). }
  assert (rows0 (filter (member_row un bn) (boards_users s)) = None
          <-> ~ on_board s un bn) as None_iff.
  { rewrite rows0_filter_None, <- member_row_on_board, existsb_exists. split.
    - intros H [x [Hx E]]. rewrite (H x Hx) in E. discriminate.
    - intros H x Hx. apply not_true_is_false. intros E. apply H. eauto. }
  assert (Board.isUserOnBoard s' u b = Ok false
          \/ ~ In bn (map b_id (boards s))) as After.
  { destruct (in_dec Z.eq_dec bn (map b_id (boards s))) as [Hin | Hout];
      [left | now right].
    rewrite (isUserOnBoard_found s' u b un bn Hu Hb); [| now rewrite Es].
    f_equal. apply not_true_is_false. intros C.
    apply existsb_exists in C. destruct C as [x [Hx E]].
    rewrite Es in Hx. simpl in Hx. apply filter_In in Hx.
    destruct Hx as [_ Hx]. rewrite E in Hx. discriminate. }
  split; [| split; [| split; [| split; [| split]]]].
  - rewrite Eo, <- None_iff. destruct (rows0 _); split; congruence.
  - rewrite Eo. destruct (rows0 _) eqn:E.
    + split; [intros _ | reflexivity].
      destruct (existsb (member_row un bn) (boards_users s)) eqn:X.
      * now apply member_row_on_board.
      * exfalso. apply rows0_filter_Some in E. destruct E as [Hin E].
        assert (existsb (member_row un bn) (boards_users s) = true) as Y
          by (apply existsb_exists; eauto).
        congruence.
    + split; [discriminate |]. intros On.
      exfalso. exact (proj1 None_iff eq_refl On).
  - intros r. rewrite Es. simpl. rewrite filter_In.
    rewrite negb_true_iff, <- not_true_iff_false, member_row_true. tauto.
  - rewrite Es. simpl. tauto.
  - intros Hin. destruct After as [A | A]; [exact A | contradiction].
  - intros Hs On. split.
    + rewrite Es. simpl. apply delete_one; [| exact On].
      now apply store_ok_memberships_pk.
    + destruct After as [A | A]; [exact A |].
      destruct (store_ok_membership s _ Hs On) as [Hin _]. contradiction.
Qed.

Lemma removeUserFromBoard_spec_witness :
  snd (Board.removeUserFromBoard demo (JNum 2) (JStr "1")) = Ok tt /\
  Board.isUserOnBoard (fst (Board.removeUserFromBoard demo (JNum 2) (JStr "1")))
                      (JNum 2) (JStr "1") = Ok false /\
  In 3 (map u_id (users demo)) /\ In 1 (map b_id (boards demo)) /\
  snd (Board.removeUserFromBoard demo (JNum 3) (JStr "1")) = Err NotFound.
Proof.
  pose proof (removeUserFromBoard_spec demo (JNum 2) (JStr "1") 2 1
                eq_refl eq_refl) as T.
  pose proof (removeUserFromBoard_spec demo (JNum 3) (JStr "1") 3 1
                eq_refl eq_refl) as N.
  cbv zeta in T, N.
  destruct T as [_ [T1 [_ [_ [_ T2]]]]]. destruct N as [N1 _].
  assert (on_board demo 2 1) as On by (unfold on_board; simpl; tauto).
  assert (~ on_board demo 3 1) as Off.
  { unfold on_board. simpl. intros [H | [H | []]]; discriminate H. }
  split; [exact (proj2 T1 On) |].
  split; [exact (proj2 (T2 eq_refl On)) |].
  split; [simpl; tauto |]. split; [simpl; tauto |].
  exact (proj2 N1 Off).
Defined.

(** * Further properties of the models, the predicates and the routes *)

(** ** More of what the schema constraints give *)

Lemma store_ok_sessions_pk (s : Store) :
  store_ok s = true -> distinct (map s_id (sessions s)) = true.
Proof. intros H. split_store_ok H. assumption. Qed.

Lemma store_ok_boards_pk (s : Store) :
  store_ok s = true -> distinct (map b_id (boards s)) = true.
Proof. intros H. split_store_ok H. assumption. Qed.

Lemma store_ok_project_int4 (s : Store) (n : Z) :
  store_ok s = true -> In n (map p_id (projects s)) -> int4 n = true.
Proof.
  intros H Hn. split_store_ok H.
  match goal with K : forallb int4 (map p_id _) = true |- _ =>
    rewrite forallb_forall in K; now apply K end.
Qed.

Lemma store_ok_session (s : Store) (se : SessionRow) :
  store_ok s = true -> In se (sessions s) ->
  In (s_projectId se) (map p_id (projects s)) /\
  In (s_userId se) (map u_id (users s)).
Proof.
  intros H Hr. split_store_ok H.
  match goal with K : forallb _ (sessions _) = true |- _ =>
    rewrite forallb_forall in K; apply K in Hr end.
  apply andb_prop in Hr. now rewrite <- !has_id_In.
Qed.

Lemma store_ok_session_int4 (s : Store) (se : SessionRow) :
  store_ok s = true -> In se (sessions s) -> int4 (s_id se) = true.
Proof.
  intros H Hr. split_store_ok H.
  match goal with K : forallb int4 (map s_id _) = true |- _ =>
    rewrite forallb_forall in K; apply K end.
  now apply in_map.
Qed.

Lemma store_ok_project_membership (s : Store) (r : ProjectUserRow) :
  store_ok s = true -> In r (projects_users s) ->
  In (pu_project_id r) (map p_id (projects s)) /\
  In (pu_user_id r) (map u_id (users s)).
Proof.
  intros H Hr. split_store_ok H.
  match goal with K : forallb _ (projects_users _) = true |- _ =>
    rewrite forallb_forall in K; apply K in Hr end.
  apply andb_prop in Hr. now rewrite <- !has_id_In.
Qed.

Lemma session_getById_found (s : Store) (x : jsval) (se : SessionRow) :
  store_ok s = true -> In se (sessions s) -> pg_int x = Some (s_id se) ->
  Session.getById s x = Ok (Some se).
Proof.
  intros Hs Hin Hx. unfold Session.getById. rewrite (param_Some _ _ Hx). simpl.
  now rewrite (distinct_lookup s_id _ se (store_ok_sessions_pk s Hs) Hin).
Qed.

Lemma rows0_all_equal {A : Type} (l : list A) (x : A) :
  l <> [] -> (forall y, In y l -> y = x) -> rows0 l = Some x.
Proof.
  destruct l as [| a l]; [contradiction |]. intros _ H. simpl.
  f_equal. apply H. now left.
Qed.

(** ** The board of a session *)

Lemma session_lookups
  (s : Store) (x : jsval) (se : SessionRow) (proj : ProjectRow) :
  store_ok s = true ->
  In se (sessions s) -> pg_int x = Some (s_id se) ->
  In proj (projects s) -> p_id proj = s_projectId se ->
  Session.getBoardId s x = Ok (p_boardId proj) /\
  Session.getById s x = Ok (Some se) /\
  Project.getById s (JNum (s_projectId se)) = Ok proj.
Proof.
  intros Hs Hse Hx Hp Ep. split; [| split].
  - unfold Session.getBoardId. rewrite (param_Some _ _ Hx). simpl.
    rewrite (distinct_lookup s_id _ se (store_ok_sessions_pk s Hs) Hse).
    rewrite (rows0_all_equal _ (p_boardId proj)); [reflexivity | |].
    + intros E.
      assert (In (p_boardId proj)
                (flat_map (fun se0 =>
                   flat_map (fun p =>
                     if (s_projectId se0 =? p_id p) && (s_id se0 =? s_id se)
                     then [p_boardId p] else []) (projects s)) (sessions s))) as C.
      { apply in_flat_map. exists se. split; [exact Hse |].
        apply in_flat_map. exists proj. split; [exact Hp |].
        rewrite Ep, !Z.eqb_refl. simpl. now left. }
      rewrite E in C. destruct C.
    + intros y Hy. apply in_flat_map in Hy. destruct Hy as [se0 [Hse0 Hy]].
      apply in_flat_map in Hy. destruct Hy as [p [Hp0 Hy]].
      destruct (_ && _) eqn:E; [| destruct Hy].
      destruct Hy as [<- | []].
      apply andb_prop in E. destruct E as [E1 E2]. apply Z.eqb_eq in E1, E2.
      assert (se0 = se) as ->
        by (apply (distinct_injective s_id (sessions s));
            auto using store_ok_sessions_pk).
      assert (p = proj) as ->
        by (apply (distinct_injective p_id (projects s));
            auto using store_ok_projects_pk; congruence).
      reflexivity.
  - now apply session_getById_found.
  - apply getById_found; auto.
    rewrite Ep. apply pg_int_JNum. rewrite <- Ep.
    eapply store_ok_project_int4; [eassumption |]. now apply in_map.
Qed.

(** X4: The board of a session is the board of the session's project: under
    the schema's constraints [Session.getBoardId] on an existing session
    returns the boardId that [Project.getById] gives for the session's
    project, and never fails. *)
Theorem getBoardId_board_of_project
  (s : Store) (x : jsval) (se : SessionRow) (proj : ProjectRow) :
  store_ok s = true ->
  In se (sessions s) -> pg_int x = Some (s_id se) ->
  In proj (projects s) -> p_id proj = s_projectId se ->
  Session.getBoardId s x = Ok (p_boardId proj) /\
  Session.getById s x = Ok (Some se) /\
  Project.getById s (JNum (s_projectId se)) = Ok proj.
Proof. exact (session_lookups s x se proj). Qed.

Lemma getBoardId_board_of_project_witness :
  Session.getBoardId demo (JStr "1") = Ok 1 /\
  Session.getById demo (JStr "1")
    = Ok (Some {| s_id := 1; s_projectId := 1; s_userId := 2;
                  s_startDatetime := 0; s_endDatetime := None;
                  s_categoryId := 1; s_comment := None |}) /\
  Project.getById demo (JNum 1)
    = Ok {| p_id := 1; p_name := "one"; p_priority := 1;
            p_stage := "pending"; p_boardId := 1 |}.
Proof.
  apply (getBoardId_board_of_project demo (JStr "1")
    {| s_id := 1; s_projectId := 1; s_userId := 2;
       s_startDatetime := 0; s_endDatetime := None;
       s_categoryId := 1; s_comment := None |}
    {| p_id := 1; p_name := "one"; p_priority := 1;
       p_stage := "pending"; p_boardId := 1 |});
    try reflexivity; simpl; tauto.
Defined.

(** ** The decision of each predicate *)

(** X2: OnBoard: on a board that exists, [ensureUserOnBoard] passes exactly
    the members of the board and answers Unauthorized to everyone else,
    whatever the isPm flag. *)
Theorem ensureUserOnBoard_decision
  (s : Store) (a : Actor) (req : Params) (b : Z) :
  int4 (user_id a) = true ->
  pg_int (JStr (boardId req)) = Some b -> In b (map b_id (boards s)) ->
  (Auth.ensureUserOnBoard s (Some a) req = Ok tt <-> on_board s (user_id a) b) /\
  (~ on_board s (user_id a) b ->
   Auth.ensureUserOnBoard s (Some a) req = Err Unauthorized) /\
  Auth.ensureUserOnBoard s (Some a) req
    = Auth.ensureUserOnBoard s (Some (without_pm a)) req.
Proof.
  intros Ha Hb Hin.
  assert (Auth.ensureUserOnBoard s (Some a) req =
          if existsb (member_row (user_id a) b) (boards_users s)
          then Ok tt else Err Unauthorized) as E.
  { unfold Auth.ensureUserOnBoard. simpl.
    rewrite (isUserOnBoard_found s _ _ (user_id a) b); auto using pg_int_JNum.
    simpl. now destruct (existsb _ _). }
  split; [| split; [| reflexivity]].
  - rewrite E, <- member_row_on_board.
    destruct (existsb _ _); split; congruence.
  - intros Off. rewrite E. destruct (existsb _ _) eqn:X; [| reflexivity].
    apply member_row_on_board in X. contradiction.
Qed.

Lemma ensureUserOnBoard_decision_witness :
  (Auth.ensureUserOnBoard demo (Some (actor 2 false)) (at_id "1") = Ok tt
   <-> on_board demo 2 1) /\
  Auth.ensureUserOnBoard demo (Some (actor 4 true)) (at_id "1") = Err Unauthorized.
Proof.
  assert (In 1 (map b_id (boards demo))) as Hin by (simpl; tauto).
  destruct (ensureUserOnBoard_decision demo (actor 2 false) (at_id "1") 1
              eq_refl eq_refl Hin) as [T _].
  destruct (ensureUserOnBoard_decision demo (actor 4 true) (at_id "1") 1
              eq_refl eq_refl Hin) as [_ [D _]].
  split; [exact T | apply D].
  unfold on_board. simpl. intros [H | [H | []]]; discriminate H.
Defined.

(** X3: OnSessionBoard: on a session that exists, [ensureUserOnSessionBoard]
    passes exactly the members of the board of the session's project and
    answers Unauthorized to everyone else. *)
Theorem ensureUserOnSessionBoard_decision
  (s : Store) (a : Actor) (req : Params) (se : SessionRow) (proj : ProjectRow) :
  store_ok s = true -> int4 (user_id a) = true ->
  In se (sessions s) -> pg_int (JStr (sessionId req)) = Some (s_id se) ->
  In proj (projects s) -> p_id proj = s_projectId se ->
  (Auth.ensureUserOnSessionBoard s (Some a) req = Ok tt
   <-> on_board s (user_id a) (p_boardId proj)) /\
  (~ on_board s (user_id a) (p_boardId proj) ->
   Auth.ensureUserOnSessionBoard s (Some a) req = Err Unauthorized).
Proof.
  intros Hs Ha Hse Hx Hp Ep.
  destruct (session_lookups s _ se proj Hs Hse Hx Hp Ep) as [G _].
  pose proof (store_ok_project_board s proj Hs Hp) as Hb.
  assert (Auth.ensureUserOnSessionBoard s (Some a) req =
          if existsb (member_row (user_id a) (p_boardId proj)) (boards_users s)
          then Ok tt else Err Unauthorized) as E.
  { unfold Auth.ensureUserOnSessionBoard. rewrite G. simpl.
    rewrite (isUserOnBoard_found s _ _ (user_id a) (p_boardId proj));
      auto using pg_int_JNum.
    - simpl. now destruct (existsb _ _).
    - apply pg_int_JNum. eapply store_ok_board_int4; eassumption. }
  split.
  - rewrite E, <- member_row_on_board.
    destruct (existsb _ _); split; congruence.
  - intros Off. rewrite E. destruct (existsb _ _) eqn:X; [| reflexivity].
    apply member_row_on_board in X. contradiction.
Qed.

Lemma ensureUserOnSessionBoard_decision_witness :
  (Auth.ensureUserOnSessionBoard demo (Some (actor 1 true)) (at_id "1") = Ok tt
   <-> on_board demo 1 1) /\
  Auth.ensureUserOnSessionBoard demo (Some (actor 3 false)) (at_id "1")
    = Err Unauthorized.
Proof.
  pose (se := {| s_id := 1; s_projectId := 1; s_userId := 2;
                 s_startDatetime := 0; s_endDatetime := None;
                 s_categoryId := 1; s_comment := None |}).
  pose (proj := {| p_id := 1; p_name := "one"; p_priority := 1;
                   p_stage := "pending"; p_boardId := 1 |}).
  assert (In se (sessions demo)) as Hse by (simpl; tauto).
  assert (In proj (projects demo)) as Hp by (simpl; tauto).
  destruct (ensureUserOnSessionBoard_decision demo (actor 1 true) (at_id "1")
              se proj eq_refl eq_refl Hse eq_refl Hp eq_refl) as [T _].
  destruct (ensureUserOnSessionBoard_decision demo (actor 3 false) (at_id "1")
              se proj eq_refl eq_refl Hse eq_refl Hp eq_refl) as [_ D].
  split; [exact T | apply D].
  unfold on_board. simpl. intros [H | [H | []]]; discriminate H.
Defined.

Lemma ensureUserOnSessionOrPm_eval
  (s : Store) (a : Actor) (req : Params) (se : SessionRow) (proj : ProjectRow) :
  store_ok s = true -> int4 (user_id a) = true ->
  In se (sessions s) -> pg_int (JStr (sessionId req)) = Some (s_id se) ->
  In proj (projects s) -> p_id proj = s_projectId se ->
  Auth.ensureUserOnSessionOrPm s (Some a) req =
    if (s_userId se =? user_id a)
       || (user_isPm a
           && existsb (member_row (user_id a) (p_boardId proj)) (boards_users s))
    then Ok tt else Err Unauthorized.
Proof.
  intros Hs Ha Hse Hx Hp Ep.
  destruct (session_lookups s _ se proj Hs Hse Hx Hp Ep) as [_ [G1 G2]].
  pose proof (store_ok_project_board s proj Hs Hp) as Hb.
  unfold Auth.ensureUserOnSessionOrPm. rewrite G1. simpl. rewrite G2. simpl.
  rewrite (isUserOnBoard_found s _ _ (user_id a) (p_boardId proj));
    auto using pg_int_JNum.
  - simpl. now destruct (_ || _).
  - apply pg_int_JNum. eapply store_ok_board_int4; eassumption.
Qed.

(** X1: SessionOwnerOrPmOnBoard: on a session that exists,
    [ensureUserOnSessionOrPm] passes the session's author, PM or not and
    on the board or not, passes a PM who is on the board of the session's
    project, and answers Unauthorized to everyone else. *)
Theorem ensureUserOnSessionOrPm_decision
  (s : Store) (a : Actor) (req : Params) (se : SessionRow) (proj : ProjectRow) :
  store_ok s = true -> int4 (user_id a) = true ->
  In se (sessions s) -> pg_int (JStr (sessionId req)) = Some (s_id se) ->
  In proj (projects s) -> p_id proj = s_projectId se ->
  (Auth.ensureUserOnSessionOrPm s (Some a) req = Ok tt
   <-> s_userId se = user_id a \/
       (user_isPm a = true /\ on_board s (user_id a) (p_boardId proj))) /\
  (Auth.ensureUserOnSessionOrPm s (Some a) req = Ok tt \/
   Auth.ensureUserOnSessionOrPm s (Some a) req = Err Unauthorized).
Proof.
  intros Hs Ha Hse Hx Hp Ep.
  rewrite (ensureUserOnSessionOrPm_eval s a req se proj Hs Ha Hse Hx Hp Ep).
  rewrite <- member_row_on_board, <- Z.eqb_eq.
  destruct (s_userId se =? user_id a), (user_isPm a), (existsb _ _); simpl;
    split; try tauto; split; try tauto; try discriminate;
    intros [C | [C1 C2]]; discriminate.
Qed.

Lemma ensureUserOnSessionOrPm_decision_witness :
  (Auth.ensureUserOnSessionOrPm demo (Some (actor 2 false)) (at_id "1") = Ok tt
   <-> 2 = 2 \/ (false = true /\ on_board demo 2 1)) /\
  Auth.ensureUserOnSessionOrPm demo (Some (actor 2 false)) (at_id "1") = Ok tt.
Proof.
  pose (se := {| s_id := 1; s_projectId := 1; s_userId := 2;
                 s_startDatetime := 0; s_endDatetime := None;
                 s_categoryId := 1; s_comment := None |}).
  pose (proj := {| p_id := 1; p_name := "one"; p_priority := 1;
                   p_stage := "pending"; p_boardId := 1 |}).
  assert (In se (sessions demo)) as Hse by (simpl; tauto).
  assert (In proj (projects demo)) as Hp by (simpl; tauto).
  destruct (ensureUserOnSessionOrPm_decision demo (actor 2 false) (at_id "1")
              se proj eq_refl eq_refl Hse eq_refl Hp eq_refl) as [T _].
  split; [exact T | apply T; left; reflexivity].
Defined.

Lemma some_is_iff (rows : list UserRow) (a : Actor) :
  Auth.some_is rows a = true <-> exists v, In v rows /\ u_id v = user_id a.
Proof.
  split; [apply some_is_true |].
  intros [v [Hv E]]. unfold Auth.some_is. apply existsb_exists.
  exists v. split; [exact Hv |]. simpl. now apply Z.eqb_eq.
Qed.

(** The actor is among the shared users of an existing user exactly when
    the two are on a common board. *)
Lemma shares_board (s : Store) (a : Actor) (rows : list UserRow) (n : Z) :
  store_ok s = true ->
  (forall v, In v rows <->
     In v (users s) /\ exists b, on_board s (u_id v) b /\ on_board s n b) ->
  (Auth.some_is rows a = true
   <-> exists b, on_board s (user_id a) b /\ on_board s n b).
Proof.
  intros Hs M. rewrite some_is_iff. split.
  - intros [v [Hv E]]. apply M in Hv. destruct Hv as [_ [b Hb]].
    exists b. now rewrite <- E.
  - intros [b [Ha Hn]].
    destruct (store_ok_membership s _ Hs Ha) as [_ Hu]. simpl in Hu.
    apply in_map_iff in Hu. destruct Hu as [v [E Hv]].
    exists v. split; [| exact E]. apply M. split; [exact Hv |].
    exists b. now rewrite E.
Qed.

(** X5: OnSharedBoard: for a user that exists, [ensureUserOnSharedBoard]
    passes exactly the actors that are on a board the user is on, and
    answers Unauthorized to everyone else; an actor on no board is denied
    even on their own id. *)
Theorem ensureUserOnSharedBoard_decision
  (s : Store) (a : Actor) (req : Params) (n : Z) :
  store_ok s = true ->
  pg_int (JStr (userId req)) = Some n -> In n (map u_id (users s)) ->
  (Auth.ensureUserOnSharedBoard s (Some a) req = Ok tt
   <-> exists b, on_board s (user_id a) b /\ on_board s n b) /\
  (Auth.ensureUserOnSharedBoard s (Some a) req = Ok tt \/
   Auth.ensureUserOnSharedBoard s (Some a) req = Err Unauthorized) /\
  ((forall b, ~ on_board s (user_id a) b) ->
   Auth.ensureUserOnSharedBoard s (Some a) req = Err Unauthorized).
Proof.
  intros Hs Hx Hn.
  destruct (getAllFromSharedBoards_found s _ n Hx Hn) as [rows [E [_ M]]].
  pose proof (shares_board s a rows n Hs M) as Sh.
  assert (Auth.ensureUserOnSharedBoard s (Some a) req =
          if Auth.some_is rows a then Ok tt else Err Unauthorized) as R.
  { unfold Auth.ensureUserOnSharedBoard. rewrite E. simpl.
    now destruct (Auth.some_is rows a). }
  rewrite R. destruct (Auth.some_is rows a).
  - split; [| split]; auto.
    + split; [intros _; now apply Sh | reflexivity].
    + intros Off. destruct Sh as [[b [Hb _]] _]; [reflexivity |].
      now apply Off in Hb.
  - split; [| split]; auto.
    split; [discriminate |]. intros H. apply Sh in H. discriminate.
Qed.

Lemma ensureUserOnSharedBoard_decision_witness :
  (Auth.ensureUserOnSharedBoard demo (Some (actor 1 true)) (at_id "2") = Ok tt
   <-> exists b, on_board demo 1 b /\ on_board demo 2 b) /\
  Auth.ensureUserOnSharedBoard demo (Some (actor 3 false)) (at_id "3")
    = Err Unauthorized.
Proof.
  destruct (ensureUserOnSharedBoard_decision demo (actor 1 true) (at_id "2") 2
              eq_refl eq_refl) as [T _]; [simpl; tauto |].
  destruct (ensureUserOnSharedBoard_decision demo (actor 3 false) (at_id "3") 3
              eq_refl eq_refl) as [_ [_ D]]; [simpl; tauto |].
  split; [exact T | apply D].
  intros b. unfold on_board. simpl. intros [H | [H | []]]; discriminate H.
Defined.

(** X6: CorrectUserOrSharedBoardPm: for a user that exists,
    [ensureCorrectUserOrSharedBoardPm] passes exactly the PMs that are on
    a board the user is on, and answers Unauthorized to everyone else. *)
Theorem ensureCorrectUserOrSharedBoardPm_decision
  (s : Store) (a : Actor) (req : Params) (n : Z) :
  store_ok s = true ->
  pg_int (JStr (userId req)) = Some n -> In n (map u_id (users s)) ->
  (Auth.ensureCorrectUserOrSharedBoardPm s (Some a) req = Ok tt
   <-> user_isPm a = true /\
       exists b, on_board s (user_id a) b /\ on_board s n b) /\
  (Auth.ensureCorrectUserOrSharedBoardPm s (Some a) req = Ok tt \/
   Auth.ensureCorrectUserOrSharedBoardPm s (Some a) req = Err Unauthorized).
Proof.
  intros Hs Hx Hn.
  destruct (getAllFromSharedBoards_found s _ n Hx Hn) as [rows [E [_ M]]].
  pose proof (shares_board s a rows n Hs M) as Sh.
  assert (Auth.ensureCorrectUserOrSharedBoardPm s (Some a) req =
          if user_isPm a && Auth.some_is rows a
          then Ok tt else Err Unauthorized) as R.
  { unfold Auth.ensureCorrectUserOrSharedBoardPm. rewrite E. simpl.
    now destruct (user_isPm a && Auth.some_is rows a). }
  rewrite R. destruct (user_isPm a), (Auth.some_is rows a); simpl.
  - split; [| now left]. split; [intros _ | reflexivity].
    split; [reflexivity | now apply Sh].
  - split; [| now right]. split; [discriminate |].
    intros [_ H]. apply Sh in H. discriminate.
  - split; [| now right]. split; [discriminate | intros [H _]; discriminate].
  - split; [| now right]. split; [discriminate | intros [H _]; discriminate].
Qed.

Lemma ensureCorrectUserOrSharedBoardPm_decision_witness :
  Auth.ensureCorrectUserOrSharedBoardPm demo (Some (actor 1 true)) (at_id "2")
    = Ok tt
  <-> user_isPm (actor 1 true) = true /\
      exists b, on_board demo (user_id (actor 1 true)) b /\ on_board demo 2 b.
Proof.
  destruct (ensureCorrectUserOrSharedBoardPm_decision demo (actor 1 true)
              (at_id "2") 2 eq_refl eq_refl) as [T _]; [simpl; tauto |].
  exact T.
Defined.

(** ** The chains *)

(** X7: a request that carries no verified token is answered with
    Unauthorized on every route that has a chain, whatever the store and
    the parameters: no lookup can turn it into NotFound or let it pass. *)
Theorem anonymous_request_denied (r : route) (s : Store) (req : Params) :
  chain r <> [] -> gate r s None req = Err Unauthorized.
Proof.
  intros H. destruct r; try reflexivity; simpl in H; contradiction.
Qed.

Lemma anonymous_request_denied_witness :
  gate SessionDelete demo None (at_id "99") = Err Unauthorized.
Proof.
  apply (anonymous_request_denied SessionDelete demo (at_id "99")).
  discriminate.
Defined.

(** X8: on every route whose chain starts with [ensurePm], an actor who
    is not a PM is answered with Unauthorized whatever the store and the
    parameters, also when the board or project of the request does not
    exist. *)
Theorem non_pm_denied_before_lookup
  (r : route) (s : Store) (a : Actor) (req : Params) :
  hd_error (chain r) = Some EnsurePm -> user_isPm a = false ->
  gate r s (Some a) req = Err Unauthorized.
Proof.
  intros H Hpm. unfold gate.
  destruct (chain r) as [| m rest]; [discriminate |].
  injection H as ->. simpl. now rewrite Hpm.
Qed.

Lemma non_pm_denied_before_lookup_witness :
  Board.isUserOnBoard demo (JNum 2) (JStr "99") = Err NotFound /\
  gate BoardPatch demo (Some (actor 2 false)) (at_id "99") = Err Unauthorized.
Proof.
  split; [reflexivity |].
  apply (non_pm_denied_before_lookup BoardPatch demo (actor 2 false)
           (at_id "99")); reflexivity.
Defined.

(** X9: none of the ten ensure... middlewares lets a request without a
    user through: with no user attached each of them hands an error to
    [next], on every store and for every parameter; [ensureLoggedIn],
    [ensurePm] and [ensureCorrectUserOrPm] hand Unauthorized. *)
Theorem no_user_never_passes
  (m : middleware) (s : Store) (req : Params)
  (parseInt10 : string -> option Z) :
  (run m s None req <> Ok tt /\
   (run m s None req = Err Unauthorized \/ run m s None req = Err NotFound \/
    run m s None req = Err TypeError \/ run m s None req = Err DbError)) /\
  Auth.ensureCorrectUserOrPm parseInt10 None req = Err Unauthorized /\
  Auth.ensureLoggedIn None = Err Unauthorized /\
  Auth.ensurePm None = Err Unauthorized.
Proof.
  split; [| repeat split].
  destruct m; simpl; try (split; [discriminate | tauto]).
  - unfold Auth.ensureUserOnBoardOfProject, Project.getById, param.
    destruct (pg_int _); simpl; [| split; [discriminate | tauto]].
    destruct (rows0 _); simpl; split; try discriminate; tauto.
  - unfold Auth.ensureUserOnSessionBoard, Session.getBoardId, param.
    destruct (pg_int _); simpl; [| split; [discriminate | tauto]].
    destruct (rows0 _); simpl; [| split; [discriminate | tauto]].
    destruct (rows0 _); simpl; split; try discriminate; tauto.
  - unfold Auth.ensureUserOnSessionOrPm, Session.getById, param.
    destruct (pg_int _); simpl; [| split; [discriminate | tauto]].
    destruct (rows0 _); simpl; [| split; [discriminate | tauto]].
    unfold Project.getById, param.
    destruct (pg_int _); simpl; [| split; [discriminate | tauto]].
    destruct (rows0 _); simpl; split; try discriminate; tauto.
  - unfold Auth.ensureUserOnProjectOrPm, Project.getById, param.
    destruct (pg_int _); simpl; [| split; [discriminate | tauto]].
    destruct (rows0 _); simpl; split; try discriminate; tauto.
  - unfold Auth.ensureCorrectUserOrSharedBoardPm, User.getAllFromSharedBoards,
      param.
    destruct (pg_int _); simpl; [| split; [discriminate | tauto]].
    destruct (rows0 _); simpl; split; try discriminate; tauto.
  - unfold Auth.ensureUserOnSharedBoard, User.getAllFromSharedBoards, param.
    destruct (pg_int _); simpl; [| split; [discriminate | tauto]].
    destruct (rows0 _); simpl; [| split; [discriminate | tauto]].
    destruct (nodup _ _); split; try discriminate; tauto.
Qed.

(** ** Statements that rewrite a table keep the schema's constraints *)

Ltac open_store_ok :=
  unfold store_ok in *; simpl in *; rewrite ?andb_true_iff in *.

Lemma store_ok_set_boards_users (s : Store) (rows : list BoardUserRow) :
  store_ok s = true ->
  distinct2 (map (fun r => (bu_board_id r, bu_user_id r)) rows) = true ->
  forallb (fun r => has_id (map b_id (boards s)) (bu_board_id r)
                    && has_id (map u_id (users s)) (bu_user_id r)) rows = true ->
  store_ok (set_boards_users s rows) = true.
Proof. intros H D F. open_store_ok. tauto. Qed.

Lemma store_ok_set_projects_users (s : Store) (rows : list ProjectUserRow) :
  store_ok s = true ->
  distinct2 (map (fun r => (pu_project_id r, pu_user_id r)) rows) = true ->
  forallb (fun r => has_id (map p_id (projects s)) (pu_project_id r)
                    && has_id (map u_id (users s)) (pu_user_id r)) rows = true ->
  store_ok (set_projects_users s rows) = true.
Proof. intros H D F. open_store_ok. tauto. Qed.

Lemma store_ok_set_sessions (s : Store) (rows : list SessionRow) :
  store_ok s = true ->
  forallb int4 (map s_id rows) = true ->
  distinct (map s_id rows) = true ->
  forallb (fun r => has_id (map p_id (projects s)) (s_projectId r)
                    && has_id (map u_id (users s)) (s_userId r)) rows = true ->
  store_ok (set_sessions s rows) = true.
Proof. intros H I D F. open_store_ok. tauto. Qed.

Lemma store_ok_set_users (s : Store) (rows : list UserRow) :
  store_ok s = true -> map u_id rows = map u_id (users s) ->
  store_ok (set_users s rows) = true.
Proof. intros H E. open_store_ok. rewrite E. tauto. Qed.

Lemma store_ok_fk_boards_users (s : Store) :
  store_ok s = true ->
  forallb (fun r => has_id (map b_id (boards s)) (bu_board_id r)
                    && has_id (map u_id (users s)) (bu_user_id r))
          (boards_users s) = true.
Proof. intros H. open_store_ok. tauto. Qed.

Lemma store_ok_fk_projects_users (s : Store) :
  store_ok s = true ->
  forallb (fun r => has_id (map p_id (projects s)) (pu_project_id r)
                    && has_id (map u_id (users s)) (pu_user_id r))
          (projects_users s) = true /\
  distinct2 (map (fun r => (pu_project_id r, pu_user_id r)) (projects_users s))
    = true.
Proof. intros H. open_store_ok. tauto. Qed.

Lemma store_ok_sessions_all (s : Store) :
  store_ok s = true ->
  forallb int4 (map s_id (sessions s)) = true /\
  forallb (fun r => has_id (map p_id (projects s)) (s_projectId r)
                    && has_id (map u_id (users s)) (s_userId r))
          (sessions s) = true.
Proof. intros H. open_store_ok. tauto. Qed.

Lemma forallb_filter {A : Type} (f g : A -> bool) (l : list A) :
  forallb f l = true -> forallb f (filter g l) = true.
Proof.
  rewrite !forallb_forall. intros H x Hx. apply filter_In in Hx. now apply H.
Qed.

Lemma existsb_filter_false {A : Type} (f g : A -> bool) (l : list A) :
  existsb f l = false -> existsb f (filter g l) = false.
Proof.
  intros H. apply not_true_is_false. intros C. apply existsb_exists in C.
  destruct C as [x [Hx Fx]]. apply filter_In in Hx.
  assert (existsb f l = true) as T by (apply existsb_exists; exists x; tauto).
  congruence.
Qed.

Lemma existsb_map_filter {A B : Type} (h : B -> bool) (key : A -> B)
  (g : A -> bool) (l : list A) :
  existsb h (map key l) = false -> existsb h (map key (filter g l)) = false.
Proof.
  induction l as [| a l IH]; simpl; [reflexivity |].
  intros H. apply orb_false_iff in H. destruct H as [Ha Hl].
  destruct (g a); simpl; [rewrite Ha |]; now apply IH.
Qed.

Lemma distinct2_filter {A : Type} (key : A -> Z * Z) (g : A -> bool) (l : list A) :
  distinct2 (map key l) = true -> distinct2 (map key (filter g l)) = true.
Proof.
  induction l as [| a l IH]; simpl; [reflexivity |].
  destruct (key a) as [x y] eqn:K. intros D.
  apply andb_prop in D. destruct D as [Da Dl].
  destruct (g a); simpl; [| now apply IH].
  rewrite K. rewrite (IH Dl), andb_true_r.
  apply negb_true_iff. apply negb_true_iff in Da.
  now apply existsb_map_filter.
Qed.

Lemma distinct_filter {A : Type} (key : A -> Z) (g : A -> bool) (l : list A) :
  distinct (map key l) = true -> distinct (map key (filter g l)) = true.
Proof.
  induction l as [| a l IH]; simpl; [reflexivity |]. intros D.
  apply andb_prop in D. destruct D as [Da Dl].
  destruct (g a); simpl; [| now apply IH].
  rewrite (IH Dl), andb_true_r.
  apply negb_true_iff. apply negb_true_iff in Da.
  now apply existsb_map_filter.
Qed.

Lemma distinct2_snoc {A : Type} (key : A -> Z * Z) (l : list A) (a : A) :
  distinct2 (map key l) = true ->
  existsb (fun q => (fst q =? fst (key a)) && (snd q =? snd (key a)))
          (map key l) = false ->
  distinct2 (map key (l ++ [a])) = true.
Proof.
  induction l as [| x l IH]; simpl.
  - intros _ _. destruct (key a). reflexivity.
  - destruct (key x) as [kx ky] eqn:K. intros D N.
    apply andb_prop in D. destruct D as [Dx Dl].
    apply orb_false_iff in N. destruct N as [Nx Nl]. simpl in Nx.
    rewrite (IH Dl Nl), andb_true_r.
    apply negb_true_iff. apply negb_true_iff in Dx.
    rewrite map_app, existsb_app, Dx. simpl.
    rewrite orb_false_r. destruct (key a) as [ax ay]. simpl in *.
    rewrite (Z.eqb_sym ax kx), (Z.eqb_sym ay ky). exact Nx.
Qed.

Lemma check_found {A : Type} (key : A -> Z) (l : list A) (n : Z) :
  In n (map key l) ->
  exists row, rows0 (filter (fun r => key r =? n) l) = Some row /\ key row = n.
Proof.
  intros H. destruct (rows0 _) as [row |] eqn:E.
  - exists row. split; [reflexivity |].
    apply rows0_filter_Some in E. now apply Z.eqb_eq.
  - rewrite rows0_filter_None in E. apply in_map_iff in H.
    destruct H as [r [<- Hr]]. apply E in Hr. now rewrite Z.eqb_refl in Hr.
Qed.

Lemma check_absent {A : Type} (key : A -> Z) (l : list A) (n : Z) :
  ~ In n (map key l) -> rows0 (filter (fun r => key r =? n) l) = None.
Proof.
  intros H. apply rows0_filter_None. intros r Hr. apply Z.eqb_neq.
  intros E. apply H. rewrite <- E. now apply in_map.
Qed.

Lemma set_boards_users_same (s : Store) : set_boards_users s (boards_users s) = s.
Proof. now destruct s. Qed.

(** ** Adding and removing a board membership *)

(** X10: [Board.addUserToBoard] looks the board up first and the user
    second.  For an absent board it fails with NotFound whatever the
    userId is, also one that does not bind; for a board that exists, a
    userId that does not bind fails the query and an absent user gives
    NotFound.  For a pair that is already a membership the INSERT fails;
    otherwise it appends the pair to boards_users, leaves every other
    table as it was, returns the pair, and [isUserOnBoard] then answers
    true.  A failure leaves the store as it was. *)
Theorem addUserToBoard_spec (s : Store) (u b : jsval) (bn : Z) :
  pg_int b = Some bn ->
  let s' := fst (Board.addUserToBoard s u b) in
  let outcome := snd (Board.addUserToBoard s u b) in
  (~ In bn (map b_id (boards s)) -> outcome = Err NotFound) /\
  (In bn (map b_id (boards s)) -> pg_int u = None -> outcome = Err DbError) /\
  (forall un, pg_int u = Some un ->
     let row := {| bu_board_id := bn; bu_user_id := un |} in
     (~ In un (map u_id (users s)) -> outcome = Err NotFound) /\
     (In bn (map b_id (boards s)) -> In un (map u_id (users s)) ->
      on_board s un bn -> outcome = Err DbError) /\
     (outcome = Ok row <->
      In bn (map b_id (boards s)) /\ In un (map u_id (users s)) /\
      ~ on_board s un bn) /\
     (forall r, outcome = Ok r ->
        r = row /\
        s' = set_boards_users s (boards_users s ++ [row]) /\
        on_board s' un bn /\
        Board.isUserOnBoard s' u b = Ok true)) /\
  (forall e, outcome = Err e -> s' = s).
Proof.
  intros Hb. cbv zeta. unfold Board.addUserToBoard.
  rewrite (param_Some _ _ Hb).
  destruct (in_dec Z.eq_dec bn (map b_id (boards s))) as [Ib | Nb].
  2:{ rewrite (check_absent b_id _ _ Nb). simpl.
      repeat apply conj; try tauto; try discriminate; try reflexivity.
      intros un Hu.
      repeat apply conj; try tauto; try discriminate; try reflexivity. }
  destruct (check_found b_id _ _ Ib) as [brow [-> _]].
  unfold param. destruct (pg_int u) as [un0 |] eqn:Hu.
  2:{ simpl. repeat apply conj; try tauto; try discriminate; try reflexivity. }
  assert (forall (P : Z -> Prop), P un0 -> forall un, Some un0 = Some un -> P un)
    as Same by (intros P H un [= <-]; exact H).
  destruct (in_dec Z.eq_dec un0 (map u_id (users s))) as [Iu | Nu].
  2:{ rewrite (check_absent u_id _ _ Nu). simpl.
      repeat apply conj; try tauto; try discriminate; try reflexivity.
      apply Same.
      repeat apply conj; try tauto; try discriminate; try reflexivity. }
  destruct (check_found u_id _ _ Iu) as [urow [-> _]].
  change (fun r => (bu_user_id r =? un0) && (bu_board_id r =? bn))
    with (member_row un0 bn).
  destruct (existsb (member_row un0 bn) (boards_users s)) eqn:X; simpl.
  - apply member_row_on_board in X.
    repeat apply conj; try tauto; try discriminate; try reflexivity.
    apply Same.
    repeat apply conj; try tauto; try discriminate; try reflexivity.
  - assert (~ on_board s un0 bn) as Off.
    { intros C. apply member_row_on_board in C. congruence. }
    repeat apply conj; try tauto; try discriminate.
    apply Same.
    repeat apply conj; try tauto; try discriminate.
    intros r [= <-]. split; [reflexivity |]. split; [reflexivity |].
    assert (on_board (set_boards_users s
              (boards_users s ++ [{| bu_board_id := bn; bu_user_id := un0 |}]))
              un0 bn) as On.
    { unfold on_board. simpl. apply in_or_app. right. now left. }
    split; [exact On |].
    match goal with |- Board.isUserOnBoard ?S _ _ = _ =>
      rewrite (isUserOnBoard_found S u b un0 bn Hu Hb Ib) end.
    f_equal. now apply member_row_on_board.
Qed.

Lemma addUserToBoard_spec_witness :
  snd (Board.addUserToBoard demo (JNum 3) (JStr "2"))
    = Ok {| bu_board_id := 2; bu_user_id := 3 |} /\
  Board.isUserOnBoard (fst (Board.addUserToBoard demo (JNum 3) (JStr "2")))
                      (JNum 3) (JStr "2") = Ok true /\
  snd (Board.addUserToBoard demo (JNum 2) (JStr "1")) = Err DbError /\
  snd (Board.addUserToBoard demo (JStr "abc") (JStr "99")) = Err NotFound /\
  snd (Board.addUserToBoard demo (JStr "abc") (JStr "1")) = Err DbError.
Proof.
  pose proof (addUserToBoard_spec demo (JNum 3) (JStr "2") 2 eq_refl) as A.
  pose proof (addUserToBoard_spec demo (JNum 2) (JStr "1") 1 eq_refl) as D.
  pose proof (addUserToBoard_spec demo (JStr "abc") (JStr "99") 99 eq_refl) as N.
  pose proof (addUserToBoard_spec demo (JStr "abc") (JStr "1") 1 eq_refl) as Q.
  cbv zeta in A, D, N, Q.
  destruct A as [_ [_ [A _]]]. destruct (A 3 eq_refl) as [_ [_ [A1 A2]]].
  destruct D as [_ [_ [D _]]]. destruct (D 2 eq_refl) as [_ [D1 _]].
  destruct N as [N1 _]. destruct Q as [_ [Q1 _]].
  assert (snd (Board.addUserToBoard demo (JNum 3) (JStr "2"))
          = Ok {| bu_board_id := 2; bu_user_id := 3 |}) as E.
  { apply A1. split; [simpl; tauto |]. split; [simpl; tauto |].
    unfold on_board. simpl. intros [H | [H | []]]; discriminate H. }
  split; [exact E |]. split; [exact (proj2 (proj2 (proj2 (A2 _ E)))) |].
  split; [| split].
  - apply D1; [simpl; tauto | simpl; tauto | unfold on_board; simpl; tauto].
  - apply N1. simpl. intros [H | [H | []]]; discriminate H.
  - apply Q1; [simpl; tauto | reflexivity].
Defined.

(** X11: adding a membership and removing it again gives back the store
    one started from: after a successful [addUserToBoard],
    [removeUserFromBoard] of the same pair succeeds and the store is the
    original one. *)
Theorem add_then_remove_restores (s : Store) (u b : jsval) (r : BoardUserRow) :
  snd (Board.addUserToBoard s u b) = Ok r ->
  Board.removeUserFromBoard (fst (Board.addUserToBoard s u b)) u b = (s, Ok tt).
Proof.
  unfold Board.addUserToBoard, param.
  destruct (pg_int b) as [bn |] eqn:Hb; [| discriminate].
  destruct (rows0 _); [| discriminate].
  destruct (pg_int u) as [un |] eqn:Hu; [| discriminate].
  destruct (rows0 _); [| discriminate].
  change (fun r => (bu_user_id r =? un) && (bu_board_id r =? bn))
    with (member_row un bn).
  destruct (existsb (member_row un bn) (boards_users s)) eqn:X; [discriminate |].
  intros _. simpl. unfold Board.removeUserFromBoard. rewrite Hu, Hb. simpl.
  change (fun r => (bu_user_id r =? un) && (bu_board_id r =? bn))
    with (member_row un bn).
  assert (forall x, In x (boards_users s) -> member_row un bn x = false) as NoHit.
  { intros x Hx. apply not_true_is_false. intros C.
    assert (existsb (member_row un bn) (boards_users s) = true) as T
      by (apply existsb_exists; eauto).
    congruence. }
  assert (member_row un bn {| bu_board_id := bn; bu_user_id := un |} = true)
    as Hit by now apply member_row_true.
  rewrite !filter_app. simpl. rewrite Hit. simpl.
  rewrite filter_negb_all by exact NoHit.
  rewrite !Z.eqb_refl. simpl. rewrite List.app_nil_r.
  assert (filter (member_row un bn) (boards_users s) = []) as ->.
  { destruct (filter _ _) as [| x l] eqn:E; [reflexivity |].
    assert (In x (filter (member_row un bn) (boards_users s))) as Hx
      by (rewrite E; now left).
    apply filter_In in Hx. destruct Hx as [Hx Fx].
    rewrite (NoHit x Hx) in Fx. discriminate. }
  simpl. now destruct s.
Qed.

Lemma add_then_remove_restores_witness :
  Board.removeUserFromBoard
    (fst (Board.addUserToBoard demo (JNum 3) (JStr "2"))) (JNum 3) (JStr "2")
  = (demo, Ok tt).
Proof.
  apply (add_then_remove_restores demo (JNum 3) (JStr "2")
           {| bu_board_id := 2; bu_user_id := 3 |}).
  reflexivity.
Defined.

(** ** Adding and removing a project membership *)

Lemma assigned_row_true (u p : Z) (r : ProjectUserRow) :
  assigned_row u p r = true <-> r = {| pu_project_id := p; pu_user_id := u |}.
Proof.
  unfold assigned_row. destruct r as [rp ru]. simpl. split.
  - intros E. apply andb_prop in E. destruct E as [E1 E2].
    apply Z.eqb_eq in E1, E2. now subst.
  - intros [= -> ->]. now rewrite !Z.eqb_refl.
Qed.

Lemma assigned_row_on_project (s : Store) (u p : Z) :
  existsb (assigned_row u p) (projects_users s) = true <-> on_project s u p.
Proof.
  unfold on_project. rewrite existsb_exists. split.
  - intros [r [Hr E]]. apply assigned_row_true in E. now subst.
  - intros H. eexists. split; [exact H |]. now apply assigned_row_true.
Qed.

Lemma isUserOnProject_eval (s : Store) (u p : jsval) (un pn : Z) :
  pg_int u = Some un -> pg_int p = Some pn ->
  Project.isUserOnProject s u p
    = Ok (existsb (assigned_row un pn) (projects_users s)).
Proof.
  intros Hu Hp. unfold Project.isUserOnProject. rewrite Hu, Hp.
  now rewrite nonempty_filter.
Qed.

(** X13: [Project.removeUserFromProject] fails, with NotFound, exactly
    when the project or the user is absent, and then leaves the store as
    it was.  Otherwise it succeeds whether or not the user was assigned:
    the pair is gone from projects_users, every other row stays,
    [isUserOnProject] answers false, and a second removal succeeds and
    changes nothing. *)
Theorem removeUserFromProject_spec (s : Store) (u p : jsval) (un pn : Z) :
  pg_int u = Some un -> pg_int p = Some pn ->
  let s' := fst (Project.removeUserFromProject s u p) in
  let outcome := snd (Project.removeUserFromProject s u p) in
  (outcome = Ok tt <->
   In pn (map p_id (projects s)) /\ In un (map u_id (users s))) /\
  (outcome = Err NotFound <->
   ~ (In pn (map p_id (projects s)) /\ In un (map u_id (users s)))) /\
  (forall e, outcome = Err e -> s' = s) /\
  (outcome = Ok tt ->
   (forall r, In r (projects_users s') <->
      In r (projects_users s) /\
      r <> {| pu_project_id := pn; pu_user_id := un |}) /\
   users s' = users s /\ boards s' = boards s /\
   boards_users s' = boards_users s /\ projects s' = projects s /\
   sessions s' = sessions s /\
   Project.isUserOnProject s' u p = Ok false /\
   Project.removeUserFromProject s' u p = (s', Ok tt)).
Proof.
  intros Hu Hp. cbv zeta. unfold Project.removeUserFromProject.
  rewrite (param_Some _ _ Hp), (param_Some _ _ Hu).
  destruct (in_dec Z.eq_dec pn (map p_id (projects s))) as [Ip | Np].
  2:{ rewrite (check_absent p_id _ _ Np). simpl.
      repeat apply conj; try tauto; try discriminate; try reflexivity. }
  destruct (check_found p_id _ _ Ip) as [prow [Ep _]]. rewrite Ep.
  destruct (in_dec Z.eq_dec un (map u_id (users s))) as [Iu | Nu].
  2:{ rewrite (check_absent u_id _ _ Nu). simpl.
      repeat apply conj; try tauto; try discriminate; try reflexivity. }
  destruct (check_found u_id _ _ Iu) as [urow [Eu _]]. rewrite Eu. simpl.
  change (fun r => negb ((pu_user_id r =? un) && (pu_project_id r =? pn)))
    with (fun r => negb (assigned_row un pn r)).
  repeat apply conj; try tauto; try discriminate.
  intros _. repeat apply conj; try reflexivity.
  - intros r. rewrite filter_In, negb_true_iff, <- not_true_iff_false,
      assigned_row_true. tauto.
  - rewrite (isUserOnProject_eval _ u p un pn Hu Hp). f_equal. simpl.
    apply not_true_is_false. intros C. apply existsb_exists in C.
    destruct C as [x [Hx Fx]]. apply filter_In in Hx.
    destruct Hx as [_ Hx]. rewrite Fx in Hx. discriminate.
  - rewrite Ep, Eu. f_equal. unfold set_projects_users. simpl. f_equal.
    apply filter_negb_all. intros x Hx. apply filter_In in Hx.
    destruct Hx as [_ Hx]. now apply negb_true_iff in Hx.
Qed.

Lemma removeUserFromProject_spec_witness :
  ~ on_project demo 2 1 /\
  snd (Project.removeUserFromProject demo (JNum 2) (JStr "1")) = Ok tt /\
  fst (Project.removeUserFromProject demo (JNum 2) (JStr "1")) = demo /\
  snd (Project.removeUserFromProject demo (JNum 2) (JStr "99")) = Err NotFound.
Proof.
  pose proof (removeUserFromProject_spec demo (JNum 2) (JStr "1") 2 1
                eq_refl eq_refl) as R.
  pose proof (removeUserFromProject_spec demo (JNum 2) (JStr "99") 2 99
                eq_refl eq_refl) as N.
  cbv zeta in R, N.
  destruct R as [R1 _]. destruct N as [_ [N1 _]].
  split; [unfold on_project; simpl; tauto |].
  split; [apply R1; simpl; tauto |]. split; [reflexivity |].
  apply N1. simpl. intros [[H | [H | []]] _]; discriminate H.
Defined.

(** X14: [Project.addUserToProject] looks the project up first and the
    user second.  For an absent project it fails with NotFound whatever
    the userId is, also one that does not bind; for a project that
    exists, a userId that does not bind fails the query and an absent
    user gives NotFound.  For a pair that is already assigned the INSERT
    fails; otherwise it appends the pair to projects_users and returns
    the user's id.  It does not ask for a board membership, and
    afterwards the user passes [ensureUserOnProjectOrPm] on the
    project.  A failure leaves the store as it was. *)
Theorem addUserToProject_spec (s : Store) (u p : jsval) (pn : Z) :
  pg_int p = Some pn ->
  let s' := fst (Project.addUserToProject s u p) in
  let outcome := snd (Project.addUserToProject s u p) in
  (~ In pn (map p_id (projects s)) -> outcome = Err NotFound) /\
  (In pn (map p_id (projects s)) -> pg_int u = None -> outcome = Err DbError) /\
  (forall un, pg_int u = Some un ->
     (~ In un (map u_id (users s)) -> outcome = Err NotFound) /\
     (In pn (map p_id (projects s)) -> In un (map u_id (users s)) ->
      on_project s un pn -> outcome = Err DbError) /\
     (outcome = Ok un <->
      In pn (map p_id (projects s)) /\ In un (map u_id (users s)) /\
      ~ on_project s un pn) /\
     (forall r, outcome = Ok r ->
        r = un /\
        s' = set_projects_users s
               (projects_users s
                ++ [{| pu_project_id := pn; pu_user_id := un |}]) /\
        Project.isUserOnProject s' u p = Ok true /\
        (store_ok s = true ->
         forall a req, user_id a = un ->
           pg_int (JStr (projectId req)) = Some pn ->
           Auth.ensureUserOnProjectOrPm s' (Some a) req = Ok tt))) /\
  (forall e, outcome = Err e -> s' = s).
Proof.
  intros Hp. cbv zeta. unfold Project.addUserToProject.
  rewrite (param_Some _ _ Hp).
  destruct (in_dec Z.eq_dec pn (map p_id (projects s))) as [Ip | Np].
  2:{ rewrite (check_absent p_id _ _ Np). simpl.
      repeat apply conj; try tauto; try discriminate; try reflexivity.
      intros un Hu.
      repeat apply conj; try tauto; try discriminate; try reflexivity. }
  destruct (check_found p_id _ _ Ip) as [prow [Ep Kp]]. rewrite Ep.
  destruct (pg_int u) as [un |] eqn:Hu.
  2:{ unfold param. rewrite Hu. simpl.
      repeat apply conj; try tauto; try discriminate; try reflexivity. }
  rewrite (param_Some _ _ Hu).
  assert (forall (P : Z -> Prop), P un -> forall un', Some un = Some un' -> P un')
    as Same by (intros P H un' [= <-]; exact H).
  destruct (in_dec Z.eq_dec un (map u_id (users s))) as [Iu | Nu].
  2:{ rewrite (check_absent u_id _ _ Nu). simpl.
      repeat apply conj; try tauto; try discriminate; try reflexivity.
      apply Same.
      repeat apply conj; try tauto; try discriminate; try reflexivity. }
  destruct (check_found u_id _ _ Iu) as [urow [Eu Ku]]. rewrite Eu.
  assert (existsb (fun r => (pu_project_id r =? pn) && (pu_user_id r =? un))
                  (projects_users s)
          = existsb (assigned_row un pn) (projects_users s)) as ->.
  { clear. induction (projects_users s) as [| x l IH]; simpl;
      [reflexivity |]. unfold assigned_row at 1. now rewrite IH, andb_comm. }
  destruct (existsb (assigned_row un pn) (projects_users s)) eqn:X; simpl.
  - apply assigned_row_on_project in X.
    repeat apply conj; try tauto; try discriminate; try reflexivity.
    apply Same.
    repeat apply conj; try tauto; try discriminate; try reflexivity.
  - assert (~ on_project s un pn) as Off.
    { intros C. apply assigned_row_on_project in C. congruence. }
    rewrite Ku.
    repeat apply conj; try tauto; try discriminate.
    apply Same.
    repeat apply conj; try tauto; try discriminate.
    intros r [= <-]. split; [reflexivity |]. split; [reflexivity |].
    assert (Project.isUserOnProject
              (set_projects_users s
                 (projects_users s
                  ++ [{| pu_project_id := pn; pu_user_id := un |}])) u p
            = Ok true) as On.
    { rewrite (isUserOnProject_eval _ u p un pn Hu Hp). f_equal. simpl.
      rewrite existsb_app. simpl.
      assert (assigned_row un pn {| pu_project_id := pn; pu_user_id := un |}
              = true) as -> by now apply assigned_row_true.
      now rewrite orb_true_r. }
    split; [exact On |].
    intros Hs a req Ea Hx.
    change (pg_int (JStr (projectId req)) = Some pn) in Hx.
    unfold Auth.ensureUserOnProjectOrPm.
    assert (In prow (projects s)) as Hprow
      by (apply rows0_filter_Some in Ep; tauto).
    assert (Project.getById
              (set_projects_users s
                 (projects_users s
                  ++ [{| pu_project_id := pn; pu_user_id := un |}]))
              (JStr (projectId req)) = Ok prow) as ->.
    { unfold Project.getById. rewrite (param_Some _ _ Hx). simpl.
      now rewrite Ep. }
    simpl. rewrite Ea.
    assert (int4 un = true) as I4 by (eapply store_ok_user_int4; eassumption).
    rewrite (isUserOnProject_eval _ (JNum un) (JStr (projectId req)) un pn
               (pg_int_JNum _ I4) Hx).
    simpl. rewrite existsb_app. simpl.
    assert (assigned_row un pn {| pu_project_id := pn; pu_user_id := un |}
            = true) as -> by now apply assigned_row_true.
    rewrite orb_true_r. simpl.
    pose proof (store_ok_project_board s prow Hs Hprow) as Hb.
    match goal with |- context [Board.isUserOnBoard ?S _ _] =>
      rewrite (isUserOnBoard_found S (JNum un) (JNum (p_boardId prow))
                 un (p_boardId prow)) end.
    + reflexivity.
    + now apply pg_int_JNum.
    + apply pg_int_JNum. eapply store_ok_board_int4; eassumption.
    + exact Hb.
Qed.

Lemma addUserToProject_spec_witness :
  (forall b, ~ on_board demo 3 b) /\
  snd (Project.addUserToProject demo (JNum 3) (JStr "1")) = Ok 3 /\
  Auth.ensureUserOnProjectOrPm
    (fst (Project.addUserToProject demo (JNum 3) (JStr "1")))
    (Some (actor 3 false)) (at_id "1") = Ok tt /\
  snd (Project.addUserToProject demo (JStr "abc") (JStr "99")) = Err NotFound /\
  snd (Project.addUserToProject demo (JStr "abc") (JStr "1")) = Err DbError.
Proof.
  pose proof (addUserToProject_spec demo (JNum 3) (JStr "1") 1 eq_refl) as A.
  pose proof (addUserToProject_spec demo (JStr "abc") (JStr "99") 99 eq_refl)
    as N.
  pose proof (addUserToProject_spec demo (JStr "abc") (JStr "1") 1 eq_refl)
    as Q.
  cbv zeta in A, N, Q.
  destruct A as [_ [_ [A _]]]. destruct (A 3 eq_refl) as [_ [_ [A1 A2]]].
  destruct N as [N1 _]. destruct Q as [_ [Q1 _]].
  assert (snd (Project.addUserToProject demo (JNum 3) (JStr "1")) = Ok 3) as E.
  { apply A1. split; [simpl; tauto |]. split; [simpl; tauto |].
    unfold on_project. simpl. tauto. }
  split.
  { intros b. unfold on_board. simpl. intros [H | [H | []]]; discriminate H. }
  split; [exact E |].
  destruct (A2 3 E) as [_ [_ [_ P]]].
  split; [apply (P eq_refl (actor 3 false) (at_id "1")); reflexivity |].
  split.
  - apply N1. simpl. intros [H | [H | []]]; discriminate H.
  - apply Q1; [simpl; tauto | reflexivity].
Defined.

(** ** Deleting a session, promoting a user *)

(** X15: [Session.delete] raises NotFound exactly when no session carries
    the id; otherwise it removes that session and no other row, and the
    lookup by id then finds nothing. *)
Theorem session_delete_spec (s : Store) (x : jsval) (n : Z) :
  pg_int x = Some n ->
  let s' := fst (Session.delete s x) in
  let outcome := snd (Session.delete s x) in
  (outcome = Err NotFound <-> ~ In n (map s_id (sessions s))) /\
  (outcome = Ok tt <-> In n (map s_id (sessions s))) /\
  (forall r, In r (sessions s') <-> In r (sessions s) /\ s_id r <> n) /\
  (users s' = users s /\ boards s' = boards s /\
   boards_users s' = boards_users s /\ projects s' = projects s /\
   projects_users s' = projects_users s) /\
  (outcome = Err NotFound -> s' = s) /\
  Session.getById s' x = Ok None.
Proof.
  intros Hx. cbv zeta. unfold Session.delete. rewrite (param_Some _ _ Hx).
  assert (Session.getById
            (set_sessions s (filter (fun r => negb (s_id r =? n)) (sessions s))) x
          = Ok None) as G.
  { unfold Session.getById. rewrite (param_Some _ _ Hx). simpl. f_equal.
    apply rows0_filter_None. intros r Hr. apply filter_In in Hr.
    destruct Hr as [_ Hr]. now apply negb_true_iff in Hr. }
  assert (forall r, In r (filter (fun r => negb (s_id r =? n)) (sessions s))
                    <-> In r (sessions s) /\ s_id r <> n) as M.
  { intros r. rewrite filter_In, negb_true_iff, Z.eqb_neq. tauto. }
  destruct (in_dec Z.eq_dec n (map s_id (sessions s))) as [Hin | Hout].
  - destruct (check_found s_id _ _ Hin) as [row [-> _]]. simpl.
    repeat apply conj; try tauto; try discriminate; try reflexivity;
      try exact G; try apply M.
  - rewrite (check_absent s_id _ _ Hout). simpl.
    repeat apply conj; try tauto; try discriminate; try reflexivity;
      try exact G; try apply M.
    intros _. unfold set_sessions. destruct s as [us bs bus ps pus ses].
    simpl in *. f_equal. apply (filter_negb_all (fun r => s_id r =? n)).
    intros r Hr. apply Z.eqb_neq. intros E. apply Hout. rewrite <- E.
    now apply in_map.
Qed.

Lemma session_delete_spec_witness :
  snd (Session.delete demo (JStr "1")) = Ok tt /\
  sessions (fst (Session.delete demo (JStr "1"))) = [] /\
  Session.delete demo (JStr "99") = (demo, Err NotFound).
Proof.
  pose proof (session_delete_spec demo (JStr "1") 1 eq_refl) as D.
  pose proof (session_delete_spec demo (JStr "99") 99 eq_refl) as N.
  cbv zeta in D, N.
  destruct D as [_ [D1 _]]. destruct N as [N1 [_ [_ [_ [N2 _]]]]].
  split; [apply D1; simpl; tauto |]. split; [reflexivity |].
  assert (snd (Session.delete demo (JStr "99")) = Err NotFound) as E.
  { apply N1. simpl. intros [H | []]. discriminate H. }
  rewrite (surjective_pairing (Session.delete demo (JStr "99"))).
  now rewrite E, (N2 E).
Defined.

(** X16: [User.promoteToPm] fails with NotFound for an absent user and
    with BadRequest for a user who is a PM already, leaving the store as
    it was.  Otherwise it sets is_pm on that user's row and on no other,
    changes no id and no other table, returns the updated row, and a
    second promotion fails with BadRequest. *)
Theorem promoteToPm_spec (s : Store) (x : jsval) (n : Z) :
  store_ok s = true -> pg_int x = Some n ->
  let s' := fst (User.promoteToPm s x) in
  let outcome := snd (User.promoteToPm s x) in
  (~ In n (map u_id (users s)) -> outcome = Err NotFound /\ s' = s) /\
  (forall row, In row (users s) -> u_id row = n ->
     (u_isPm row = true -> outcome = Err BadRequest /\ s' = s) /\
     (u_isPm row = false ->
      outcome = Ok (Some (promoted row)) /\
      In (promoted row) (users s') /\
      (forall r, In r (users s) -> u_id r <> n -> In r (users s')) /\
      (forall r, In r (users s') -> r = promoted row \/ In r (users s)) /\
      map u_id (users s') = map u_id (users s) /\
      boards s' = boards s /\ boards_users s' = boards_users s /\
      projects s' = projects s /\ projects_users s' = projects_users s /\
      sessions s' = sessions s /\
      User.promoteToPm s' x = (s', Err BadRequest))).
Proof.
  intros Hs Hx. cbv zeta. unfold User.promoteToPm.
  rewrite (param_Some _ _ Hx). split.
  - intros Hout. now rewrite (check_absent u_id _ _ Hout).
  - intros row Hrow En.
    pose proof (store_ok_users_pk s Hs) as PK.
    pose proof (distinct_lookup u_id (users s) row PK Hrow) as L.
    rewrite En in L. rewrite L.
    split; [intros ->; now split |]. intros Hpm. rewrite Hpm.
    change (fun r => {| u_id := u_id r; u_email := u_email r;
                        u_firstName := u_firstName r;
                        u_lastName := u_lastName r; u_isPm := true |})
      with promoted.
    assert (filter (fun r => u_id r =? n) (users s) = row :: tl
              (filter (fun r => u_id r =? n) (users s))) as F.
    { destruct (filter _ _); [discriminate | now injection L as ->]. }
    assert (forall r, In r (map (fun r => if u_id r =? n then promoted r else r)
                                (users s))
                      <-> exists r0, In r0 (users s) /\
                            r = if u_id r0 =? n then promoted r0 else r0) as M.
    { intros r. rewrite in_map_iff. split; intros [r0 [A B]]; exists r0; auto. }
    unfold promoted in *.
    cbn [fst snd users boards boards_users projects projects_users sessions
         set_users].
    repeat apply conj; try reflexivity.
    + rewrite F. reflexivity.
    + apply M. exists row. split; [exact Hrow |]. now rewrite En, Z.eqb_refl.
    + intros r Hr Ne. apply M. exists r. split; [exact Hr |].
      apply Z.eqb_neq in Ne. now rewrite Ne.
    + intros r Hr. apply M in Hr. destruct Hr as [r0 [H0 ->]].
      destruct (u_id r0 =? n) eqn:E; [left | now right].
      apply Z.eqb_eq in E.
      assert (r0 = row) as ->
        by (apply (distinct_injective u_id (users s)); auto; congruence).
      reflexivity.
    + rewrite map_map. apply map_ext. intros r. now destruct (u_id r =? n).
    + assert (rows0 (filter (fun r => u_id r =? n)
                (map (fun r => if u_id r =? n then promoted r else r) (users s)))
              = Some (promoted row)) as R;
        [| unfold promoted in R; rewrite R; reflexivity].
      unfold promoted. apply rows0_all_equal.
      * intros E.
        assert (In (promoted row)
                  (filter (fun r => u_id r =? n)
                     (map (fun r => if u_id r =? n then promoted r else r)
                          (users s)))) as C.
        { apply filter_In. split.
          - apply M. exists row. split; [exact Hrow |].
            destruct (u_id row =? n) eqn:Q;
              [reflexivity | apply Z.eqb_neq in Q; contradiction].
          - change ((u_id row =? n) = true). now apply Z.eqb_eq. }
        unfold promoted in C. rewrite E in C. destruct C.
      * intros y Hy. apply filter_In in Hy. destruct Hy as [Hy Ey].
        apply M in Hy. destruct Hy as [r0 [H0 ->]].
        destruct (u_id r0 =? n) eqn:E.
        -- apply Z.eqb_eq in E.
           assert (r0 = row) as ->
             by (apply (distinct_injective u_id (users s)); auto; congruence).
           reflexivity.
        -- congruence.
Qed.

Lemma promoteToPm_spec_witness :
  snd (User.promoteToPm demo (JStr "2")) = Ok (Some (demo_user 2 true)) /\
  snd (User.promoteToPm demo (JStr "1")) = Err BadRequest /\
  snd (User.promoteToPm demo (JStr "99")) = Err NotFound.
Proof.
  pose proof (promoteToPm_spec demo (JStr "2") 2 eq_refl eq_refl) as P.
  pose proof (promoteToPm_spec demo (JStr "1") 1 eq_refl eq_refl) as B.
  pose proof (promoteToPm_spec demo (JStr "99") 99 eq_refl eq_refl) as N.
  cbv zeta in P, B, N.
  destruct P as [_ P]. destruct B as [_ B]. destruct N as [N _].
  split; [| split].
  - apply (P (demo_user 2 false)); [simpl; tauto | reflexivity | reflexivity].
  - apply (B (demo_user 1 true)); [simpl; tauto | reflexivity | reflexivity].
  - apply N. simpl. intros [H | [H | [H | [H | []]]]]; discriminate H.
Defined.

(** ** The schema's constraints are kept *)

Lemma existsb_key {A : Type} (key : A -> Z * Z) (x y : Z) (l : list A) :
  existsb (fun q => (fst q =? x) && (snd q =? y)) (map key l)
  = existsb (fun r => (fst (key r) =? x) && (snd (key r) =? y)) l.
Proof.
  induction l as [| a l IH]; simpl; [reflexivity | now rewrite IH].
Qed.

Lemma rows0_filter_id_In {A : Type} (key : A -> Z) (l : list A) (n : Z) (row : A) :
  rows0 (filter (fun r => key r =? n) l) = Some row ->
  has_id (map key l) n = true.
Proof.
  intros H. apply rows0_filter_Some in H. destruct H as [Hin E].
  apply Z.eqb_eq in E. apply has_id_In. rewrite <- E. now apply in_map.
Qed.

(** X12: every statement of the models that writes keeps the schema's
    constraints (column types, primary keys, foreign keys), on every
    input and whatever its outcome: adding and removing a board
    membership, adding and removing a project membership, deleting a
    session, promoting a user. *)
Theorem writes_keep_schema_constraints (s : Store) (u x : jsval) :
  store_ok s = true ->
  store_ok (fst (Board.addUserToBoard s u x)) = true /\
  store_ok (fst (Board.removeUserFromBoard s u x)) = true /\
  store_ok (fst (Project.addUserToProject s u x)) = true /\
  store_ok (fst (Project.removeUserFromProject s u x)) = true /\
  store_ok (fst (Session.delete s x)) = true /\
  store_ok (fst (User.promoteToPm s x)) = true.
Proof.
  intros Hs.
  pose proof (store_ok_fk_boards_users s Hs) as FKb.
  pose proof (store_ok_memberships_pk s Hs) as PKb.
  destruct (store_ok_fk_projects_users s Hs) as [FKp PKp].
  destruct (store_ok_sessions_all s Hs) as [I4s FKs].
  repeat apply conj.
  - unfold Board.addUserToBoard, param.
    destruct (pg_int x) as [bn |]; [| exact Hs].
    destruct (rows0 _) as [brow |] eqn:Eb; [| exact Hs].
    destruct (pg_int u) as [un |]; [| exact Hs].
    destruct (rows0 (filter _ (users s))) as [urow |] eqn:Eu; [| exact Hs].
    destruct (existsb _ _) eqn:X; [exact Hs |]. simpl.
    apply store_ok_set_boards_users; [exact Hs | |].
    + apply (distinct2_snoc (fun r => (bu_board_id r, bu_user_id r)));
        [exact PKb |].
      rewrite existsb_key. simpl. rewrite <- X. clear.
      induction (boards_users s) as [| a l IH]; simpl; [reflexivity |].
      now rewrite IH, andb_comm.
    + rewrite forallb_app, FKb. simpl.
      now rewrite (rows0_filter_id_In b_id _ _ _ Eb),
                  (rows0_filter_id_In u_id _ _ _ Eu).
  - unfold Board.removeUserFromBoard.
    destruct (pg_int u) as [un |]; [| exact Hs].
    destruct (pg_int x) as [bn |]; [| exact Hs].
    assert (store_ok (set_boards_users s
              (filter (fun r => negb ((bu_user_id r =? un) && (bu_board_id r =? bn)))
                      (boards_users s))) = true) as K.
    { apply store_ok_set_boards_users; [exact Hs | |].
      - now apply distinct2_filter.
      - now apply forallb_filter. }
    now destruct (rows0 _).
  - unfold Project.addUserToProject, param.
    destruct (pg_int x) as [pn |]; [| exact Hs].
    destruct (rows0 _) as [prow |] eqn:Ep; [| exact Hs].
    destruct (pg_int u) as [un |]; [| exact Hs].
    destruct (rows0 (filter _ (users s))) as [urow |] eqn:Eu; [| exact Hs].
    destruct (existsb _ _) eqn:X; [exact Hs |]. simpl.
    apply store_ok_set_projects_users; [exact Hs | |].
    + apply (distinct2_snoc (fun r => (pu_project_id r, pu_user_id r)));
        [exact PKp |].
      rewrite existsb_key. simpl. exact X.
    + rewrite forallb_app, FKp. simpl.
      now rewrite (rows0_filter_id_In p_id _ _ _ Ep),
                  (rows0_filter_id_In u_id _ _ _ Eu).
  - unfold Project.removeUserFromProject, param.
    destruct (pg_int x) as [pn |]; [| exact Hs].
    destruct (rows0 _); [| exact Hs].
    destruct (pg_int u) as [un |]; [| exact Hs].
    destruct (rows0 _); [| exact Hs]. simpl.
    apply store_ok_set_projects_users; [exact Hs | |].
    + now apply distinct2_filter.
    + now apply forallb_filter.
  - unfold Session.delete, param.
    destruct (pg_int x) as [n |]; [| exact Hs].
    assert (store_ok (set_sessions s
              (filter (fun r => negb (s_id r =? n)) (sessions s))) = true) as K.
    { apply store_ok_set_sessions; [exact Hs | | |].
      - rewrite forallb_forall in *. intros z Hz. apply I4s.
        apply in_map_iff in Hz. destruct Hz as [r [<- Hr]].
        apply filter_In in Hr. apply in_map. tauto.
      - apply distinct_filter. now apply store_ok_sessions_pk.
      - now apply forallb_filter. }
    now destruct (rows0 _).
  - unfold User.promoteToPm, param.
    destruct (pg_int x) as [n |]; [| exact Hs].
    destruct (rows0 _) as [pre |]; [| exact Hs].
    destruct (u_isPm pre); [exact Hs |]. simpl.
    apply store_ok_set_users; [exact Hs |].
    rewrite map_map. apply map_ext. intros r. now destruct (u_id r =? n).
Qed.

Lemma writes_keep_schema_constraints_witness :
  store_ok (fst (Board.addUserToBoard demo (JNum 3) (JStr "2"))) = true /\
  store_ok (fst (Session.delete demo (JStr "1"))) = true /\
  store_ok (fst (User.promoteToPm demo (JStr "2"))) = true.
Proof.
  destruct (writes_keep_schema_constraints demo (JNum 3) (JStr "2") eq_refl)
    as [A _].
  destruct (writes_keep_schema_constraints demo (JNum 3) (JStr "1") eq_refl)
    as [_ [_ [_ [_ [D _]]]]].
  destruct (writes_keep_schema_constraints demo (JNum 3) (JStr "2") eq_refl)
    as [_ [_ [_ [_ [_ P]]]]].
  split; [exact A | split; [exact D | exact P]].
Defined.

(** ** Listings *)

Lemma distinct2_NoDup {A : Type} (key : A -> Z * Z) (l : list A) :
  distinct2 (map key l) = true -> NoDup l.
Proof.
  induction l as [| a l IH]; simpl; [constructor |].
  destruct (key a) as [x y] eqn:K. intros D.
  apply andb_prop in D. destruct D as [Da Dl]. constructor; [| now apply IH].
  intros Hin. apply negb_true_iff in Da.
  assert (existsb (fun q => (fst q =? x) && (snd q =? y)) (map key l) = true) as C.
  { apply existsb_exists. exists (key a). split; [now apply in_map |].
    rewrite K. simpl. now rewrite !Z.eqb_refl. }
  congruence.
Qed.

(** A join that keeps the left row: each left row comes out once when it
    has one partner at most. *)
Lemma join_once {A B : Type} (l : list A) (m : list B) (c : A -> B -> bool) :
  NoDup l -> NoDup m ->
  (forall a b1 b2, In b1 m -> In b2 m ->
     c a b1 = true -> c a b2 = true -> b1 = b2) ->
  NoDup (flat_map (fun a => flat_map (fun b => if c a b then [a] else []) m) l).
Proof.
  intros Nl Nm U.
  assert (forall a y, In y (flat_map (fun b => if c a b then [a] else []) m)
                      -> y = a) as Same.
  { intros a y H. apply in_flat_map in H. destruct H as [b [_ H]].
    destruct (c a b); [destruct H as [<- | []]; reflexivity | destruct H]. }
  assert (forall a, NoDup (flat_map (fun b => if c a b then [a] else []) m))
    as Inner.
  { intros a. clear Same. induction m as [| b m IH]; simpl; [constructor |].
    inversion Nm as [| ? ? Hb Nm']; subst.
    assert (NoDup (flat_map (fun b0 => if c a b0 then [a] else []) m)) as R.
    { apply IH; [assumption |]. intros a0 b1 b2 H1 H2. apply U; now right. }
    destruct (c a b) eqn:E; simpl; [| exact R].
    constructor; [| exact R]. intros Hin. apply in_flat_map in Hin.
    destruct Hin as [b' [Hb' Hin]]. destruct (c a b') eqn:E'; [| destruct Hin].
    assert (b = b') as -> by (apply (U a); simpl; auto).
    contradiction. }
  induction l as [| a l IH]; simpl; [constructor |].
  inversion Nl as [| ? ? Ha Nl']; subst.
  apply NoDup_app; [apply Inner | now apply IH |].
  intros y Hy Hy'. apply Same in Hy. subst y.
  apply in_flat_map in Hy'. destruct Hy' as [a' [Ha' Hy']].
  apply Same in Hy'. subst a'. contradiction.
Qed.

Lemma users_NoDup (s : Store) : store_ok s = true -> NoDup (users s).
Proof.
  intros Hs. apply (NoDup_map_inv u_id). apply distinct_NoDup.
  now apply store_ok_users_pk.
Qed.

(** X17: [Board.getBoardUsers] fails with NotFound exactly when the board
    is absent; otherwise it returns the users that are on the board and no
    others, each of them once, and a user is listed exactly when
    [isUserOnBoard] answers true for them. *)
Theorem getBoardUsers_spec (s : Store) (x : jsval) (bn : Z) :
  pg_int x = Some bn ->
  (~ In bn (map b_id (boards s)) -> Board.getBoardUsers s x = Err NotFound) /\
  (In bn (map b_id (boards s)) ->
   exists rows,
     Board.getBoardUsers s x = Ok rows /\
     (forall v, In v rows <-> In v (users s) /\ on_board s (u_id v) bn) /\
     (store_ok s = true ->
      NoDup rows /\
      forall v, In v (users s) ->
        (In v rows <-> Board.isUserOnBoard s (JNum (u_id v)) x = Ok true))).
Proof.
  intros Hx. unfold Board.getBoardUsers. rewrite (param_Some _ _ Hx). simpl.
  split.
  - intros Hout. now rewrite (check_absent b_id _ _ Hout).
  - intros Hin. destruct (check_found b_id _ _ Hin) as [row [-> _]].
    eexists. split; [reflexivity |].
    assert (forall v,
      In v (flat_map (fun u =>
              flat_map (fun bu =>
                if (u_id u =? bu_user_id bu) && (bu_board_id bu =? bn)
                then [u] else []) (boards_users s)) (users s))
      <-> In v (users s) /\ on_board s (u_id v) bn) as M.
    { intros v. rewrite in_flat_map. split.
      - intros [u [Hu H]]. apply in_flat_map in H. destruct H as [bu [Hbu H]].
        destruct (_ && _) eqn:E; [| destruct H]. destruct H as [<- | []].
        apply andb_prop in E. destruct E as [E1 E2]. apply Z.eqb_eq in E1, E2.
        split; [exact Hu |]. unfold on_board. destruct bu as [bb uu].
        simpl in *. now subst.
      - intros [Hv On]. exists v. split; [exact Hv |].
        apply in_flat_map. eexists. split; [exact On |]. simpl.
        rewrite !Z.eqb_refl. now left. }
    split; [exact M |]. intros Hs. split.
    + apply join_once.
      * now apply users_NoDup.
      * apply (distinct2_NoDup (fun r => (bu_board_id r, bu_user_id r))).
        now apply store_ok_memberships_pk.
      * intros a [b1 u1] [b2 u2] _ _ E1 E2. simpl in *.
        apply andb_prop in E1, E2. destruct E1 as [A1 B1], E2 as [A2 B2].
        apply Z.eqb_eq in A1, B1, A2, B2. congruence.
    + intros v Hv. rewrite M.
      assert (int4 (u_id v) = true) as I4
        by (eapply store_ok_user_int4; [eassumption | now apply in_map]).
      rewrite (isUserOnBoard_found s _ x (u_id v) bn (pg_int_JNum _ I4) Hx Hin).
      rewrite <- member_row_on_board.
      destruct (existsb _ _); split; try tauto; try congruence.
      intros [_ C]. discriminate.
Qed.

Lemma getBoardUsers_spec_witness :
  Board.getBoardUsers demo (JStr "99") = Err NotFound /\
  exists rows,
    Board.getBoardUsers demo (JStr "1") = Ok rows /\
    (forall v, In v rows <-> In v (users demo) /\ on_board demo (u_id v) 1).
Proof.
  destruct (getBoardUsers_spec demo (JStr "99") 99 eq_refl) as [N _].
  destruct (getBoardUsers_spec demo (JStr "1") 1 eq_refl) as [_ F].
  split.
  - apply N. simpl. intros [H | [H | []]]; discriminate H.
  - destruct F as [rows [E [M _]]]; [simpl; tauto |].
    exists rows. split; [exact E | exact M].
Defined.

(** X18: [Project.getProjectUsers] fails with NotFound exactly when the
    project is absent; otherwise it returns the users assigned to the
    project and no others, each of them once, and a user is listed
    exactly when [isUserOnProject] answers true for them. *)
Theorem getProjectUsers_spec (s : Store) (x : jsval) (pn : Z) :
  pg_int x = Some pn ->
  (~ In pn (map p_id (projects s)) -> Project.getProjectUsers s x = Err NotFound) /\
  (In pn (map p_id (projects s)) ->
   exists rows,
     Project.getProjectUsers s x = Ok rows /\
     (forall v, In v rows <-> In v (users s) /\ on_project s (u_id v) pn) /\
     (store_ok s = true ->
      NoDup rows /\
      forall v, In v (users s) ->
        (In v rows <-> Project.isUserOnProject s (JNum (u_id v)) x = Ok true))).
Proof.
  intros Hx. unfold Project.getProjectUsers. rewrite (param_Some _ _ Hx). simpl.
  split.
  - intros Hout. now rewrite (check_absent p_id _ _ Hout).
  - intros Hin. destruct (check_found p_id _ _ Hin) as [row [-> _]].
    eexists. split; [reflexivity |].
    assert (forall v,
      In v (flat_map (fun u =>
              flat_map (fun pu =>
                if (u_id u =? pu_user_id pu) && (pu_project_id pu =? pn)
                then [u] else []) (projects_users s)) (users s))
      <-> In v (users s) /\ on_project s (u_id v) pn) as M.
    { intros v. rewrite in_flat_map. split.
      - intros [u [Hu H]]. apply in_flat_map in H. destruct H as [pu [Hpu H]].
        destruct (_ && _) eqn:E; [| destruct H]. destruct H as [<- | []].
        apply andb_prop in E. destruct E as [E1 E2]. apply Z.eqb_eq in E1, E2.
        split; [exact Hu |]. unfold on_project. destruct pu as [pp uu].
        simpl in *. now subst.
      - intros [Hv On]. exists v. split; [exact Hv |].
        apply in_flat_map. eexists. split; [exact On |]. simpl.
        rewrite !Z.eqb_refl. now left. }
    split; [exact M |]. intros Hs. split.
    + apply join_once.
      * now apply users_NoDup.
      * apply (distinct2_NoDup (fun r => (pu_project_id r, pu_user_id r))).
        now apply store_ok_fk_projects_users.
      * intros a [p1 u1] [p2 u2] _ _ E1 E2. simpl in *.
        apply andb_prop in E1, E2. destruct E1 as [A1 B1], E2 as [A2 B2].
        apply Z.eqb_eq in A1, B1, A2, B2. congruence.
    + intros v Hv. rewrite M.
      assert (int4 (u_id v) = true) as I4
        by (eapply store_ok_user_int4; [eassumption | now apply in_map]).
      rewrite (isUserOnProject_eval s _ x (u_id v) pn (pg_int_JNum _ I4) Hx).
      rewrite <- assigned_row_on_project.
      destruct (existsb _ _); split; try tauto; try congruence.
      intros [_ C]. discriminate.
Qed.

Lemma getProjectUsers_spec_witness :
  Project.getProjectUsers demo (JStr "99") = Err NotFound /\
  Project.getProjectUsers demo (JStr "1") = Ok [].
Proof.
  destruct (getProjectUsers_spec demo (JStr "99") 99 eq_refl) as [N _].
  split; [| reflexivity].
  apply N. simpl. intros [H | [H | []]]; discriminate H.
Defined.

Lemma sessions_on_boards_In (s : Store) (n : Z) (se : SessionRow) :
  In se (flat_map (fun se =>
           flat_map (fun p =>
             flat_map (fun b =>
               flat_map (fun bu =>
                 if (s_projectId se =? p_id p)
                    && (p_boardId p =? b_id b)
                    && (bu_board_id bu =? b_id b)
                    && (bu_user_id bu =? n)
                 then [se] else [])
                 (boards_users s))
               (boards s))
             (projects s))
           (sessions s))
  <-> In se (sessions s) /\
      exists p, In p (projects s) /\ p_id p = s_projectId se /\
                In (p_boardId p) (map b_id (boards s)) /\
                on_board s n (p_boardId p).
Proof.
  rewrite in_flat_map. split.
  - intros [se0 [Hse H]]. apply in_flat_map in H. destruct H as [p [Hp H]].
    apply in_flat_map in H. destruct H as [b [Hb H]].
    apply in_flat_map in H. destruct H as [bu [Hbu H]].
    destruct (_ && _) eqn:E; [| destruct H]. destruct H as [<- | []].
    apply andb_prop in E. destruct E as [E E4].
    apply andb_prop in E. destruct E as [E E3].
    apply andb_prop in E. destruct E as [E1 E2].
    apply Z.eqb_eq in E1, E2, E3, E4.
    split; [exact Hse |]. exists p. split; [exact Hp |]. split; [auto |].
    split; [rewrite E2; now apply in_map |].
    unfold on_board. destruct bu as [bb uu]. simpl in *.
    rewrite E2, <- E3, <- E4. exact Hbu.
  - intros [Hse [p [Hp [Ep [Hb On]]]]]. exists se. split; [exact Hse |].
    apply in_map_iff in Hb. destruct Hb as [b [Eb Hb]].
    apply in_flat_map. exists p. split; [exact Hp |].
    apply in_flat_map. exists b. split; [exact Hb |].
    apply in_flat_map. eexists. split; [exact On |].
    simpl. rewrite Ep, Eb, !Z.eqb_refl. now left.
Qed.

(** X19: [Session.getAllSessionsFromUsersBoards] fails with NotFound
    exactly when the user is absent; otherwise it returns the sessions
    whose project is on a board the user is on, and no others. *)
Theorem getAllSessionsFromUsersBoards_spec (s : Store) (x : jsval) (n : Z) :
  pg_int x = Some n ->
  (~ In n (map u_id (users s)) ->
   Session.getAllSessionsFromUsersBoards s x = Err NotFound) /\
  (In n (map u_id (users s)) ->
   exists rows,
     Session.getAllSessionsFromUsersBoards s x = Ok rows /\
     forall se, In se rows <->
       In se (sessions s) /\
       exists p, In p (projects s) /\ p_id p = s_projectId se /\
                 In (p_boardId p) (map b_id (boards s)) /\
                 on_board s n (p_boardId p)).
Proof.
  intros Hx. unfold Session.getAllSessionsFromUsersBoards.
  rewrite (param_Some _ _ Hx). simpl. split.
  - intros Hout. now rewrite (check_absent u_id _ _ Hout).
  - intros Hin. destruct (check_found u_id _ _ Hin) as [row [-> _]].
    eexists. split; [reflexivity |]. intros se. apply sessions_on_boards_In.
Qed.

Lemma getAllSessionsFromUsersBoards_spec_witness :
  Session.getAllSessionsFromUsersBoards demo (JNum 99) = Err NotFound /\
  exists rows,
    Session.getAllSessionsFromUsersBoards demo (JNum 1) = Ok rows /\
    forall se, In se rows <->
      In se (sessions demo) /\
      exists p, In p (projects demo) /\ p_id p = s_projectId se /\
                In (p_boardId p) (map b_id (boards demo)) /\
                on_board demo 1 (p_boardId p).
Proof.
  destruct (getAllSessionsFromUsersBoards_spec demo (JNum 99) 99 eq_refl)
    as [N _].
  destruct (getAllSessionsFromUsersBoards_spec demo (JNum 1) 1 eq_refl)
    as [_ F].
  split.
  - apply N. simpl. intros [H | [H | [H | [H | []]]]]; discriminate H.
  - apply F. simpl. tauto.
Defined.

(** X20: what GET / of the sessions router lists, its reader may change:
    every session the handler returns to an actor passes
    [ensureUserOnSessionOrPm] for that actor, in front of PATCH and
    DELETE; for a PM it passes [ensureUserOnSessionBoard] as well. *)
Theorem listed_sessions_can_be_modified
  (s : Store) (a : Actor) (rows : list SessionRow) :
  store_ok s = true ->
  Routes.sessions_list s a = Ok rows ->
  forall se req, In se rows ->
    pg_int (JStr (sessionId req)) = Some (s_id se) ->
    Auth.ensureUserOnSessionOrPm s (Some a) req = Ok tt /\
    (user_isPm a = true ->
     Auth.ensureUserOnSessionBoard s (Some a) req = Ok tt).
Proof.
  intros Hs L se req Hin Hx. unfold Routes.sessions_list in L.
  assert (int4 (user_id a) = true) as Ha.
  { destruct (int4 (user_id a)) eqn:I; [reflexivity |].
    destruct (user_isPm a);
      unfold Session.getAllSessionsFromUsersBoards,
             Session.getSessionsByUserId, param in L;
      simpl in L; rewrite I in L; discriminate. }
  destruct (user_isPm a) eqn:Pm.
  - unfold Session.getAllSessionsFromUsersBoards in L.
    rewrite (param_Some _ _ (pg_int_JNum _ Ha)) in L. simpl in L.
    destruct (rows0 _); [| discriminate]. injection L as <-.
    apply sessions_on_boards_In in Hin.
    destruct Hin as [Hse [p [Hp [Ep [Hb On]]]]].
    apply member_row_on_board in On. split.
    + rewrite (ensureUserOnSessionOrPm_eval s a req se p); auto.
      rewrite Pm, On. simpl. now rewrite orb_true_r.
    + intros _. unfold Auth.ensureUserOnSessionBoard.
      destruct (session_lookups s _ se p Hs Hse Hx Hp Ep) as [G _].
      rewrite G. simpl.
      rewrite (isUserOnBoard_found s _ _ (user_id a) (p_boardId p));
        auto using pg_int_JNum.
      * now rewrite On.
      * apply pg_int_JNum. eapply store_ok_board_int4; eassumption.
  - split; [| discriminate].
    unfold Session.getSessionsByUserId in L.
    rewrite (param_Some _ _ (pg_int_JNum _ Ha)) in L. simpl in L.
    destruct (rows0 _); [| discriminate]. injection L as <-.
    apply filter_In in Hin. destruct Hin as [Hse Own].
    destruct (store_ok_session s se Hs Hse) as [Hp _].
    apply in_map_iff in Hp. destruct Hp as [p [Ep Hp]].
    rewrite (ensureUserOnSessionOrPm_eval s a req se p); auto.
    now rewrite Own.
Qed.

Lemma listed_sessions_can_be_modified_witness :
  Routes.sessions_list demo (actor 2 false)
    = Ok [{| s_id := 1; s_projectId := 1; s_userId := 2;
             s_startDatetime := 0; s_endDatetime := None;
             s_categoryId := 1; s_comment := None |}] /\
  Auth.ensureUserOnSessionOrPm demo (Some (actor 2 false)) (at_id "1") = Ok tt.
Proof.
  split; [reflexivity |].
  pose (se := {| s_id := 1; s_projectId := 1; s_userId := 2;
                 s_startDatetime := 0; s_endDatetime := None;
                 s_categoryId := 1; s_comment := None |}).
  exact (proj1 (listed_sessions_can_be_modified demo (actor 2 false) [se]
                  eq_refl eq_refl se (at_id "1") (or_introl eq_refl) eq_refl)).
Defined.

(** ** Requests: a chain and its handler *)

Lemma project_getById_Ok (s : Store) (x : jsval) (p : ProjectRow) :
  Project.getById s x = Ok p -> In p (projects s) /\ pg_int x = Some (p_id p).
Proof.
  unfold Project.getById, param.
  destruct (pg_int x) as [n |]; simpl; [| discriminate].
  destruct (rows0 _) as [q |] eqn:E; [| discriminate].
  intros [= ->]. apply rows0_filter_Some in E. destruct E as [Hin E].
  apply Z.eqb_eq in E. now subst.
Qed.

Lemma ensureUserOnSessionOrPm_Ok (s : Store) (a : Actor) (req : Params) :
  Auth.ensureUserOnSessionOrPm s (Some a) req = Ok tt ->
  exists se proj,
    rows0 (filter (fun r => s_id r =? s_id se) (sessions s)) = Some se /\
    pg_int (JStr (sessionId req)) = Some (s_id se) /\
    In proj (projects s) /\ p_id proj = s_projectId se /\
    (s_userId se = user_id a \/
     (user_isPm a = true /\ on_board s (user_id a) (p_boardId proj))).
Proof.
  unfold Auth.ensureUserOnSessionOrPm, Session.getById, param.
  destruct (pg_int (JStr (sessionId req))) as [n |] eqn:Hx; [| discriminate].
  cbn [bind].
  destruct (rows0 (filter (fun r => s_id r =? n) (sessions s)))
    as [se |] eqn:Ese; [| discriminate].
  destruct (Project.getById s (JNum (s_projectId se))) as [proj |] eqn:Ep;
    [| discriminate].
  cbn [bind].
  destruct (Board.isUserOnBoard s _ _) as [q |] eqn:Eq; [| discriminate].
  cbn [bind]. intros H. apply passes in H.
  pose proof (rows0_filter_Some _ _ _ Ese) as [_ En]. apply Z.eqb_eq in En.
  subst n. apply project_getById_Ok in Ep. destruct Ep as [Hp Kp].
  apply pg_int_JNum_inv in Kp.
  exists se, proj. repeat split; auto.
  apply orb_prop in H. destruct H as [H | H].
  - left. simpl in H. now apply Z.eqb_eq.
  - right. apply andb_prop in H. destruct H as [Pm Q]. subst q.
    split; [exact Pm |]. apply isUserOnBoard_true in Eq.
    destruct Eq as [un [bn [Hu [Hb On]]]].
    apply pg_int_JNum_inv in Hu, Hb. now subst.
Qed.

(** X21: DELETE /:sessionId as a whole.  The request succeeds exactly
    when the chain passes: the handler's own NotFound cannot occur behind
    the chain.  A request the chain rejects gets the chain's error and
    leaves the store as it was.  A request that succeeds came from the
    session's author or from a PM on the board of the session's project,
    and removes that session and no other. *)
Theorem session_delete_request (s : Store) (user : option Actor) (req : Params) :
  let s' := fst (Routes.session_delete s user req) in
  let outcome := snd (Routes.session_delete s user req) in
  (outcome = Ok (sessionId req) <-> gate SessionDelete s user req = Ok tt) /\
  (forall e, gate SessionDelete s user req = Err e ->
     outcome = Err e /\ s' = s) /\
  (outcome = Ok (sessionId req) ->
   exists a se proj,
     user = Some a /\ In se (sessions s) /\
     pg_int (JStr (sessionId req)) = Some (s_id se) /\
     In proj (projects s) /\ p_id proj = s_projectId se /\
     (s_userId se = user_id a \/
      (user_isPm a = true /\ on_board s (user_id a) (p_boardId proj))) /\
     (forall r, In r (sessions s') <-> In r (sessions s) /\ s_id r <> s_id se)).
Proof.
  cbv zeta. unfold Routes.session_delete.
  destruct (gate SessionDelete s user req) as [[] | e] eqn:G.
  - assert (exists a, user = Some a /\
                      Auth.ensureUserOnSessionOrPm s (Some a) req = Ok tt)
      as [a [-> P]].
    { unfold gate in G. simpl in G. destruct user as [a |]; [| discriminate].
      exists a. split; [reflexivity |]. simpl in G.
      destruct (Auth.ensureUserOnSessionOrPm s (Some a) req) as [[] |];
        [reflexivity | discriminate]. }
    apply ensureUserOnSessionOrPm_Ok in P.
    destruct P as [se [proj [Ese [Hx [Hp [Ep Who]]]]]].
    unfold Session.delete. rewrite (param_Some _ _ Hx), Ese. simpl.
    split; [tauto |]. split; [discriminate |]. intros _.
    exists a, se, proj.
    split; [reflexivity |].
    split; [apply rows0_filter_Some in Ese; tauto |].
    split; [exact Hx |]. split; [exact Hp |]. split; [exact Ep |].
    split; [exact Who |].
    intros r. rewrite filter_In, negb_true_iff, Z.eqb_neq. tauto.
  - simpl. split; [split; discriminate |]. split.
    + intros e0 [= <-]. now split.
    + discriminate.
Qed.

Lemma session_delete_request_witness :
  Routes.session_delete demo (Some (actor 2 false)) (at_id "1")
    = (set_sessions demo [], Ok "1"%string) /\
  Routes.session_delete demo (Some (actor 3 false)) (at_id "1")
    = (demo, Err Unauthorized).
Proof.
  pose proof (session_delete_request demo (Some (actor 3 false)) (at_id "1"))
    as D.
  cbv zeta in D. destruct D as [_ [D _]].
  destruct (D Unauthorized eq_refl) as [D1 D2].
  split; [reflexivity |].
  rewrite (surjective_pairing (Routes.session_delete _ _ _)).
  now rewrite D1, D2.
Defined.

(** X22: DELETE /:boardId/users as a whole, under the schema's
    constraints.  The request succeeds exactly when the actor is a PM on
    the board and the user named in the body is on the board; otherwise
    the store stays as it was.  After a success the user is off the
    board; a PM who removed themself is then rejected on the same
    request with Unauthorized. *)
Theorem board_user_remove_request
  (s : Store) (a : Actor) (req : Params) (body : jsval) (un bn : Z) :
  store_ok s = true ->
  pg_int body = Some un -> pg_int (JStr (boardId req)) = Some bn ->
  let s' := fst (Routes.board_user_remove s (Some a) req body) in
  let outcome := snd (Routes.board_user_remove s (Some a) req body) in
  (outcome = Ok body <->
   user_isPm a = true /\ on_board s (user_id a) bn /\ on_board s un bn) /\
  (outcome <> Ok body -> s' = s) /\
  (outcome = Ok body ->
   ~ on_board s' un bn /\
   (forall r, In r (boards_users s') <->
      In r (boards_users s) /\ r <> {| bu_board_id := bn; bu_user_id := un |}) /\
   (un = user_id a ->
    gate BoardUsersRemove s' (Some a) req = Err Unauthorized)).
Proof.
  intros Hs Hu Hb. cbv zeta. unfold Routes.board_user_remove.
  assert (forall st, boards st = boards s ->
            In bn (map b_id (boards s)) -> int4 (user_id a) = true ->
            gate BoardUsersRemove st (Some a) req =
            if user_isPm a
            then if existsb (member_row (user_id a) bn) (boards_users st)
                 then Ok tt else Err Unauthorized
            else Err Unauthorized) as GateEval.
  { intros st Eb Hin Ha. unfold gate. simpl.
    destruct (user_isPm a); [| reflexivity]. simpl.
    unfold Auth.ensureUserOnBoard. simpl.
    rewrite (isUserOnBoard_found st _ _ (user_id a) bn);
      auto using pg_int_JNum; [| now rewrite Eb].
    simpl. now destruct (existsb _ _). }
  assert (Board.removeUserFromBoard s body (JStr (boardId req)) =
          (set_boards_users s
             (filter (fun r => negb (member_row un bn r)) (boards_users s)),
           if existsb (member_row un bn) (boards_users s)
           then Ok tt else Err NotFound)) as Rem.
  { unfold Board.removeUserFromBoard. rewrite Hu, Hb.
    change (fun r => (bu_user_id r =? un) && (bu_board_id r =? bn))
      with (member_row un bn).
    rewrite <- nonempty_filter.
    destruct (filter (member_row un bn) (boards_users s)); reflexivity. }
  destruct (gate BoardUsersRemove s (Some a) req) as [[] | e] eqn:G.
  - assert (user_isPm a = true /\ on_board s (user_id a) bn) as [Pm On].
    { unfold gate in G. simpl in G.
      destruct (user_isPm a); [| discriminate]. split; [reflexivity |].
      simpl in G.
      destruct (Auth.ensureUserOnBoard s (Some a) req) as [[] |] eqn:E;
        [| discriminate].
      apply ensureUserOnBoard_Ok in E. destruct E as [b [Hb' On]].
      congruence. }
    destruct (on_board_int4 s _ _ Hs On) as [Ha _].
    destruct (store_ok_membership s _ Hs On) as [Hin _]. simpl in Hin.
    rewrite Rem.
    destruct (existsb (member_row un bn) (boards_users s)) eqn:X; simpl.
    + apply member_row_on_board in X.
      split; [tauto |]. split; [congruence |]. intros _.
      assert (forall r,
        In r (filter (fun r => negb (member_row un bn r)) (boards_users s))
        <-> In r (boards_users s) /\
            r <> {| bu_board_id := bn; bu_user_id := un |}) as M.
      { intros r. rewrite filter_In, negb_true_iff, <- not_true_iff_false,
          member_row_true. tauto. }
      assert (~ on_board
                (set_boards_users s
                   (filter (fun r => negb (member_row un bn r)) (boards_users s)))
                un bn) as Off.
      { unfold on_board. simpl. rewrite M. tauto. }
      split; [exact Off |]. split; [exact M |].
      intros ->.
      match goal with |- gate _ ?st _ _ = _ =>
        rewrite (GateEval st eq_refl Hin Ha), Pm end.
      destruct (existsb _ _) eqn:Y; [| reflexivity].
      apply member_row_on_board in Y. contradiction.
    + assert (~ on_board s un bn) as Off
        by (intros C; apply member_row_on_board in C; congruence).
      split; [split; [discriminate | tauto] |]. split; [| discriminate].
      intros _. rewrite filter_negb_all; [apply set_boards_users_same |].
      intros x Hx. apply not_true_is_false. intros C.
      assert (existsb (member_row un bn) (boards_users s) = true) as T
        by (apply existsb_exists; eauto).
      congruence.
  - simpl. split; [split; [discriminate |] | split; [reflexivity | discriminate]].
    intros [Pm [On _]].
    destruct (on_board_int4 s _ _ Hs On) as [Ha _].
    destruct (store_ok_membership s _ Hs On) as [Hin _]. simpl in Hin.
    rewrite (GateEval s eq_refl Hin Ha), Pm in G.
    apply member_row_on_board in On. rewrite On in G. discriminate.
Qed.

Lemma board_user_remove_request_witness :
  snd (Routes.board_user_remove demo (Some (actor 1 true)) (at_id "1") (JNum 1))
    = Ok (JNum 1) /\
  gate BoardUsersRemove
    (fst (Routes.board_user_remove demo (Some (actor 1 true)) (at_id "1")
            (JNum 1)))
    (Some (actor 1 true)) (at_id "1") = Err Unauthorized.
Proof.
  pose proof (board_user_remove_request demo (actor 1 true) (at_id "1")
                (JNum 1) 1 1 eq_refl eq_refl eq_refl) as T.
  cbv zeta in T. destruct T as [T1 [_ T2]].
  assert (on_board demo 1 1) as On by (unfold on_board; simpl; tauto).
  assert (snd (Routes.board_user_remove demo (Some (actor 1 true)) (at_id "1")
                 (JNum 1)) = Ok (JNum 1)) as E.
  { apply T1. split; [reflexivity |]. split; exact On. }
  split; [exact E |]. destruct (T2 E) as [_ [_ G]]. now apply G.
Defined.

(** ** The statement of a partial update *)

(** X23: in the statement [Project.update] and [Session.update] hand to
    the store for a non-empty input, the placeholder of the WHERE clause
    is the number of bound values, one more than the last placeholder of
    the SET clause and different from every one of them; the values of
    the input are bound in the order of the fragments and the id is bound
    last. *)
Theorem update_statement_placeholders
  (jsToSql : list (string * string)) (id : jsval) (data : list (string * jsval)) :
  data <> [] ->
  exists st,
    Update.statement jsToSql id data = Ok st /\
    Update.setCols st =
      String.concat ", " (Sql.map_idx (Sql.fragment jsToSql) 0%nat (map fst data)) /\
    Update.idSqlIndex st
      = ("$" ++ Sql.decimal (List.length (Update.bound st)))%string /\
    List.length (Update.bound st) = S (List.length data) /\
    nth_error (Update.bound st) (List.length data) = Some id /\
    (forall i k v, nth_error data i = Some (k, v) ->
       nth_error (Update.bound st) i = Some v /\
       nth_error (Sql.map_idx (Sql.fragment jsToSql) 0%nat (map fst data)) i
         = Some (Sql.fragment jsToSql k i) /\
       Sql.decimal (i + 1) <> Sql.decimal (List.length (Update.bound st))).
Proof.
  intros NE. unfold Update.statement, Sql.sqlForPartialUpdate.
  destruct data as [| kv data]; [contradiction |].
  set (d := kv :: data) in *. simpl (List.length (map fst d) =? 0)%nat.
  cbn [bind Sql.values Sql.sqlSetCols].
  eexists. split; [reflexivity |].
  cbn [Update.setCols Update.idSqlIndex Update.bound].
  assert (List.length (map snd d ++ [id]) = S (List.length d)) as L
    by (rewrite length_app, length_map; simpl; lia).
  split; [reflexivity |]. split.
  { rewrite L, length_map. do 2 f_equal. lia. }
  split; [exact L |]. split.
  { rewrite nth_error_app2; rewrite length_map; [| lia].
    now rewrite Nat.sub_diag. }
  intros i k v H.
  assert (i < List.length d)%nat as Lt
    by (apply nth_error_Some; congruence).
  split; [| split].
  - rewrite nth_error_app1 by (rewrite length_map; exact Lt).
    now rewrite nth_error_map, H.
  - rewrite (map_idx_nth _ _ 0%nat i k); [reflexivity |].
    now rewrite nth_error_map, H.
  - rewrite L. intros C. apply decimal_injective in C. lia.
Qed.

Lemma update_statement_placeholders_witness :
  exists st,
    Update.session (JStr "7") [("comment", JStr "x"); ("categoryId", JNum 3)]
      = Ok st /\
    Update.idSqlIndex st = "$3"%string /\
    Update.bound st = [JStr "x"; JNum 3; JStr "7"].
Proof.
  destruct (update_statement_placeholders
              [("startDatetime", "start_datetime");
               ("endDatetime", "end_datetime");
               ("categoryId", "category_id")]
              (JStr "7") [("comment", JStr "x"); ("categoryId", JNum 3)])
    as [st [E _]]; [discriminate |].
  exists st. split; [exact E |].
  injection E as <-. split; reflexivity.
Defined.

(** ** Two views of one relation *)

(** X24: under the schema's constraints every stored session is listed
    by [getProjectSessions] of its project and by [getSessionsByUserId]
    of its author, neither lookup failing, and a listing holds only
    sessions of the project, or of the author, it was asked for. *)
Theorem sessions_listed_by_project_and_author (s : Store) (se : SessionRow) :
  store_ok s = true -> In se (sessions s) ->
  (exists rows,
     Session.getProjectSessions s (JNum (s_projectId se)) = Ok rows /\
     In se rows /\
     forall r, In r rows <-> In r (sessions s) /\ s_projectId r = s_projectId se) /\
  (exists rows,
     Session.getSessionsByUserId s (JNum (s_userId se)) = Ok rows /\
     In se rows /\
     forall r, In r rows <-> In r (sessions s) /\ s_userId r = s_userId se).
Proof.
  intros Hs Hse. destruct (store_ok_session s se Hs Hse) as [Hp Hu].
  pose proof (store_ok_project_int4 s _ Hs Hp) as Ip.
  pose proof (store_ok_user_int4 s _ Hs Hu) as Iu.
  split.
  - unfold Session.getProjectSessions.
    rewrite (param_Some _ _ (pg_int_JNum _ Ip)). simpl.
    destruct (check_found p_id _ _ Hp) as [row [-> _]].
    eexists. split; [reflexivity |].
    assert (forall r, In r (filter (fun r => s_projectId r =? s_projectId se)
                                   (sessions s))
                      <-> In r (sessions s) /\ s_projectId r = s_projectId se) as M
      by (intros r; rewrite filter_In, Z.eqb_eq; tauto).
    split; [apply M; tauto | exact M].
  - unfold Session.getSessionsByUserId.
    rewrite (param_Some _ _ (pg_int_JNum _ Iu)). simpl.
    destruct (check_found u_id _ _ Hu) as [row [-> _]].
    eexists. split; [reflexivity |].
    assert (forall r, In r (filter (fun r => s_userId r =? s_userId se)
                                   (sessions s))
                      <-> In r (sessions s) /\ s_userId r = s_userId se) as M
      by (intros r; rewrite filter_In, Z.eqb_eq; tauto).
    split; [apply M; tauto | exact M].
Qed.

Lemma sessions_listed_by_project_and_author_witness :
  exists rows,
    Session.getProjectSessions demo (JNum 1) = Ok rows /\
    In {| s_id := 1; s_projectId := 1; s_userId := 2;
          s_startDatetime := 0; s_endDatetime := None;
          s_categoryId := 1; s_comment := None |} rows.
Proof.
  destruct (sessions_listed_by_project_and_author demo
    {| s_id := 1; s_projectId := 1; s_userId := 2;
       s_startDatetime := 0; s_endDatetime := None;
       s_categoryId := 1; s_comment := None |} eq_refl (or_introl eq_refl))
    as [[rows [E [H _]]] _].
  exists rows. split; [exact E | exact H].
Defined.

(** X25: [getUserProjects] and [getProjectUsers] are two views of
    projects_users: for a user and a project that exist, the project is
    among the user's projects exactly when the user is among the
    project's users, and exactly when [isUserOnProject] answers true. *)
Theorem project_membership_views_agree
  (s : Store) (u : UserRow) (p : ProjectRow) :
  store_ok s = true -> In u (users s) -> In p (projects s) ->
  exists projs usrs,
    Project.getUserProjects s (JNum (u_id u)) = Ok projs /\
    Project.getProjectUsers s (JNum (p_id p)) = Ok usrs /\
    (In p projs <-> In u usrs) /\
    (In p projs <->
     Project.isUserOnProject s (JNum (u_id u)) (JNum (p_id p)) = Ok true).
Proof.
  intros Hs Hu Hp.
  assert (In (u_id u) (map u_id (users s))) as Iu by now apply in_map.
  assert (In (p_id p) (map p_id (projects s))) as Ip by now apply in_map.
  pose proof (store_ok_user_int4 s _ Hs Iu) as I4u.
  pose proof (store_ok_project_int4 s _ Hs Ip) as I4p.
  unfold Project.getUserProjects, Project.getProjectUsers.
  rewrite (param_Some _ _ (pg_int_JNum _ I4u)),
          (param_Some _ _ (pg_int_JNum _ I4p)). simpl.
  destruct (check_found u_id _ _ Iu) as [urow [-> _]].
  destruct (check_found p_id _ _ Ip) as [prow [-> _]].
  eexists. eexists. split; [reflexivity |]. split; [reflexivity |].
  assert (In p (flat_map (fun p0 =>
                  flat_map (fun pu =>
                    if (p_id p0 =? pu_project_id pu) && (pu_user_id pu =? u_id u)
                    then [p0] else []) (projects_users s)) (projects s))
          <-> on_project s (u_id u) (p_id p)) as A.
  { rewrite in_flat_map. split.
    - intros [p0 [H0 H]]. apply in_flat_map in H. destruct H as [pu [Hpu H]].
      destruct (_ && _) eqn:E; [| destruct H]. destruct H as [-> | []].
      apply andb_prop in E. destruct E as [E1 E2]. apply Z.eqb_eq in E1, E2.
      unfold on_project. destruct pu as [pp uu]. simpl in *. now subst.
    - intros On. exists p. split; [exact Hp |].
      apply in_flat_map. eexists. split; [exact On |]. simpl.
      rewrite !Z.eqb_refl. now left. }
  assert (In u (flat_map (fun u0 =>
                  flat_map (fun pu =>
                    if (u_id u0 =? pu_user_id pu) && (pu_project_id pu =? p_id p)
                    then [u0] else []) (projects_users s)) (users s))
          <-> on_project s (u_id u) (p_id p)) as B.
  { rewrite in_flat_map. split.
    - intros [u0 [H0 H]]. apply in_flat_map in H. destruct H as [pu [Hpu H]].
      destruct (_ && _) eqn:E; [| destruct H]. destruct H as [-> | []].
      apply andb_prop in E. destruct E as [E1 E2]. apply Z.eqb_eq in E1, E2.
      unfold on_project. destruct pu as [pp uu]. simpl in *. now subst.
    - intros On. exists u. split; [exact Hu |].
      apply in_flat_map. eexists. split; [exact On |]. simpl.
      rewrite !Z.eqb_refl. now left. }
  split; [now rewrite A, B |].
  rewrite A, (isUserOnProject_eval s _ _ (u_id u) (p_id p)
                (pg_int_JNum _ I4u) (pg_int_JNum _ I4p)).
  rewrite <- assigned_row_on_project.
  destruct (existsb _ _); split; congruence.
Qed.

Lemma project_membership_views_agree_witness :
  exists projs usrs,
    Project.getUserProjects demo (JNum 2) = Ok projs /\
    Project.getProjectUsers demo (JNum 1) = Ok usrs /\
    (In {| p_id := 1; p_name := "one"; p_priority := 1;
           p_stage := "pending"; p_boardId := 1 |} projs
     <-> In (demo_user 2 false) usrs) /\
    (In {| p_id := 1; p_name := "one"; p_priority := 1;
           p_stage := "pending"; p_boardId := 1 |} projs
     <-> Project.isUserOnProject demo (JNum 2) (JNum 1) = Ok true).
Proof.
  apply (project_membership_views_agree demo (demo_user 2 false)
    {| p_id := 1; p_name := "one"; p_priority := 1;
       p_stage := "pending"; p_boardId := 1 |}); try reflexivity; simpl; tauto.
Defined.

(** ** Reading a board and a user behind the chains *)

(** X26: GET /:boardId as a whole, for an actor whose id is in range.
    The board's row is returned exactly to the members of the board; an
    actor who is not a member gets Unauthorized when the board exists
    and NotFound when it does not, and no row in either case. *)
Theorem board_get_request (s : Store) (a : Actor) (req : Params) (bn : Z) :
  int4 (user_id a) = true -> pg_int (JStr (boardId req)) = Some bn ->
  (forall row, Routes.board_get s (Some a) req = Ok row ->
     In row (boards s) /\ b_id row = bn /\ on_board s (user_id a) bn) /\
  (on_board s (user_id a) bn -> In bn (map b_id (boards s)) ->
   exists row, Routes.board_get s (Some a) req = Ok row) /\
  (~ on_board s (user_id a) bn -> In bn (map b_id (boards s)) ->
   Routes.board_get s (Some a) req = Err Unauthorized) /\
  (~ In bn (map b_id (boards s)) ->
   Routes.board_get s (Some a) req = Err NotFound).
Proof.
  intros Ha Hb. unfold Routes.board_get, gate. simpl.
  unfold Auth.ensureUserOnBoard, Board.get. cbn [Auth.id_of bind].
  rewrite (param_Some _ _ Hb). cbn [bind].
  destruct (in_dec Z.eq_dec bn (map b_id (boards s))) as [Hin | Hout].
  - rewrite (isUserOnBoard_found s _ _ (user_id a) bn (pg_int_JNum _ Ha) Hb Hin).
    cbn [bind]. destruct (check_found b_id _ _ Hin) as [row [E K]].
    destruct (existsb (member_row (user_id a) bn) (boards_users s)) eqn:X.
    + apply member_row_on_board in X. simpl. rewrite E.
      repeat apply conj; try tauto.
      * intros r [= <-]. apply rows0_filter_Some in E. tauto.
      * intros _ _. now exists row.
    + assert (~ on_board s (user_id a) bn) as Off
        by (intros C; apply member_row_on_board in C; congruence).
      simpl. repeat apply conj; try tauto; try discriminate; try reflexivity.
  - assert (Board.isUserOnBoard s (JNum (user_id a)) (JStr (boardId req))
            = Err NotFound) as ->.
    { apply (isUserOnBoard_absent s _ _ bn Hb). intros r Hr E. apply Hout.
      rewrite <- E. now apply in_map. }
    simpl. repeat apply conj; try tauto; try discriminate; try reflexivity.
Qed.

Lemma board_get_request_witness :
  Routes.board_get demo (Some (actor 2 false)) (at_id "1")
    = Ok {| b_id := 1; b_title := "alpha" |} /\
  Routes.board_get demo (Some (actor 3 false)) (at_id "1") = Err Unauthorized /\
  Routes.board_get demo (Some (actor 3 false)) (at_id "99") = Err NotFound.
Proof.
  destruct (board_get_request demo (actor 3 false) (at_id "1") 1
              eq_refl eq_refl) as [_ [_ [U _]]].
  destruct (board_get_request demo (actor 3 false) (at_id "99") 99
              eq_refl eq_refl) as [_ [_ [_ N]]].
  split; [reflexivity |]. split.
  - apply U; [| simpl; tauto].
    unfold on_board. simpl. intros [H | [H | []]]; discriminate H.
  - apply N. simpl. intros [H | [H | []]]; discriminate H.
Defined.

(** X27: GET /:userId as a whole, under the schema's constraints.  A
    request that returns a row returns the row of the user in the path,
    and the actor is on a board that user is on; behind the chain the
    handler's own NotFound cannot occur. *)
Theorem user_get_request (s : Store) (a : Actor) (req : Params) :
  store_ok s = true ->
  ((exists row, Routes.user_get s (Some a) req = Ok row)
   <-> gate UserGet s (Some a) req = Ok tt) /\
  (forall row, Routes.user_get s (Some a) req = Ok row ->
     In row (users s) /\
     pg_int (JStr (userId req)) = Some (u_id row) /\
     exists b, on_board s (user_id a) b /\ on_board s (u_id row) b).
Proof.
  intros Hs. unfold Routes.user_get.
  destruct (gate UserGet s (Some a) req) as [[] | e] eqn:G; cbn [bind].
  2:{ split; [split; [intros [row H] |]; discriminate | discriminate]. }
  assert (Auth.ensureUserOnSharedBoard s (Some a) req = Ok tt) as P.
  { unfold gate in G. simpl in G.
    destruct (Auth.ensureUserOnSharedBoard s (Some a) req) as [[] |];
      [reflexivity | discriminate]. }
  unfold Auth.ensureUserOnSharedBoard in P.
  destruct (User.getAllFromSharedBoards s (JStr (userId req)))
    as [rows |] eqn:E; [| discriminate].
  cbn [bind] in P. apply passes in P.
  pose proof (getAllFromSharedBoards_Ok s _ rows E) as [n [Hn M]].
  assert (In n (map u_id (users s))) as Hin.
  { unfold User.getAllFromSharedBoards in E. rewrite (param_Some _ _ Hn) in E.
    simpl in E. destruct (rows0 _) as [r |] eqn:R; [| discriminate].
    apply rows0_filter_Some in R. destruct R as [Hr Er].
    apply Z.eqb_eq in Er. rewrite <- Er. now apply in_map. }
  apply (shares_board s a rows n Hs M) in P.
  unfold User.getById. rewrite (param_Some _ _ Hn). simpl.
  destruct (check_found u_id _ _ Hin) as [row [R K]]. rewrite R.
  split; [split; [reflexivity | intros _; now exists row] |].
  intros r [= <-]. apply rows0_filter_Some in R.
  split; [tauto |]. split; [now rewrite K |]. now rewrite K.
Qed.

Lemma user_get_request_witness :
  Routes.user_get demo (Some (actor 1 true)) (at_id "2") = Ok (demo_user 2 false) /\
  exists b, on_board demo 1 b /\ on_board demo 2 b.
Proof.
  destruct (user_get_request demo (actor 1 true) (at_id "2") eq_refl)
    as [_ T].
  split; [reflexivity |].
  destruct (T (demo_user 2 false) eq_refl) as [_ [_ B]]. exact B.
Defined.
